(** * github_trending_list: the fetch-and-merge pipeline

    A shallow embedding of [gathering.py] (one run: fetch the trending pages
    of every language, aggregate the repositories by name, refresh the cached
    language list) and of [organize.py] (merge the per-run JSON files into the
    cumulative files), followed by the properties of the specification.
    The last part adds the extraction of a page, the discovery of the
    languages, [measure.py] and the probe of [main.py], with further
    properties of all four programs.

    Conventions of the embedding:
    - a Python [dict] keyed by strings is an association list in insertion
      order ([dict] keeps that order, and [list(output.values())] is what the
      programs write to disk);
    - a call that may raise returns a [result]; the exception classes are the
      ones the programs catch or let through;
    - a text is kept as its UTF-8 encoding, and a file holds any bytes;
    - the file system is an explicit [world], threaded through the calls;
    - library and network behaviour the programs do not define (the HTML
      extraction done with BeautifulSoup, [json.dump]/[json.load], the
      responses of the remote site) are parameters. *)

From Stdlib Require Import List String Ascii ZArith Lia Bool Arith Permutation.
Import ListNotations.
Local Open Scope string_scope.
Local Open Scope list_scope.

Set Implicit Arguments.

(* ================================================================== *)
(** * Part I: the programs *)
(* ================================================================== *)

(** ** Python results *)

Module Py.

(** The exception classes that matter here. [IOError] is an alias of
    [OSError] in Python 3 ([FileNotFoundError], [PermissionError] are
    subclasses); [json.JSONDecodeError] and [UnicodeDecodeError] are
    subclasses of [ValueError]. [ExtractionError] stands for an exception
    that leaves the extraction of a page ([KeyError] or
    [SelectorSyntaxError]): no handler of the programs catches one or
    tells them apart. *)
Inductive exn : Type :=
| OSError
| ValueError
| TypeError
| ExtractionError.

Inductive result (A : Type) : Type :=
| Return (a : A)
| Raise (e : exn).

Arguments Return {A} a.
Arguments Raise {A} e.

Definition raises {A : Type} (r : result A) : bool :=
  match r with
  | Return _ => false
  | Raise _ => true
  end.

End Py.

(** ** Dictionaries with string keys, in insertion order *)

Module Dict.

Section Ops.
Context {V : Type}.

Definition t : Type := list (string * V).

Fixpoint get (k : string) (d : t) : option V :=
  match d with
  | [] => None
  | (k', v) :: rest => if String.eqb k' k then Some v else get k rest
  end.

(** [k in d.keys()] *)
Definition mem (k : string) (d : t) : bool :=
  match get k d with
  | Some _ => true
  | None => false
  end.

(** In-place change of the value stored under [k]; the entry keeps its
    position. *)
Fixpoint update (k : string) (f : V -> V) (d : t) : t :=
  match d with
  | [] => []
  | (k', v) :: rest =>
      if String.eqb k' k then (k', f v) :: rest
      else (k', v) :: update k f rest
  end.

(** [d[k] = v] *)
Definition set (k : string) (v : V) (d : t) : t :=
  if mem k d then update k (fun _ => v) d else d ++ [(k, v)].

Definition keys (d : t) : list string := map fst d.

Definition values (d : t) : list V := map snd d.

End Ops.

Arguments t V : clear implicits.

End Dict.

(** ** Data model *)

(** One element of a repository's ['published'] list. *)
Record FacetMembership : Type := {
  pub_language : string;
  pub_spoken_language_code : string;
  pub_since : string
}.

(** The dictionary built for one [article] of a trending page. *)
Record EntityRecord : Type := {
  repository_name : string;
  repository_url : string;
  description : string;
  language : string;
  star : Z;
  fork : Z;
  date_range_stars : Z
}.

(** A repository dictionary once it carries its ['published'] list: the
    values of [output], and the elements of every JSON file. *)
Record AggregatedEntity : Type := {
  record : EntityRecord;
  published : list FacetMembership
}.

Definition name_of (e : AggregatedEntity) : string :=
  repository_name (record e).

(** ** Strings as the programs use them *)

Module Str.

Definition nl : string := String "010"%char EmptyString.

Fixpoint has_slash (s : string) : bool :=
  match s with
  | EmptyString => false
  | String c r => Ascii.eqb c "/"%char || has_slash r
  end.

Fixpoint all_slash (s : string) : bool :=
  match s with
  | EmptyString => true
  | String c r => Ascii.eqb c "/"%char && all_slash r
  end.

Definition ends_with (suffix s : string) : bool :=
  let n := String.length s in
  let m := String.length suffix in
  Nat.leb m n && String.eqb (substring (n - m) m s) suffix.

(** [p[:i+1]] for [i] the index of the last ['/'] of [p] (empty when
    there is none). *)
Fixpoint head_of (p : string) : string :=
  match p with
  | EmptyString => EmptyString
  | String c r =>
      if has_slash r then String c (head_of r)
      else if Ascii.eqb c "/"%char then "/" else ""
  end.

Fixpoint rstrip_slash (s : string) : string :=
  match s with
  | EmptyString => EmptyString
  | String c r => if all_slash s then "" else String c (rstrip_slash r)
  end.

(** [os.path.dirname] of [posixpath]. *)
Definition dirname (p : string) : string :=
  let head := head_of p in
  if all_slash head then head else rstrip_slash head.

(** *** Texts and bytes

    A text (a Python [str]) is kept as its UTF-8 encoding, one [ascii]
    per byte; the content of a file is any sequence of bytes. *)

Definition bytes (l : list nat) : list ascii := map ascii_of_nat l.

(** The white space of [str.strip()]: the characters U+0009 to U+000D,
    U+001C to U+0020, U+0085, U+00A0, U+1680, U+2000 to U+200A, U+2028,
    U+2029, U+202F, U+205F and U+3000, each by its encoding. *)
Definition white_space : list (list ascii) :=
  map (fun n => bytes [n]) [9; 10; 11; 12; 13; 28; 29; 30; 31; 32]
  ++ [bytes [194; 133]; bytes [194; 160]; bytes [225; 154; 128]]
  ++ map (fun n => bytes [226; 128; n])
       [128; 129; 130; 131; 132; 133; 134; 135; 136; 137; 138;
        168; 169; 175]
  ++ [bytes [226; 129; 159]; bytes [227; 128; 128]].

(** What follows the prefix [e] in [s], when [s] starts with [e]. *)
Fixpoint drop_prefix (e s : list ascii) : option (list ascii) :=
  match e, s with
  | [], _ => Some s
  | a :: e', b :: s' => if Ascii.eqb a b then drop_prefix e' s' else None
  | _ :: _, [] => None
  end.

(** [s] without its first character, when that is one of [chars]. *)
Fixpoint drop_one (chars : list (list ascii)) (s : list ascii)
  : option (list ascii) :=
  match chars with
  | [] => None
  | e :: rest =>
      match drop_prefix e s with
      | Some r => Some r
      | None => drop_one rest s
      end
  end.

(** [s] without its leading characters of [chars], at most [n] of them. *)
Fixpoint drop_leading (chars : list (list ascii)) (n : nat)
    (s : list ascii) : list ascii :=
  match n with
  | O => s
  | S n' =>
      match drop_one chars s with
      | Some r => drop_leading chars n' r
      | None => s
      end
  end.

Definition lstrip_bytes (s : list ascii) : list ascii :=
  drop_leading white_space (List.length s) s.

(** The trailing white space is the leading one of the reversed text,
    each character being read backwards. *)
Definition rstrip_bytes (s : list ascii) : list ascii :=
  rev (drop_leading (map (@rev ascii) white_space) (List.length s) (rev s)).

Definition strip_bytes (s : list ascii) : list ascii :=
  rstrip_bytes (lstrip_bytes s).

(** [s.strip()] *)
Definition strip (s : string) : string :=
  string_of_list_ascii (strip_bytes (list_ascii_of_string s)).

(** The lines [f.readlines()] yields for a file opened in text mode with
    the default [newline=None], without their line ending (which [strip]
    would remove anyway): a line ends at ["\n"], at ["\r\n"] and at a
    ["\r"] alone. *)
Fixpoint readlines (s : string) : list string :=
  match s with
  | EmptyString => []
  | String c r =>
      if Ascii.eqb c "010"%char then "" :: readlines r
      else if Ascii.eqb c "013"%char then
        "" :: match r with
              | EmptyString => []
              | String c' r' =>
                  if Ascii.eqb c' "010"%char then readlines r'
                  else readlines r
              end
      else match readlines r with
           | [] => [String c ""]
           | l :: ls => String c l :: ls
           end
  end.

(** The decoder of [open(..., encoding='utf-8')] accepts the well-formed
    byte sequences of RFC 3629 and raises [UnicodeDecodeError] on the
    others. The states say what is still expected of the current
    character. *)
Inductive utf8_state : Type :=
| Complete
| Last1
| Last2
| Last2_E0
| Last2_ED
| Last3
| Last3_F0
| Last3_F4.

Definition between (lo hi : nat) (c : ascii) : bool :=
  let n := nat_of_ascii c in Nat.leb lo n && Nat.leb n hi.

Definition utf8_step (st : utf8_state) (c : ascii) : option utf8_state :=
  match st with
  | Complete =>
      if between 0 127 c then Some Complete
      else if between 194 223 c then Some Last1
      else if between 224 224 c then Some Last2_E0
      else if between 225 236 c || between 238 239 c then Some Last2
      else if between 237 237 c then Some Last2_ED
      else if between 240 240 c then Some Last3_F0
      else if between 241 243 c then Some Last3
      else if between 244 244 c then Some Last3_F4
      else None
  | Last1 => if between 128 191 c then Some Complete else None
  | Last2 => if between 128 191 c then Some Last1 else None
  | Last2_E0 => if between 160 191 c then Some Last1 else None
  | Last2_ED => if between 128 159 c then Some Last1 else None
  | Last3 => if between 128 191 c then Some Last2 else None
  | Last3_F0 => if between 144 191 c then Some Last2 else None
  | Last3_F4 => if between 128 143 c then Some Last2 else None
  end.

Fixpoint utf8_run (st : utf8_state) (s : string) : option utf8_state :=
  match s with
  | EmptyString => Some st
  | String c r =>
      match utf8_step st c with
      | Some st' => utf8_run st' r
      | None => None
      end
  end.

Definition utf8_valid (s : string) : bool :=
  match utf8_run Complete s with
  | Some Complete => true
  | _ => false
  end.

(** A path relative to the working directory, without a leading ["./"]:
    the key under which the world stores it. *)
Definition norm (p : string) : string :=
  if String.eqb p "." then ""
  else if prefix "./" p then substring 2 (String.length p - 2) p
  else p.

End Str.

(** ** The file system *)

Module FS.

(** [files] maps normalised paths to the text of the file; [dirs] are the
    directories that exist (the working directory always does); opening a
    path of [denied] fails with [PermissionError]. *)
Record world : Type := {
  files : Dict.t string;
  dirs : list string;
  denied : list string
}.

Definition is_in (p : string) (l : list string) : bool :=
  existsb (String.eqb p) l.

Definition is_dir (w : world) (p : string) : bool :=
  String.eqb p "" || is_in p (dirs w).

(** Computations on the world that may raise. *)
Definition io (A : Type) : Type := world -> Py.result A * world.

Definition ret {A : Type} (a : A) : io A := fun w => (Py.Return a, w).

Definition raise {A : Type} (e : Py.exn) : io A := fun w => (Py.Raise e, w).

Definition bind {A B : Type} (m : io A) (k : A -> io B) : io B :=
  fun w =>
    match m w with
    | (Py.Return a, w') => k a w'
    | (Py.Raise e, w') => (Py.Raise e, w')
    end.

(** [try: m  except IOError: h] *)
Definition try_except_IOError {A : Type} (m : io A) (h : io A) : io A :=
  fun w =>
    match m w with
    | (Py.Raise Py.OSError, w') => h w'
    | r => r
    end.

(** [os.path.exists] *)
Definition path_exists (p : string) : io bool :=
  fun w => (Py.Return (Dict.mem (Str.norm p) (files w)
                       || is_dir w (Str.norm p)), w).

(** [os.mkdir], called only on a path that does not exist. *)
Definition mkdir (p : string) : io unit :=
  fun w => (Py.Return tt,
            {| files := files w;
               dirs := dirs w ++ [Str.norm p];
               denied := denied w |}).

(** [open(p, 'r', encoding='utf-8')] and the bytes of the file; decoding
    them is left to the reader of the file. *)
Definition read_text (p : string) : io string :=
  fun w =>
    if is_in (Str.norm p) (denied w) then (Py.Raise Py.OSError, w)
    else match Dict.get (Str.norm p) (files w) with
         | Some text => (Py.Return text, w)
         | None => (Py.Raise Py.OSError, w)
         end.

(** [with open(p, 'w', encoding='utf-8') as f: f.write(text)]: the file
    is created or truncated, then holds [text]. *)
Definition write_text (p text : string) : io unit :=
  fun w =>
    if is_in (Str.norm p) (denied w) then (Py.Raise Py.OSError, w)
    else if negb (is_dir w (Str.norm (Str.dirname p))) then
      (Py.Raise Py.OSError, w)
    else (Py.Return tt,
          {| files := Dict.set (Str.norm p) text (files w);
             dirs := dirs w;
             denied := denied w |}).

(** The name of [path] inside directory [dir], when it lies directly in
    it. *)
Definition entry_of (dir path : string) : option string :=
  let d := String.append dir "/" in
  if prefix d path then
    let name :=
      substring (String.length d) (String.length path - String.length d)
        path in
    if Str.has_slash name then None else Some name
  else None.

(** [glob.glob(os.path.join(dir, "*" + ext))]: the entries of [dir],
    files and directories alike, whose name ends with [ext] and does not
    start with a dot, each prefixed with [dir]. The order is the one of
    the directory listing. *)
Definition glob_match (dir ext path : string) : bool :=
  match entry_of dir path with
  | Some name => Str.ends_with ext name && negb (prefix "." name)
  | None => false
  end.

Definition glob_ext (dir ext : string) : io (list string) :=
  fun w =>
    (Py.Return (filter (glob_match dir ext) (Dict.keys (files w) ++ dirs w)),
     w).

End FS.

Module IONotations.
Notation "x <- m ;; k" := (FS.bind m (fun x => k))
  (at level 61, m at next level, right associativity).
Notation "m ;;; k" := (FS.bind m (fun _ => k))
  (at level 61, right associativity).
End IONotations.

(** [json.dump] and [json.load] on lists of repository dictionaries:
    [loads] gives [None] on bytes that are not the encoding of such a
    list. *)
Record codec : Type := {
  dumps : list AggregatedEntity -> string;
  loads : string -> option (list AggregatedEntity)
}.

(** ** Fetching one page: [get_github_trending_repositories_async] *)

Module Fetch.

(** What the remote site does with one request: [session.get] followed by
    [raise_for_status] and [response.text()] either produces the page or
    raises ([aiohttp.ClientError], a status outside 2xx, or the 10 second
    timeout). *)
Inductive response : Type :=
| Body (html : string)
| ConnectionError
| BadStatus (code : Z)
| Timeout.

(** The effects of the coroutine, in program order. [Acquire] and
    [Release] are the entry and exit of [async with semaphore]; [Send] and
    [Receive] delimit the retrieval of line 77-81; [Sleep] is
    [asyncio.sleep]; [Parse] is the BeautifulSoup work of lines 90-130. *)
Inductive action : Type :=
| Acquire
| LogFetching (url : string)
| Send (url : string)
| Receive (url : string)
| LogError (url : string)
| Sleep (seconds : Z)
| Release
| Parse.

Definition succeeded (r : response) : bool :=
  match r with
  | Body _ => true
  | _ => false
  end.

(** The path through the coroutine when the retrieval succeeds: the pause
    of line 87 is inside the [async with semaphore] block, the parsing
    after it. *)
Definition fetched_program (url : string) : list action :=
  [Acquire; LogFetching url; Send url; Receive url; Sleep 1; Release; Parse].

(** The path through the handler of lines 82-84: [return []] leaves the
    [async with semaphore] block at once. *)
Definition failed_program (url : string) : list action :=
  [Acquire; LogFetching url; Send url; Receive url; LogError url; Release].

(** The values of tasks that all returned; [None] when one raised. *)
Fixpoint all_values {A : Type} (tasks : list (option A)) : option (list A) :=
  match tasks with
  | [] => Some []
  | None :: _ => None
  | Some v :: rest =>
      match all_values rest with
      | Some vs => Some (v :: vs)
      | None => None
      end
  end.

(** What a task returned (nothing when it raised). *)
Definition value (task : option (list EntityRecord)) : list EntityRecord :=
  match task with
  | Some trending_repos => trending_repos
  | None => []
  end.

(** An extraction that raises on no page. *)
Definition reliable (extract : string -> list EntityRecord)
  : string -> option (list EntityRecord) :=
  fun html => Some (extract html).

Section Task.
(** Lines 90-130, the extraction of the repositories of a page. An
    [article] that fails with [AttributeError] or [ValueError] is skipped
    inside it; [None] stands for an exception that the handler of line
    126 does not catch, which leaves the coroutine. *)
Variable extract : string -> option (list EntityRecord).
Variable net : string -> response.

(** The coroutine: the effects it performs and the value it returns,
    [None] when it raises instead. The handler of lines 82-84 covers the
    retrieval only. *)
Definition get_github_trending_repositories_async (url : string)
  : list action * option (list EntityRecord) :=
  match net url with
  | Body html => (fetched_program url, extract html)
  | _ => (failed_program url, Some [])
  end.

(** [asyncio.gather] over the tasks, without [return_exceptions]: their
    values in the order of the tasks, or, when a task raised, no value:
    the exception is raised again in the caller. *)
Definition gather (urls : list string) : option (list (list EntityRecord)) :=
  all_values
    (map (fun url => snd (get_github_trending_repositories_async url)) urls).

(** The programs of the tasks of one batch. *)
Definition programs (urls : list string) : list (list action) :=
  map (fun url => fst (get_github_trending_repositories_async url)) urls.

End Task.

(** *** The event loop

    A state of the batch: the value of the semaphore and, for every task,
    the effects it has still to perform. *)
Record state : Type := {
  permits : nat;
  tasks : list (list action)
}.

Fixpoint set_nth {A : Type} (i : nat) (x : A) (l : list A) : list A :=
  match l, i with
  | [], _ => []
  | _ :: rest, O => x :: rest
  | y :: rest, S j => y :: set_nth j x rest
  end.

(** Task [i] performs its next effect. A task at [Acquire] stays where it
    is while the semaphore is zero; a finished task does nothing. *)
Definition step (s : state) (i : nat) : state :=
  match nth_error (tasks s) i with
  | Some (Acquire :: rest) =>
      match permits s with
      | O => s
      | S n => {| permits := n; tasks := set_nth i rest (tasks s) |}
      end
  | Some (Release :: rest) =>
      {| permits := S (permits s); tasks := set_nth i rest (tasks s) |}
  | Some (_ :: rest) =>
      {| permits := permits s; tasks := set_nth i rest (tasks s) |}
  | _ => s
  end.

(** The batch after the tasks named by [schedule] took one step each, in
    that order. *)
Definition run (schedule : list nat) (s : state) : state :=
  fold_left step schedule s.

(** Line 199 and 202: [asyncio.Semaphore(5)] and one task per url. *)
Definition ceiling : nat := 5.

Definition batch (extract : string -> option (list EntityRecord))
    (net : string -> response) (urls : list string) : state :=
  {| permits := ceiling; tasks := programs extract net urls |}.

Definition is_acquire (a : action) : bool :=
  match a with Acquire => true | _ => false end.

Definition is_release (a : action) : bool :=
  match a with Release => true | _ => false end.

Definition is_sleep (a : action) : bool :=
  match a with Sleep _ => true | _ => false end.

Definition is_parse (a : action) : bool :=
  match a with Parse => true | _ => false end.

(** A task holds a slot when it has entered [async with semaphore] and
    not left it. *)
Definition holding (prog : list action) : bool :=
  existsb is_release prog && negb (existsb is_acquire prog).

(** A retrieval is in flight when the request was sent and its outcome
    has not arrived. *)
Definition in_flight (prog : list action) : bool :=
  match prog with
  | Receive _ :: _ => true
  | _ => false
  end.

Definition count (p : list action -> bool) (s : state) : nat :=
  List.length (filter p (tasks s)).

(** The effects performed before the first one satisfying [p]. *)
Fixpoint before (p : action -> bool) (prog : list action) : list action :=
  match prog with
  | [] => []
  | a :: rest => if p a then [] else a :: before p rest
  end.

Fixpoint suffixes {A : Type} (l : list A) : list (list A) :=
  match l with
  | [] => [[]]
  | _ :: rest => l :: suffixes rest
  end.

(** The states a task goes through: what is left of one of the two
    programs. *)
Definition task_state (prog : list action) : Prop :=
  exists url,
    In prog (suffixes (fetched_program url) ++ suffixes (failed_program url)).

(** Every slot is either free or held by exactly one task. *)
Definition slots_accounted (s : state) : Prop :=
  Forall task_state (tasks s)
  /\ permits s + count holding s = ceiling.

End Fetch.

(** ** [gathering.py]: the aggregation loop, the files and [main] *)

Module Gathering.

(** *** The aggregation loop (lines 207-219) *)

Definition membership (language spoken_language_code since : string)
  : FacetMembership :=
  {| pub_language := language;
     pub_spoken_language_code := spoken_language_code;
     pub_since := since |}.

(** [output[name]['published'].append(m)] *)
Definition append_published (m : FacetMembership) (e : AggregatedEntity)
  : AggregatedEntity :=
  {| record := record e; published := published e ++ [m] |}.

(** The body of [for repo in result]. *)
Definition add_repo (language spoken_language_code since : string)
    (output : Dict.t AggregatedEntity) (repo : EntityRecord)
  : Dict.t AggregatedEntity :=
  let m := membership language spoken_language_code since in
  if Dict.mem (repository_name repo) output then
    Dict.update (repository_name repo) (append_published m) output
  else
    Dict.set (repository_name repo)
      {| record := repo; published := [m] |} output.

(** The body of [for result, language in zip(results, languages)], on the
    pair of accumulators [(output, langs)]. *)
Definition add_facet (spoken_language_code since : string)
    (acc : Dict.t AggregatedEntity * list string)
    (item : list EntityRecord * string)
  : Dict.t AggregatedEntity * list string :=
  let '(output, langs) := acc in
  let '(result, language) := item in
  if Nat.eqb (List.length result) 0 then (output, langs)
  else
    (fold_left (add_repo language spoken_language_code since) result output,
     if String.eqb language "all" then langs else langs ++ [language]).

(** The loop over the zipped pairs. *)
Definition aggregate_pairs (spoken_language_code since : string)
    (pairs : list (list EntityRecord * string))
  : Dict.t AggregatedEntity * list string :=
  fold_left (add_facet spoken_language_code since) pairs ([], []).

(** Lines 207-219: [zip] stops at the shorter of its two arguments, as
    [combine] does. *)
Definition aggregate (spoken_language_code since : string)
    (results : list (list EntityRecord)) (languages : list string)
  : Dict.t AggregatedEntity * list string :=
  aggregate_pairs spoken_language_code since (combine results languages).

(** *** Files *)

Import IONotations.

Definition save_dict (J : codec) (path : string)
    (data : list AggregatedEntity) : FS.io unit :=
  FS.write_text path (dumps J data).

Definition save_list (filepath : string) (data : list string)
  : FS.io bool :=
  FS.try_except_IOError
    (FS.write_text filepath
       (String.concat "" (map (fun item => String.append item Str.nl) data))
     ;;; FS.ret true)
    (FS.ret false).

(** Lines 158-182. [readlines] decodes the file: [UnicodeDecodeError] is
    a [ValueError], which [except IOError] lets through. *)
Definition load_list (filepath : string) : FS.io (option (list string)) :=
  found <- FS.path_exists filepath ;;
  if negb found then FS.ret None
  else
    FS.try_except_IOError
      (content <- FS.read_text filepath ;;
       if Str.utf8_valid content
       then FS.ret (Some (map Str.strip (Str.readlines content)))
       else FS.raise Py.ValueError)
      (FS.ret None).

(** *** [main] *)

Definition base_url (since : string) : string :=
  String.append "https://github.com/trending?since=" since.

Definition language_url (spoken_language_code since i : string) : string :=
  let u :=
    String.append "https://github.com/trending/"
      (String.append i (String.append "?since=" since)) in
  if String.eqb spoken_language_code "all" then u
  else String.append u
         (String.append "&spoken_language_code=" spoken_language_code).

(** Lines 194-197. *)
Definition urls_of (spoken_language_code since : string)
    (languages : list string) : list string :=
  base_url since
  :: map (language_url spoken_language_code since)
       (filter (fun i => negb (String.eqb i "all")) languages).

Definition output_file (spoken_language_code since : string) : string :=
  String.append "./temp/"
    (String.append since
       (String.append "-" (String.append spoken_language_code ".json"))).

Definition output_lang_file : string := "./temp/lang_list.txt".

Section Main.
Variable J : codec.
Variable extract : string -> option (list EntityRecord).
Variable net : string -> Fetch.response.
(** The value of [get_trending_languages()], empty when the discovery
    fails. *)
Variable discovered : list string.

(** Lines 185-192; iterating over the [None] that [load_list] returns
    for a missing file raises [TypeError] on line 195 or 197. *)
Definition languages_of (spoken_language_code since : string)
  : FS.io (list string) :=
  if String.eqb since "daily" && String.eqb spoken_language_code "all"
  then FS.ret ("all" :: discovered)
  else
    loaded <- load_list "./temp/lang_list.txt" ;;
    match loaded with
    | Some languages => FS.ret languages
    | None => FS.raise Py.TypeError
    end.

(** An exception of a task reaches the caller of [main] through
    [asyncio.gather] on line 204: nothing is written. *)
Definition main (since spoken_language_code : string) : FS.io unit :=
  languages <- languages_of spoken_language_code since ;;
  let urls := urls_of spoken_language_code since languages in
  match Fetch.gather extract net urls with
  | None => FS.raise Py.ExtractionError
  | Some results =>
      let '(output, langs) :=
        aggregate spoken_language_code since results languages in
      let out := output_file spoken_language_code since in
      found <- FS.path_exists (Str.dirname out) ;;
      (if negb found then FS.mkdir (Str.dirname out) else FS.ret tt) ;;;
      save_dict J out (Dict.values output) ;;;
      _ <- save_list output_lang_file langs ;;
      FS.ret tt
  end.

End Main.

End Gathering.

(** ** [organize.py]: the merge loop, the files and [main] *)

Module Organize.

(** *** The merge loop (lines 34-41) *)

(** [output[name]['published'].extend(ms)] *)
Definition extend_published (ms : list FacetMembership)
    (e : AggregatedEntity) : AggregatedEntity :=
  {| record := record e; published := published e ++ ms |}.

(** The body of [for repo in load_dict(file_path)]. *)
Definition merge_repo (output : Dict.t AggregatedEntity)
    (repo : AggregatedEntity) : Dict.t AggregatedEntity :=
  if Dict.mem (name_of repo) output then
    Dict.update (name_of repo) (extend_published (published repo)) output
  else
    Dict.set (name_of repo) repo output.

Definition merge_file (output : Dict.t AggregatedEntity)
    (snapshot : list AggregatedEntity) : Dict.t AggregatedEntity :=
  fold_left merge_repo snapshot output.

(** The nested loops, on the loaded contents of the files. *)
Definition merge (snapshots : list (list AggregatedEntity))
  : Dict.t AggregatedEntity :=
  fold_left merge_file snapshots [].

(** *** Files and time *)

Import IONotations.

(** Lines 6-9. *)
Definition get_json_files : FS.io (list string) :=
  found <- FS.glob_ext "temp" ".json" ;;
  FS.ret (filter (fun i => negb (String.eqb i "temp/data.json")) found).

(** The proleptic Gregorian date (year, month, day) of a day counted from
    1970-01-01, as [datetime] computes it. *)
Definition civil_from_days (days : Z) : Z * Z * Z :=
  let z := (days + 719468)%Z in
  let era := (z / 146097)%Z in
  let doe := (z - era * 146097)%Z in
  let yoe := ((doe - doe / 1460 + doe / 36524 - doe / 146096) / 365)%Z in
  let doy := (doe - (365 * yoe + yoe / 4 - yoe / 100))%Z in
  let mp := ((5 * doy + 2) / 153)%Z in
  let d := (doy - (153 * mp + 2) / 5 + 1)%Z in
  let m := (if mp <? 10 then mp + 3 else mp - 9)%Z in
  let y := (yoe + era * 400)%Z in
  ((if m <=? 2 then y + 1 else y)%Z, m, d).

Definition digit (n : Z) : string :=
  String (ascii_of_nat (48 + Z.to_nat (n mod 10))) "".

Definition pad2 (n : Z) : string :=
  String.append (digit (n / 10)) (digit n).

Definition pad4 (n : Z) : string :=
  String.append (pad2 (n / 100)) (pad2 n).

(** [datetime.now(tz)] for a zone at a fixed offset: the fields of the
    local time at [now] seconds after the epoch. *)
Record datetime : Type := {
  year : Z; month : Z; day : Z; hour : Z; minute : Z; second : Z
}.

Definition datetime_now (offset_hours : Z) (now : Z) : datetime :=
  let local := (now + offset_hours * 3600)%Z in
  let '(y, m, d) := civil_from_days (local / 86400) in
  let secs := (local mod 86400)%Z in
  {| year := y; month := m; day := d;
     hour := (secs / 3600)%Z;
     minute := (secs mod 3600 / 60)%Z;
     second := (secs mod 60)%Z |}.

(** [strftime("%Y_%m_%d_%H")], for a year of four digits. *)
Definition strftime_Y_m_d_H (t : datetime) : string :=
  String.concat "_" [pad4 (year t); pad2 (month t); pad2 (day t);
                     pad2 (hour t)].

(** Lines 11-20, at clock reading [now] (seconds since the epoch). *)
Definition get_jst_time (now : Z) : string :=
  strftime_Y_m_d_H (datetime_now 9 now).

Definition save_dict (J : codec) (path : string)
    (data : list AggregatedEntity) : FS.io unit :=
  FS.write_text path (dumps J data).

(** [json.load] raises [UnicodeDecodeError] or [JSONDecodeError], both
    [ValueError], on bytes it cannot read. *)
Definition load_dict (J : codec) (path : string)
  : FS.io (list AggregatedEntity) :=
  text <- FS.read_text path ;;
  match loads J text with
  | Some data => FS.ret data
  | None => FS.raise Py.ValueError
  end.

(** The loop of lines 35-41: every file is loaded when its turn comes. *)
Fixpoint merge_paths (J : codec) (paths : list string)
    (output : Dict.t AggregatedEntity) : FS.io (Dict.t AggregatedEntity) :=
  match paths with
  | [] => FS.ret output
  | file_path :: rest =>
      snapshot <- load_dict J file_path ;;
      merge_paths J rest (merge_file output snapshot)
  end.

(** The contents of the files [paths], when every one of them can be
    read and parsed. *)
Fixpoint load_all (J : codec) (w : FS.world) (paths : list string)
  : option (list (list AggregatedEntity)) :=
  match paths with
  | [] => Some []
  | file_path :: rest =>
      match fst (load_dict J file_path w), load_all J w rest with
      | Py.Return snapshot, Some snapshots => Some (snapshot :: snapshots)
      | _, _ => None
      end
  end.

Definition output_dir : string := "./data".

Definition latest_path : string := String.append output_dir "/latest.json".

Definition archive_path (now : Z) : string :=
  String.append output_dir
    (String.append "/" (String.append (get_jst_time now) ".json")).

(** [main], with [now] the clock reading of line 47. *)
Definition main (J : codec) (now : Z) : FS.io unit :=
  paths <- get_json_files ;;
  output <- merge_paths J paths [] ;;
  found <- FS.path_exists output_dir ;;
  (if negb found then FS.mkdir output_dir else FS.ret tt) ;;;
  save_dict J latest_path (Dict.values output) ;;;
  save_dict J (archive_path now) (Dict.values output).

End Organize.

(** ** The calendar of [datetime]

    The day numbers of the library ([date.toordinal], 0001-01-01 being
    day 1) as [datetime.py] defines them: the reference against which the
    date arithmetic of [Organize.civil_from_days] is checked. *)

Module Calendar.
Local Open Scope Z_scope.

Definition is_leap (y : Z) : bool :=
  (y mod 4 =? 0) && (negb (y mod 100 =? 0) || (y mod 400 =? 0)).

Definition days_before_year (y : Z) : Z :=
  let p := y - 1 in p * 365 + p / 4 - p / 100 + p / 400.

Definition days_in_month (y m : Z) : Z :=
  if (m =? 2) && is_leap y then 29
  else nth (Z.to_nat m) [0; 31; 28; 31; 30; 31; 30; 31; 31; 30; 31; 30; 31] 0.

Definition days_before_month (y m : Z) : Z :=
  nth (Z.to_nat m) [0; 0; 31; 59; 90; 120; 151; 181; 212; 243; 273; 304; 334] 0
  + (if (2 <? m) && is_leap y then 1 else 0).

Definition toordinal (y m d : Z) : Z :=
  days_before_year y + days_before_month y m + d.

(** The number of whole hours between 1970-01-01 00:00 and the hour [h]
    of the day [y]-[m]-[d]. *)
Definition hours_since_epoch (y m d h : Z) : Z :=
  (toordinal y m d - toordinal 1970 1 1) * 24 + h.

(** [p] holds of the [n] integers from [z] on. *)
Fixpoint all_from (n : nat) (z : Z) (p : Z -> bool) : bool :=
  match n with
  | O => true
  | S k => p z && all_from k (z + 1) p
  end.

(** The date computed for day [doe] of the cycle of 400 years that starts
    on 0000-03-01 is a date of the calendar, and it has that day
    number. *)
Definition civil_ok (doe : Z) : bool :=
  let '(y, m, d) := Organize.civil_from_days (doe - 719468) in
  (1 <=? m) && (m <=? 12) && (1 <=? d) && (d <=? days_in_month y m)
  && (toordinal y m d - 719163 =? doe - 719468)
  && (0 <=? y) && (y <=? 400)
  && ((146036 <? doe) || (y <=? 399)).

End Calendar.

(** ** Observations on the dictionaries the loops build *)

(** The scalar fields stored under [k]. *)
Definition scalars (output : Dict.t AggregatedEntity) (k : string)
  : option EntityRecord :=
  option_map record (Dict.get k output).

(** The ['published'] list stored under [k] (empty when [k] is absent). *)
Definition memberships (output : Dict.t AggregatedEntity) (k : string)
  : list FacetMembership :=
  match Dict.get k output with
  | Some e => published e
  | None => []
  end.

(** The elements of a list of repositories that are named [k], in order. *)
Definition occurrences (k : string) (repos : list AggregatedEntity)
  : list AggregatedEntity :=
  filter (fun r => String.eqb (name_of r) k) repos.

(** What the entry of one key becomes when the repositories [repos], all of
    that key, are folded in one after the other. *)
Definition absorb (e : option AggregatedEntity) (repos : list AggregatedEntity)
  : option AggregatedEntity :=
  fold_left
    (fun acc r =>
       Some match acc with
            | Some e => Organize.extend_published (published r) e
            | None => r
            end)
    repos e.

(** The repositories of one run, each carrying the membership under which
    the loop of [gathering.main] meets it. *)
Definition tagged (spoken_language_code since : string)
    (pairs : list (list EntityRecord * string)) : list AggregatedEntity :=
  flat_map
    (fun item : list EntityRecord * string =>
       map (fun repo =>
              {| record := repo;
                 published :=
                   [Gathering.membership (snd item) spoken_language_code
                      since] |})
         (fst item))
    pairs.

(** All the occurrences of one name in the pairs carry the same scalar
    fields. *)
Definition agree_on (k : string) (pairs : list (list EntityRecord * string))
  : Prop :=
  forall r1 r2,
    In r1 (flat_map fst pairs) -> In r2 (flat_map fst pairs) ->
    repository_name r1 = k -> repository_name r2 = k -> r1 = r2.

(** ** Sample data for the worked examples *)

Module Demo.

Definition repo (name : string) (delta : Z) : EntityRecord :=
  {| repository_name := name;
     repository_url := String.append "https://github.com/" name;
     description := "No description provided.";
     language := "N/A";
     star := 0;
     fork := 0;
     date_range_stars := delta |}.

Definition seen (language : string) : FacetMembership :=
  Gathering.membership language "all" "daily".

(** A repository as a per-run file holds it after it trended under two
    languages. *)
Definition twice_seen : AggregatedEntity :=
  {| record := repo "octo/cat" 7;
     published := [seen "all"; seen "python"] |}.

(** One repository met under two languages, with a different count of
    stars gained each time. *)
Definition python_first : list (list EntityRecord * string) :=
  [([repo "octo/cat" 10], "python"); ([repo "octo/cat" 20], "rust")].

Definition rust_first : list (list EntityRecord * string) :=
  [([repo "octo/cat" 20], "rust"); ([repo "octo/cat" 10], "python")].

(** The same repository met under two languages with equal fields. *)
Definition stable_python_first : list (list EntityRecord * string) :=
  [([repo "octo/cat" 10], "python"); ([repo "octo/cat" 10], "rust")].

Definition stable_rust_first : list (list EntityRecord * string) :=
  [([repo "octo/cat" 10], "rust"); ([repo "octo/cat" 10], "python")].

(** A page is read as one repository per line. *)
Definition one_repo_per_line (html : string) : list EntityRecord :=
  map (fun name => repo name 1) (Str.readlines html).

(** The same reading as the extraction of a run: it raises on no page. *)
Definition line_pages : string -> option (list EntityRecord) :=
  Fetch.reliable one_repo_per_line.

(** A serialisation that keeps the names only, one per line. *)
Definition names_only : codec :=
  {| dumps := fun data =>
       String.concat ""
         (map (fun e => String.append (name_of e) Str.nl) data);
     loads := fun text =>
       Some (map (fun name => {| record := repo name 0; published := [] |})
               (Str.readlines text)) |}.

Definition lines (l : list string) : string :=
  String.concat "" (map (fun item => String.append item Str.nl) l).

(** The state left by an earlier run: the cached list holds two
    languages. *)
Definition cached_world : FS.world :=
  {| FS.files := [("temp/lang_list.txt", lines ["python"; "rust"])];
     FS.dirs := ["temp"];
     FS.denied := [] |}.

(** During a weekly run the page of all languages and the page of rust
    list one repository each; the request for the page of python times
    out. *)
Definition weekly_net (url : string) : Fetch.response :=
  if String.eqb url (Gathering.base_url "weekly") then
    Fetch.Body "octo/cat"
  else if String.eqb url (Gathering.language_url "all" "weekly" "rust") then
    Fetch.Body "ferris/crab"
  else Fetch.Timeout.

(** The scenario of the specification: nothing under [all], two
    repositories under python, the first of them again under rust. *)
Definition scenario_results : list (list EntityRecord) :=
  [[]; [repo "octo/cat" 10; repo "guido/snake" 3]; [repo "octo/cat" 10]].

Definition scenario_languages : list string := ["all"; "python"; "rust"].

(** Two per-run files and the scratch file of [measure.py]. *)
Definition merge_world : FS.world :=
  {| FS.files := [("temp/daily-all.json", lines ["octo/cat"; "ferris/crab"]);
                  ("temp/data.json", lines ["octo/cat"]);
                  ("temp/weekly-all.json", lines ["octo/cat"]);
                  ("temp/lang_list.txt", lines ["python"; "rust"])];
     FS.dirs := ["temp"];
     FS.denied := [] |}.

(** The same, with the cumulative file and the cached list protected
    against opening. *)
Definition locked_world : FS.world :=
  {| FS.files := FS.files merge_world;
     FS.dirs := ["temp"; "data"];
     FS.denied := ["data/latest.json"; "temp/lang_list.txt"] |}.

(** The same, with one per-run file protected against opening. *)
Definition unreadable_world : FS.world :=
  {| FS.files := FS.files merge_world;
     FS.dirs := ["temp"; "data"];
     FS.denied := ["temp/weekly-all.json"] |}.

Definition weekly_urls : list string :=
  Gathering.urls_of "all" "weekly" ["python"; "rust"].

(** Six targets, and the interleaving in which the first five tasks take
    their slot and send their request before the sixth tries to. *)
Definition six_urls : list string :=
  Gathering.urls_of "all" "daily" ["all"; "c"; "go"; "java"; "python"; "rust"].

Definition five_sent : list nat :=
  [0; 1; 2; 3; 4; 0; 1; 2; 3; 4; 0; 1; 2; 3; 4; 5; 5].

(** 2025-11-03 13:45:00 UTC, that is 22:45 at UTC+9. *)
Definition a_clock_reading : Z := 1762177500.

End Demo.

(** ** Further observations *)

(** The number of memberships a dictionary holds, all keys together. *)
Definition total_memberships (output : Dict.t AggregatedEntity) : nat :=
  list_sum (map (fun e => List.length (published e)) (Dict.values output)).

(** Every entry is stored under the name it carries. *)
Definition keyed_by_name (output : Dict.t AggregatedEntity) : Prop :=
  Forall (fun entry => name_of (snd entry) = fst entry) output.

(** The entries of a list of repositories, each under its name. *)
Definition entries_of (repos : list AggregatedEntity)
  : Dict.t AggregatedEntity :=
  map (fun e => (name_of e, e)) repos.

(** A string without a line ending: neither ["\n"] nor ["\r"]. *)
Definition line_char (c : ascii) : bool :=
  negb (Ascii.eqb c "010"%char) && negb (Ascii.eqb c "013"%char).

Fixpoint no_newline (s : string) : bool :=
  match s with
  | EmptyString => true
  | String c r => line_char c && no_newline r
  end.

(** An item as [load_list] returns them: it has no line ending inside and
    no white space at its ends. *)
Definition clean_item (s : string) : bool :=
  no_newline s && String.eqb (Str.strip s) s.

(** An item that [save_list] and [load_list] carry through unchanged: a
    clean text. *)
Definition plain_item (s : string) : bool :=
  Str.utf8_valid s && clean_item s.

(** The text [save_list] writes for a list. *)
Definition list_text (data : list string) : string :=
  String.concat "" (map (fun item => String.append item Str.nl) data).

(** The pairs the loop of a default run goes through when the discovered
    languages do not contain [all]: the page of all languages first, then
    every language with the result of its own page. *)
Definition default_pairs (extract : string -> option (list EntityRecord))
    (net : string -> Fetch.response) (discovered : list string)
  : list (list EntityRecord * string) :=
  (Fetch.value
     (snd (Fetch.get_github_trending_repositories_async extract net
             (Gathering.base_url "daily"))), "all")
  :: map (fun l =>
            (Fetch.value
               (snd (Fetch.get_github_trending_repositories_async extract net
                       (Gathering.language_url "all" "daily" l))), l))
       discovered.

(** The task of language [l] returns at least one repository. *)
Definition productive (extract : string -> option (list EntityRecord))
    (net : string -> Fetch.response) (l : string) : bool :=
  negb (Nat.eqb
          (List.length
             (Fetch.value
                (snd (Fetch.get_github_trending_repositories_async extract
                        net (Gathering.language_url "all" "daily" l)))))
          0).

(** The entries of a directory listing that [get_json_files] keeps. *)
Definition selected (entries : list string) : list string :=
  filter (fun i => negb (String.eqb i "temp/data.json"))
    (filter (FS.glob_match "temp" ".json") entries).

(** Every task of the batch has performed all its effects. *)
Definition finished (s : Fetch.state) : bool :=
  forallb (fun prog : list Fetch.action =>
             match prog with [] => true | _ => false end)
    (Fetch.tasks s).

(** The number of effects the tasks have still to perform. *)
Definition remaining (s : Fetch.state) : nat :=
  list_sum (map (@List.length Fetch.action) (Fetch.tasks s)).

(** ** [get_trending_languages]: the slugs of the language menu *)

Module Discover.

(** [path.split('/')]: the parts between the slashes, one more than there
    are slashes. *)
Fixpoint split_slash (path : string) : list string :=
  match path with
  | EmptyString => [""]
  | String c r =>
      if Ascii.eqb c "/"%char then "" :: split_slash r
      else match split_slash r with
           | [] => [String c ""]
           | part :: parts => String c part :: parts
           end
  end.

(** Lines 50-52: [parts[2]] when there are more than two parts. *)
Definition slug_of_path (path : string) : option string :=
  match split_slash path with
  | _ :: _ :: language_slug :: _ => Some language_slug
  | _ => None
  end.

(** The loop of lines 46-53, over the paths [urlparse(href).path] of the
    links of the menu. *)
Definition languages_of_paths (paths : list string) : list string :=
  fold_left
    (fun languages path =>
       match slug_of_path path with
       | Some language_slug => languages ++ [language_slug]
       | None => languages
       end)
    paths [].

End Discover.

(** ** The extraction of the repositories of a page *)

Module Extract.

(** The exceptions the extraction can meet: [AttributeError] when a tag
    that is looked into is missing, [ValueError] when [int] rejects a text,
    [KeyError] when the link of the heading has no [href], and the
    [SelectorSyntaxError] of the selector library when the [href] put
    into the selector of lines 107-108 makes it ill-formed. *)
Inductive error : Type :=
| AttributeError
| ValueError
| KeyError
| SelectorSyntaxError.

(** The handler of line 126 catches [AttributeError] and [ValueError]
    only. *)
Definition escapes (e : error) : bool :=
  match e with
  | AttributeError | ValueError => false
  | KeyError | SelectorSyntaxError => true
  end.

Inductive outcome (A : Type) : Type :=
| Parsed (a : A)
| Failed (e : error).

Arguments Parsed {A} a.
Arguments Failed {A} e.

(** The value of a computation that returned. *)
Definition returned {A : Type} (o : outcome A) : option A :=
  match o with
  | Parsed a => Some a
  | Failed _ => None
  end.

(** An [a] tag: its text and its [href] attribute, when it has one. *)
Record anchor : Type := {
  a_text : string;
  a_href : option string
}.

(** An [article] tag, as the answers to the lookups the code makes on it:
    [h2_link] is [find('h2', class_='h3')] followed by [find('a')]; the
    three tags are given by their text; [select_one v] is the answer of
    [article.select_one] to the selector of lines 107-108 with [v]
    between its quotes: the text of the tag found, no tag, or
    [SelectorSyntaxError]. *)
Record article : Type := {
  h2_link : option (option anchor);
  description_tag : option string;
  language_tag : option string;
  select_one : string -> outcome (option string);
  date_range_stars_tag : option string
}.

(** [s.replace(c, '')] for a single character [c]. *)
Fixpoint remove_char (c : ascii) (s : string) : string :=
  match s with
  | EmptyString => EmptyString
  | String x r =>
      if Ascii.eqb x c then remove_char c r else String x (remove_char c r)
  end.

(** [s.split(' ')[0]] *)
Fixpoint first_word (s : string) : string :=
  match s with
  | EmptyString => EmptyString
  | String x r => if Ascii.eqb x " "%char then "" else String x (first_word r)
  end.

Fixpoint has_char (c : ascii) (s : string) : bool :=
  match s with
  | EmptyString => false
  | String x r => Ascii.eqb x c || has_char c r
  end.

Definition bind {A B : Type} (m : outcome A) (k : A -> outcome B)
  : outcome B :=
  match m with
  | Parsed a => k a
  | Failed e => Failed e
  end.

Section Parsing.
(** [int] on a text: [None] stands for [ValueError]. *)
Variable int_of : string -> option Z.

(** [int(text.replace(',', ''))] *)
Definition number (text : string) : outcome Z :=
  match int_of (remove_char ","%char text) with
  | Some n => Parsed n
  | None => Failed ValueError
  end.

(** [int(tag.text.strip().replace(',', '')) if tag else 0] *)
Definition count_of (tag : option string) : outcome Z :=
  match tag with
  | Some text => number (Str.strip text)
  | None => Parsed 0%Z
  end.

(** The heading link of lines 99-101: the name and the [href], in the
    order in which the code asks for them. *)
Definition heading (art : article) : outcome (string * string) :=
  match h2_link art with
  | None => Failed AttributeError
  | Some None => Failed AttributeError
  | Some (Some a) =>
      let repo_name :=
        remove_char " "%char (remove_char "010"%char (a_text a)) in
      match a_href a with
      | None => Failed KeyError
      | Some href => Parsed (repo_name, href)
      end
  end.

(** The body of the [try] of lines 98-125, in the order of its
    statements: both tags are selected before the first count is read. *)
Definition parse_article (art : article) : outcome EntityRecord :=
  bind (heading art) (fun nh =>
  let repo_link := String.append "https://github.com" (snd nh) in
  let description_ :=
    match description_tag art with
    | Some text => Str.strip text
    | None => "No description provided."
    end in
  let language_ :=
    match language_tag art with
    | Some text => Str.strip text
    | None => "N/A"
    end in
  bind (select_one art (String.append (snd nh) "/stargazers"))
    (fun star_tag =>
  bind (select_one art (String.append (snd nh) "/forks"))
    (fun fork_tag =>
  bind (count_of star_tag) (fun stars =>
  bind (count_of fork_tag) (fun forks =>
  bind (match date_range_stars_tag art with
        | Some text => number (first_word (Str.strip text))
        | None => Parsed 0%Z
        end)
    (fun date_range_stars_ =>
  Parsed {| repository_name := fst nh;
            repository_url := repo_link;
            description := description_;
            language := language_;
            star := stars;
            fork := forks;
            date_range_stars := date_range_stars_ |})))))).

(** The loop of lines 97-128 of [gathering.py]: [AttributeError] and
    [ValueError] are caught and the article is skipped; another exception
    leaves the loop. *)
Fixpoint collect (articles : list article)
    (trending_repos : list EntityRecord) : outcome (list EntityRecord) :=
  match articles with
  | [] => Parsed trending_repos
  | art :: rest =>
      match parse_article art with
      | Parsed repo => collect rest (trending_repos ++ [repo])
      | Failed AttributeError => collect rest trending_repos
      | Failed ValueError => collect rest trending_repos
      | Failed KeyError => Failed KeyError
      | Failed SelectorSyntaxError => Failed SelectorSyntaxError
      end
  end.

Definition get_records (articles : list article)
  : outcome (list EntityRecord) :=
  collect articles [].

End Parsing.

End Extract.

(** ** [measure.py] *)

Module Measure.

(** The two fields [measure.py] keeps of a repository. *)
Record listing : Type := {
  listed_name : string;
  listed_url : string
}.

Section Parsing.
Variable int_of : string -> option Z.

(** The body of the loop of lines 37-80: the name and the link first, then
    the other fields, computed as in [gathering.py] although they are not
    kept; there is no [try] around it. *)
Definition parse_article (art : Extract.article) : Extract.outcome listing :=
  Extract.bind (Extract.heading art) (fun nh =>
  let repo_link := String.append "https://github.com" (snd nh) in
  Extract.bind
    (Extract.select_one art (String.append (snd nh) "/stargazers"))
    (fun star_tag =>
  Extract.bind
    (Extract.select_one art (String.append (snd nh) "/forks"))
    (fun fork_tag =>
  Extract.bind (Extract.count_of int_of star_tag) (fun _ =>
  Extract.bind (Extract.count_of int_of fork_tag) (fun _ =>
  Extract.bind
    (match Extract.date_range_stars_tag art with
     | Some text =>
         Extract.number int_of (Extract.first_word (Str.strip text))
     | None => Extract.Parsed 0%Z
     end)
    (fun _ =>
  Extract.Parsed {| listed_name := fst nh; listed_url := repo_link |})))))).

(** The loop of lines 37-80: the first exception leaves it. *)
Fixpoint collect (articles : list Extract.article)
    (trending_repos : list listing) : Extract.outcome (list listing) :=
  match articles with
  | [] => Extract.Parsed trending_repos
  | art :: rest =>
      match parse_article art with
      | Extract.Parsed repo => collect rest (trending_repos ++ [repo])
      | Extract.Failed e => Extract.Failed e
      end
  end.

End Parsing.

(** [sorted(data, key=lambda x: x["repository_name"])]: the stable sort by
    name, strings being compared character by character. Insertion from
    the right, each element going before the first one that is not
    smaller, is that sort. *)
Fixpoint insert (x : listing) (l : list listing) : list listing :=
  match l with
  | [] => [x]
  | y :: rest =>
      if String.leb (listed_name x) (listed_name y) then x :: y :: rest
      else y :: insert x rest
  end.

Fixpoint sorted (data : list listing) : list listing :=
  match data with
  | [] => []
  | x :: rest => insert x (sorted rest)
  end.

Fixpoint is_sorted (l : list listing) : bool :=
  match l with
  | [] => true
  | x :: rest =>
      match rest with
      | [] => true
      | y :: _ => String.leb (listed_name x) (listed_name y) && is_sorted rest
      end
  end.

Import IONotations.

(** Lines 84-91, once the page is fetched and parsed into [data];
    [dumps] is [json.dump] on such a list. *)
Definition main (dumps : list listing -> string) (data : list listing)
  : FS.io unit :=
  found <- FS.path_exists "temp" ;;
  (if negb found then FS.mkdir "temp" else FS.ret tt) ;;;
  FS.write_text "temp/data.json" (dumps (sorted data)).

End Measure.

(** ** [main.py]: which languages have a page with repositories *)

Module Probe.

Definition url_of (i : string) : string :=
  String.append "https://github.com/trending/" i.

(** Lines 169-187 of [main.py]: one target per discovered language, and
    the languages whose result is not empty; [None] when a task raised,
    and [main] with it. *)
Definition main (extract : string -> option (list EntityRecord))
    (net : string -> Fetch.response) (all_langs : list string)
  : option (list string) :=
  let urls := map url_of all_langs in
  match Fetch.gather extract net urls with
  | None => None
  | Some results =>
      Some (fold_left
              (fun langs (item : list EntityRecord * string) =>
                 if negb (Nat.eqb (List.length (fst item)) 0)
                 then langs ++ [snd item] else langs)
              (combine results all_langs) [])
  end.

End Probe.

(** ** More sample data *)

Module Samples.

(** A reading of decimal texts, enough for the examples: the digits of a
    non-empty text of digits. *)
Fixpoint decimal (acc : Z) (s : string) : option Z :=
  match s with
  | EmptyString => Some acc
  | String c r =>
      let n := nat_of_ascii c in
      if Nat.leb 48 n && Nat.leb n 57
      then decimal (10 * acc + Z.of_nat (n - 48)) r
      else None
  end.

Definition int_of (s : string) : option Z :=
  match s with
  | EmptyString => None
  | _ => decimal 0 s
  end.

Definition link (text href : string) : Extract.anchor :=
  {| Extract.a_text := text; Extract.a_href := Some href |}.

(** An article as the trending page shows it. *)
Definition good (name href stars : string) : Extract.article :=
  {| Extract.h2_link := Some (Some (link name href));
     Extract.description_tag := Some "  A tool.  ";
     Extract.language_tag := Some "Python";
     Extract.select_one := fun h =>
       Extract.Parsed
         (if String.eqb h (String.append href "/stargazers") then Some stars
          else if String.eqb h (String.append href "/forks") then Some "12"
          else None);
     Extract.date_range_stars_tag := Some "345 stars today" |}.

(** An article without its heading. *)
Definition headless : Extract.article :=
  {| Extract.h2_link := None;
     Extract.description_tag := None;
     Extract.language_tag := None;
     Extract.select_one := fun _ => Extract.Parsed None;
     Extract.date_range_stars_tag := None |}.

(** An article whose heading link has no [href]. *)
Definition unlinked : Extract.article :=
  {| Extract.h2_link :=
       Some (Some {| Extract.a_text := "octo / cat";
                     Extract.a_href := None |});
     Extract.description_tag := None;
     Extract.language_tag := None;
     Extract.select_one := fun _ => Extract.Parsed None;
     Extract.date_range_stars_tag := None |}.

(** An article whose heading link has an [href] that the selector
    cannot hold: it ends with a newline. *)
Definition unquotable : Extract.article :=
  {| Extract.h2_link :=
       Some (Some (link "octo / cat" (String.append "/octo/cat" Str.nl)));
     Extract.description_tag := None;
     Extract.language_tag := None;
     Extract.select_one := fun _ =>
       Extract.Failed Extract.SelectorSyntaxError;
     Extract.date_range_stars_tag := None |}.

Definition cat : Extract.article :=
  good (String.append "octo / " (String.append Str.nl "  cat")) "/octo/cat"
    "1,234".

Definition crab : Extract.article := good "ferris / crab" "/ferris/crab" "56".

(** A star count [int] rejects. *)
Definition odd_count : Extract.article :=
  good "guido / snake" "/guido/snake" "1.2k".

Definition two_snapshots : list (list AggregatedEntity) :=
  [[Demo.twice_seen];
   [{| record := Demo.repo "octo/cat" 7; published := [Demo.seen "rust"] |}]].

Definition two_snapshots_swapped : list (list AggregatedEntity) :=
  [[{| record := Demo.repo "octo/cat" 7; published := [Demo.seen "rust"] |}];
   [Demo.twice_seen]].

(** A file system with nothing in it. *)
Definition empty_world : FS.world :=
  {| FS.files := []; FS.dirs := []; FS.denied := [] |}.

(** The state left by an earlier run, with the per-run file of the weekly
    run protected against opening. *)
Definition locked_run_world : FS.world :=
  {| FS.files := FS.files Demo.cached_world;
     FS.dirs := ["temp"];
     FS.denied := ["temp/weekly-all.json"] |}.

(** The cached list holds a byte that is no UTF-8: [p], then 0xFF. *)
Definition undecodable_world : FS.world :=
  {| FS.files :=
       [("temp/lang_list.txt",
         string_of_list_ascii (Str.bytes [112; 255; 10]))];
     FS.dirs := ["temp"];
     FS.denied := [] |}.

(** The cached list as another system may have written it: a line ended
    by a carriage return and a newline, one by a carriage return alone,
    and a no-break space (U+00A0) after the last name. *)
Definition foreign_world : FS.world :=
  {| FS.files :=
       [("temp/lang_list.txt",
         string_of_list_ascii
           (Str.bytes [103; 111; 13; 10; 32; 99; 13;
                       114; 117; 115; 116; 194; 160; 10]))];
     FS.dirs := ["temp"];
     FS.denied := [] |}.

(** During a daily run the page of all languages and the page of python
    list one repository each; every other request times out. *)
Definition daily_net (url : string) : Fetch.response :=
  if String.eqb url (Gathering.base_url "daily") then
    Fetch.Body "octo/cat"
  else if String.eqb url (Gathering.language_url "all" "daily" "python") then
    Fetch.Body "guido/snake"
  else Fetch.Timeout.

(** A reading of pages for the examples: a page is known by its text. *)
Definition articles_of (html : string) : list Extract.article :=
  if String.eqb html "cat" then [cat]
  else if String.eqb html "crab" then [crab]
  else if String.eqb html "crab, and a link without href" then [crab; unlinked]
  else [].

(** Lines 90-130 on such a page. *)
Definition extract_page (html : string) : option (list EntityRecord) :=
  Extract.returned (Extract.get_records int_of (articles_of html)).

(** During a weekly run the page of all languages lists one repository,
    the request for the page of python times out, and the page of rust
    has an article whose heading link has no [href]. *)
Definition spoiled_net (url : string) : Fetch.response :=
  if String.eqb url (Gathering.base_url "weekly") then Fetch.Body "cat"
  else if String.eqb url (Gathering.language_url "all" "weekly" "rust") then
    Fetch.Body "crab, and a link without href"
  else Fetch.Timeout.

(** The same responses, with a page of rust that lists one repository. *)
Definition mended_net (url : string) : Fetch.response :=
  if String.eqb url (Gathering.language_url "all" "weekly" "rust")
  then Fetch.Body "crab" else spoiled_net url.

Definition cat_record : EntityRecord :=
  {| repository_name := "octo/cat";
     repository_url := "https://github.com/octo/cat";
     description := "A tool.";
     language := "Python";
     star := 1234;
     fork := 12;
     date_range_stars := 345 |}.

Definition crab_record : EntityRecord :=
  {| repository_name := "ferris/crab";
     repository_url := "https://github.com/ferris/crab";
     description := "A tool.";
     language := "Python";
     star := 56;
     fork := 12;
     date_range_stars := 345 |}.

Definition cat_and_crab_listed : list Measure.listing :=
  [{| Measure.listed_name := "octo/cat";
      Measure.listed_url := "https://github.com/octo/cat" |};
   {| Measure.listed_name := "ferris/crab";
      Measure.listed_url := "https://github.com/ferris/crab" |}].

Definition other_repo : AggregatedEntity :=
  {| record := Demo.repo "ferris/crab" 2; published := [Demo.seen "rust"] |}.

End Samples.

(* ================================================================== *)
(** * Part II: properties *)
(* ================================================================== *)

(** ** Facts about dictionaries *)

Section DictFacts.
Context {V : Type}.
Implicit Types (d : Dict.t V) (k : string) (v : V).

Lemma dict_mem_get k d :
  Dict.mem k d = true <-> exists v, Dict.get k d = Some v.
Proof.
  unfold Dict.mem. destruct (Dict.get k d) as [v|].
  - split; [eauto | reflexivity].
  - split; [discriminate | intros [v Hv]; discriminate].
Qed.

Lemma dict_mem_false_get k d :
  Dict.mem k d = false <-> Dict.get k d = None.
Proof.
  unfold Dict.mem. destruct (Dict.get k d); split; congruence.
Qed.

Lemma dict_get_in_keys k d :
  In k (Dict.keys d) <-> Dict.get k d <> None.
Proof.
  induction d as [|[k' v] rest IH]; simpl.
  - split; [tauto | congruence].
  - destruct (String.eqb_spec k' k) as [->|Hne].
    + split; [congruence | auto].
    + rewrite <- IH. split; [intros [H|H]; [congruence | exact H] | auto].
Qed.

Lemma dict_get_update k k' f d :
  Dict.get k (Dict.update k' f d) =
  if String.eqb k' k then option_map f (Dict.get k d) else Dict.get k d.
Proof.
  induction d as [|[k0 v] rest IH]; simpl.
  - destruct (String.eqb k' k); reflexivity.
  - destruct (String.eqb_spec k0 k') as [E0|N0]; simpl.
    + subst k0. destruct (String.eqb_spec k' k); reflexivity.
    + rewrite IH.
      destruct (String.eqb_spec k' k) as [E|N];
        destruct (String.eqb_spec k0 k); try reflexivity; congruence.
Qed.

Lemma dict_get_snoc k k' v d :
  Dict.get k (d ++ [(k', v)]) =
  match Dict.get k d with
  | Some w => Some w
  | None => if String.eqb k' k then Some v else None
  end.
Proof.
  induction d as [|[k0 w] rest IH]; simpl.
  - reflexivity.
  - destruct (String.eqb k0 k); [reflexivity | exact IH].
Qed.

Lemma dict_keys_update k f d :
  Dict.keys (Dict.update k f d) = Dict.keys d.
Proof.
  induction d as [|[k0 w] rest IH]; simpl.
  - reflexivity.
  - destruct (String.eqb k0 k); simpl; [reflexivity | now rewrite IH].
Qed.

Lemma dict_keys_set k v d :
  Dict.keys (Dict.set k v d) =
  if Dict.mem k d then Dict.keys d else Dict.keys d ++ [k].
Proof.
  unfold Dict.set. destruct (Dict.mem k d).
  - apply dict_keys_update.
  - unfold Dict.keys. rewrite map_app. reflexivity.
Qed.

End DictFacts.

(** ** The fold rule shared by the two loops *)

Section FoldRule.
Implicit Types (output : Dict.t AggregatedEntity) (repo : AggregatedEntity)
  (k : string).

(** The aggregation step is the merge step applied to the repository
    carrying a one-element ['published'] list. *)
Lemma add_repo_as_merge language spoken since output (r : EntityRecord) :
  Gathering.add_repo language spoken since output r =
  Organize.merge_repo output
    {| record := r;
       published := [Gathering.membership language spoken since] |}.
Proof. reflexivity. Qed.

Lemma get_merge_repo k output repo :
  Dict.get k (Organize.merge_repo output repo) =
  if String.eqb (name_of repo) k then
    Some match Dict.get k output with
         | Some e => Organize.extend_published (published repo) e
         | None => repo
         end
  else Dict.get k output.
Proof.
  unfold Organize.merge_repo.
  destruct (Dict.mem (name_of repo) output) eqn:Hmem.
  - rewrite dict_get_update.
    destruct (String.eqb_spec (name_of repo) k) as [<-|_]; [|reflexivity].
    apply dict_mem_get in Hmem. destruct Hmem as [e ->]. reflexivity.
  - unfold Dict.set. rewrite Hmem, dict_get_snoc.
    apply dict_mem_false_get in Hmem.
    destruct (String.eqb_spec (name_of repo) k) as [<-|_].
    + rewrite Hmem. reflexivity.
    + destruct (Dict.get k output); reflexivity.
Qed.

Lemma keys_merge_repo output repo :
  Dict.keys (Organize.merge_repo output repo) =
  if Dict.mem (name_of repo) output then Dict.keys output
  else Dict.keys output ++ [name_of repo].
Proof.
  unfold Organize.merge_repo.
  destruct (Dict.mem (name_of repo) output) eqn:Hmem.
  - apply dict_keys_update.
  - rewrite dict_keys_set, Hmem. reflexivity.
Qed.

Lemma get_fold_merge k repos : forall output,
  Dict.get k (fold_left Organize.merge_repo repos output) =
  absorb (Dict.get k output) (occurrences k repos).
Proof.
  induction repos as [|r rest IH]; intros output; simpl.
  - reflexivity.
  - rewrite IH, get_merge_repo.
    destruct (String.eqb (name_of r) k); reflexivity.
Qed.

Lemma absorb_some e repos :
  absorb (Some e) repos =
  Some {| record := record e;
          published := published e ++ flat_map published repos |}.
Proof.
  revert e. induction repos as [|r rest IH]; intros e.
  - simpl. rewrite app_nil_r. destruct e; reflexivity.
  - change (absorb (Some e) (r :: rest))
      with (absorb (Some (Organize.extend_published (published r) e)) rest).
    rewrite IH. simpl. rewrite <- app_assoc. reflexivity.
Qed.

Lemma absorb_none repos :
  absorb None repos =
  match repos with
  | [] => None
  | r :: rest =>
      Some {| record := record r;
              published := flat_map published (r :: rest) |}
  end.
Proof.
  destruct repos as [|r rest]; [reflexivity|].
  change (absorb None (r :: rest)) with (absorb (Some r) rest).
  apply absorb_some.
Qed.

Lemma nodup_keys_fold_merge repos : forall output,
  NoDup (Dict.keys output) ->
  NoDup (Dict.keys (fold_left Organize.merge_repo repos output)).
Proof.
  induction repos as [|r rest IH]; intros output Hnd; simpl.
  - exact Hnd.
  - apply IH. rewrite keys_merge_repo.
    destruct (Dict.mem (name_of r) output) eqn:Hmem; [exact Hnd|].
    apply Permutation_NoDup with (l := name_of r :: Dict.keys output).
    + apply Permutation_cons_append.
    + constructor; [|exact Hnd].
      rewrite dict_get_in_keys. apply dict_mem_false_get in Hmem. congruence.
Qed.

(** Folding repositories whose names are all present adds no key. *)
Lemma keys_fold_merge_present repos : forall output,
  (forall r, In r repos -> In (name_of r) (Dict.keys output)) ->
  Dict.keys (fold_left Organize.merge_repo repos output) = Dict.keys output.
Proof.
  induction repos as [|r rest IH]; intros output Hin; simpl.
  - reflexivity.
  - assert (Hk : Dict.keys (Organize.merge_repo output r) = Dict.keys output).
    { rewrite keys_merge_repo.
      destruct (Dict.mem (name_of r) output) eqn:Hmem; [reflexivity|].
      apply dict_mem_false_get in Hmem.
      exfalso. specialize (Hin r (or_introl eq_refl)).
      apply dict_get_in_keys in Hin. contradiction. }
    rewrite IH; [exact Hk|].
    intros r' Hr'. rewrite Hk. apply Hin. right. exact Hr'.
Qed.

Lemma in_keys_fold_merge k repos output :
  In k (Dict.keys (fold_left Organize.merge_repo repos output)) <->
  In k (Dict.keys output) \/ In k (map name_of repos).
Proof.
  rewrite !dict_get_in_keys, get_fold_merge.
  destruct (Dict.get k output) as [e|] eqn:He.
  - rewrite absorb_some. split; [left|]; congruence.
  - rewrite absorb_none. unfold occurrences.
    assert (Hocc : filter (fun r => String.eqb (name_of r) k) repos <> [] <->
                   In k (map name_of repos)).
    { rewrite in_map_iff. split.
      - intros Hne.
        destruct (filter _ repos) as [|r l] eqn:Hf; [congruence|].
        assert (Hr : In r (filter (fun r => String.eqb (name_of r) k) repos))
          by (rewrite Hf; left; reflexivity).
        apply filter_In in Hr. destruct Hr as [Hr Hk].
        apply String.eqb_eq in Hk. eauto.
      - intros (r & Hk & Hr) Hf.
        assert (Hin : In r (filter (fun r => String.eqb (name_of r) k) repos)).
        { apply filter_In. split; [exact Hr|]. now apply String.eqb_eq. }
        rewrite Hf in Hin. exact Hin. }
    rewrite <- Hocc.
    destruct (filter _ repos); split.
    + intros H; congruence.
    + intros [H|H]; congruence.
    + intros _. right. congruence.
    + intros _. congruence.
Qed.

Lemma merge_file_flat snapshots : forall output,
  fold_left Organize.merge_file snapshots output =
  fold_left Organize.merge_repo (List.concat snapshots) output.
Proof.
  induction snapshots as [|a rest IH]; intros output; simpl.
  - reflexivity.
  - rewrite fold_left_app. apply IH.
Qed.

Lemma merge_flat snapshots :
  Organize.merge snapshots =
  fold_left Organize.merge_repo (List.concat snapshots) [].
Proof. apply merge_file_flat. Qed.

Lemma fst_add_facet spoken since acc item :
  fst (Gathering.add_facet spoken since acc item) =
  fold_left Organize.merge_repo (tagged spoken since [item]) (fst acc).
Proof.
  destruct acc as [output langs], item as [result language].
  unfold tagged. simpl. rewrite app_nil_r.
  destruct result as [|r rest]; [reflexivity|].
  cbn [List.length Nat.eqb fst].
  generalize (r :: rest) as l. intros l. revert output.
  induction l as [|x l IH]; intros output; [reflexivity|].
  simpl. rewrite <- IH. reflexivity.
Qed.

Lemma fst_aggregate_pairs_from spoken since pairs : forall acc,
  fst (fold_left (Gathering.add_facet spoken since) pairs acc) =
  fold_left Organize.merge_repo (tagged spoken since pairs) (fst acc).
Proof.
  induction pairs as [|item rest IH]; intros acc; [reflexivity|].
  cbn [fold_left]. rewrite IH, fst_add_facet.
  unfold tagged. simpl. rewrite app_nil_r, fold_left_app. reflexivity.
Qed.

(** The dictionary of one run is the merge of its tagged repositories. *)
Lemma fst_aggregate_pairs spoken since pairs :
  fst (Gathering.aggregate_pairs spoken since pairs) =
  fold_left Organize.merge_repo (tagged spoken since pairs) [].
Proof. apply fst_aggregate_pairs_from. Qed.

End FoldRule.

(** ** Permutations *)

Section Permutations.
Context {A B : Type}.

Lemma perm_filter (f : A -> bool) (l l' : list A) :
  Permutation l l' -> Permutation (filter f l) (filter f l').
Proof.
  induction 1 as [|x l l' _ IH|x y l|l l' l'' _ IH1 _ IH2]; simpl.
  - constructor.
  - destruct (f x); [constructor|]; exact IH.
  - destruct (f x), (f y); try apply Permutation_refl. constructor.
  - eapply Permutation_trans; eassumption.
Qed.

Lemma perm_flat_map (f : A -> list B) (l l' : list A) :
  Permutation l l' -> Permutation (flat_map f l) (flat_map f l').
Proof.
  induction 1 as [|x l l' _ IH|x y l|l l' l'' _ IH1 _ IH2]; simpl.
  - constructor.
  - apply Permutation_app_head. exact IH.
  - rewrite !app_assoc. apply Permutation_app_tail, Permutation_app_comm.
  - eapply Permutation_trans; eassumption.
Qed.

End Permutations.

(** ** The aggregator and the merge engine *)

Section Aggregation.
Implicit Types (output : Dict.t AggregatedEntity) (k : string).

(** C2, as amended. The two loops follow one rule up to what is
    appended. In the aggregation, a repository whose name is absent is
    inserted with the one-element list holding the current membership,
    and a present one gets that membership appended. In the merge, a
    repository whose name is absent is inserted as it is, with its whole
    ['published'] list, and a present one gets the whole incoming list
    appended. In both, the scalar fields stored first are kept and the
    other entries are untouched. So each loop ends with exactly one entry
    for every name it processed and none for any other: the keys of the
    final dictionary are pairwise distinct, they are the names of the
    processed repositories, and the entry of a name holds the scalar
    fields of its first occurrence with the memberships of all its
    occurrences, in the order of the processing. The repositories
    processed by the aggregation are those of the results that [zip]
    pairs with a language, each with the membership of that language. *)
Theorem fold_rule_first_seen_wins :
  forall language spoken since output (r : EntityRecord)
         (repo : AggregatedEntity) k results languages snapshots,
    let m := Gathering.membership language spoken since in
    let processed := tagged spoken since (combine results languages) in
    let final := fst (Gathering.aggregate spoken since results languages) in
    Dict.get k (Gathering.add_repo language spoken since output r) =
      (if String.eqb (repository_name r) k then
         Some match Dict.get k output with
              | Some e =>
                  {| record := record e; published := published e ++ [m] |}
              | None => {| record := r; published := [m] |}
              end
       else Dict.get k output)
    /\ Dict.get k (Organize.merge_repo output repo) =
      (if String.eqb (name_of repo) k then
         Some match Dict.get k output with
              | Some e =>
                  {| record := record e;
                     published := published e ++ published repo |}
              | None => repo
              end
       else Dict.get k output)
    /\ NoDup (Dict.keys final)
    /\ (In k (Dict.keys final) <-> In k (map name_of processed))
    /\ Dict.get k final =
       match occurrences k processed with
       | [] => None
       | first :: others =>
           Some {| record := record first;
                   published := flat_map published (first :: others) |}
       end
    /\ NoDup (Dict.keys (Organize.merge snapshots))
    /\ (In k (Dict.keys (Organize.merge snapshots)) <->
        In k (map name_of (List.concat snapshots)))
    /\ Dict.get k (Organize.merge snapshots) =
       match occurrences k (List.concat snapshots) with
       | [] => None
       | first :: others =>
           Some {| record := record first;
                   published := flat_map published (first :: others) |}
       end.
Proof.
  intros language spoken since output r repo k results languages snapshots
    m processed final.
  assert (Hfinal : final = fold_left Organize.merge_repo processed [])
    by apply fst_aggregate_pairs.
  split; [rewrite add_repo_as_merge, get_merge_repo; reflexivity|].
  split; [apply get_merge_repo|].
  rewrite Hfinal, merge_flat.
  split; [apply nodup_keys_fold_merge; constructor|].
  split; [rewrite in_keys_fold_merge; simpl; tauto|].
  split; [rewrite get_fold_merge; apply absorb_none|].
  split; [apply nodup_keys_fold_merge; constructor|].
  split; [rewrite in_keys_fold_merge; simpl; tauto|].
  rewrite get_fold_merge. apply absorb_none.
Qed.

(** C2, as stated, fails on the merge: a repository whose name is absent
    is not inserted with a one-element membership list; it keeps the list
    of its file, here of two elements. *)
Lemma merge_inserts_whole_membership_list :
  Dict.mem (V := AggregatedEntity) (name_of Demo.twice_seen) [] = false
  /\ option_map published
       (Dict.get (name_of Demo.twice_seen)
          (Organize.merge_repo [] Demo.twice_seen))
     = Some [Demo.seen "all"; Demo.seen "python"]
  /\ ~ (forall output repo,
          Dict.mem (name_of repo) output = false ->
          exists m,
            option_map published
              (Dict.get (name_of repo) (Organize.merge_repo output repo))
            = Some [m]).
Proof.
  split; [reflexivity|]. split; [reflexivity|].
  intros H. destruct (H [] Demo.twice_seen eq_refl) as [m Hm].
  discriminate Hm.
Qed.

Lemma get_merge_one (A : list AggregatedEntity) k :
  Dict.get k (Organize.merge [A]) = absorb None (occurrences k A).
Proof. rewrite merge_flat. simpl. rewrite app_nil_r. apply get_fold_merge. Qed.

Lemma merge_two (A : list AggregatedEntity) :
  Organize.merge [A; A] =
  fold_left Organize.merge_repo A (Organize.merge [A]).
Proof. reflexivity. Qed.

(** C3. The merge of a snapshot alone has the names of the snapshot for
    keys and, under a name, the scalar fields of its first occurrence and
    the memberships of its occurrences, one list after the other. Merging
    the snapshot with itself keeps the keys (in their order) and the
    scalar fields, and appends every membership list to itself, so that
    its length doubles: the two merges differ as soon as a name has a
    membership. *)
Theorem merge_twice_doubles_memberships :
  forall (A : list AggregatedEntity) k,
    (In k (Dict.keys (Organize.merge [A])) <-> In k (map name_of A))
    /\ scalars (Organize.merge [A]) k =
         option_map record (hd_error (occurrences k A))
    /\ memberships (Organize.merge [A]) k =
         flat_map published (occurrences k A)
    /\ Dict.keys (Organize.merge [A; A]) = Dict.keys (Organize.merge [A])
    /\ scalars (Organize.merge [A; A]) k = scalars (Organize.merge [A]) k
    /\ memberships (Organize.merge [A; A]) k =
         memberships (Organize.merge [A]) k
         ++ memberships (Organize.merge [A]) k
    /\ List.length (memberships (Organize.merge [A; A]) k) =
         2 * List.length (memberships (Organize.merge [A]) k)
    /\ (memberships (Organize.merge [A]) k <> [] ->
        Organize.merge [A; A] <> Organize.merge [A]).
Proof.
  intros A k.
  assert (Hget : Dict.get k (Organize.merge [A; A]) =
                 absorb (Dict.get k (Organize.merge [A])) (occurrences k A)).
  { rewrite merge_two. apply get_fold_merge. }
  assert (Hm : memberships (Organize.merge [A; A]) k =
               memberships (Organize.merge [A]) k
               ++ memberships (Organize.merge [A]) k
               /\ scalars (Organize.merge [A; A]) k =
                  scalars (Organize.merge [A]) k).
  { unfold memberships, scalars. rewrite Hget, get_merge_one, absorb_none.
    destruct (occurrences k A) as [|r rest]; [split; reflexivity|].
    rewrite absorb_some. split; reflexivity. }
  destruct Hm as [Hm Hs].
  assert (Hone : Organize.merge [A] = fold_left Organize.merge_repo A []).
  { rewrite merge_flat. simpl. rewrite app_nil_r. reflexivity. }
  split; [rewrite Hone, in_keys_fold_merge; simpl; tauto|].
  split; [unfold scalars; rewrite get_merge_one, absorb_none;
          destruct (occurrences k A); reflexivity|].
  split; [unfold memberships; rewrite get_merge_one, absorb_none;
          destruct (occurrences k A); reflexivity|].
  split; [|split; [exact Hs|split; [exact Hm|split]]].
  - rewrite merge_two. apply keys_fold_merge_present.
    intros r Hr. rewrite merge_flat. apply in_keys_fold_merge. right.
    simpl. rewrite app_nil_r. apply in_map. exact Hr.
  - rewrite Hm, length_app. lia.
  - intros Hne Heq. rewrite Heq in Hm.
    apply (f_equal (@List.length _)) in Hm. rewrite length_app in Hm.
    destruct (memberships (Organize.merge [A]) k); [congruence|].
    simpl in Hm. lia.
Qed.

Lemma in_occurrences_tagged spoken since pairs k e :
  In e (occurrences k (tagged spoken since pairs)) ->
  In (record e) (flat_map fst pairs) /\ repository_name (record e) = k.
Proof.
  unfold occurrences. rewrite filter_In. intros [Hin Hk].
  apply String.eqb_eq in Hk. split; [|exact Hk].
  unfold tagged in Hin. apply in_flat_map in Hin.
  destruct Hin as (item & Hitem & He). apply in_map_iff in He.
  destruct He as (r & <- & Hr). simpl.
  apply in_flat_map. exists item. split; assumption.
Qed.

Lemma scalars_fold_tagged spoken since pairs k :
  scalars (fst (Gathering.aggregate_pairs spoken since pairs)) k =
  option_map record (hd_error (occurrences k (tagged spoken since pairs))).
Proof.
  unfold scalars. rewrite fst_aggregate_pairs, get_fold_merge. simpl.
  rewrite absorb_none.
  destruct (occurrences k (tagged spoken since pairs)); reflexivity.
Qed.

Lemma memberships_fold_tagged spoken since pairs k :
  memberships (fst (Gathering.aggregate_pairs spoken since pairs)) k =
  flat_map published (occurrences k (tagged spoken since pairs)).
Proof.
  unfold memberships. rewrite fst_aggregate_pairs, get_fold_merge. simpl.
  rewrite absorb_none.
  destruct (occurrences k (tagged spoken since pairs)); reflexivity.
Qed.

(** C5, as amended. When the per-language results are processed in
    another order, the dictionary has the same keys and, under every key,
    a membership list that is a permutation of the former one. The scalar
    fields stored under a key are those of its first occurrence in the
    processing order: they are the same in both orders when all the
    occurrences of that key carry the same scalar fields. *)
Theorem aggregate_permutation :
  forall spoken since pairs pairs' k,
    Permutation pairs pairs' ->
    let output := fst (Gathering.aggregate_pairs spoken since pairs) in
    let output' := fst (Gathering.aggregate_pairs spoken since pairs') in
    (In k (Dict.keys output) <-> In k (Dict.keys output'))
    /\ Permutation (memberships output k) (memberships output' k)
    /\ (agree_on k pairs -> scalars output k = scalars output' k)
    /\ scalars output k =
       option_map record
         (hd_error (occurrences k (tagged spoken since pairs))).
Proof.
  intros spoken since pairs pairs' k Hperm output output'.
  assert (Htag : Permutation (tagged spoken since pairs)
                             (tagged spoken since pairs'))
    by (apply perm_flat_map; exact Hperm).
  assert (Hocc : Permutation (occurrences k (tagged spoken since pairs))
                             (occurrences k (tagged spoken since pairs')))
    by (apply perm_filter; exact Htag).
  split; [|split; [|split]]; [| | |apply scalars_fold_tagged].
  - unfold output, output'. rewrite !fst_aggregate_pairs, !in_keys_fold_merge.
    simpl. split; intros [[]|H]; right;
      eapply Permutation_in; try exact H; apply Permutation_map;
      [exact Htag | apply Permutation_sym; exact Htag].
  - unfold output, output'. rewrite !memberships_fold_tagged.
    apply perm_flat_map. exact Hocc.
  - intros Hagree. unfold output, output'. rewrite !scalars_fold_tagged.
    destruct (occurrences k (tagged spoken since pairs)) as [|e l] eqn:He.
    + apply Permutation_nil in Hocc. rewrite Hocc. reflexivity.
    + destruct (occurrences k (tagged spoken since pairs')) as [|e' l'] eqn:He'.
      * apply Permutation_sym, Permutation_nil in Hocc. discriminate.
      * simpl. f_equal.
        assert (H1 : In e (occurrences k (tagged spoken since pairs)))
          by (rewrite He; left; reflexivity).
        assert (H2 : In e' (occurrences k (tagged spoken since pairs))).
        { rewrite He. eapply Permutation_in;
            [apply Permutation_sym; exact Hocc|]. left; reflexivity. }
        apply in_occurrences_tagged in H1, H2.
        destruct H1 as [H1 K1], H2 as [H2 K2].
        apply Hagree; assumption.
Qed.

(** C5, as stated, fails: the two occurrences of one repository differ
    only in the stars gained in the window, the two processing orders are
    permutations of each other, and the dictionaries store different
    scalar fields under its name. *)
Lemma aggregate_scalars_depend_on_order :
  Permutation Demo.python_first Demo.rust_first
  /\ scalars (fst (Gathering.aggregate_pairs "all" "daily" Demo.python_first))
       "octo/cat" = Some (Demo.repo "octo/cat" 10)
  /\ scalars (fst (Gathering.aggregate_pairs "all" "daily" Demo.rust_first))
       "octo/cat" = Some (Demo.repo "octo/cat" 20)
  /\ scalars (fst (Gathering.aggregate_pairs "all" "daily" Demo.python_first))
       "octo/cat"
     <> scalars (fst (Gathering.aggregate_pairs "all" "daily" Demo.rust_first))
          "octo/cat".
Proof.
  split; [apply perm_swap|].
  split; [reflexivity|]. split; [reflexivity|].
  vm_compute. discriminate.
Qed.

End Aggregation.

(** ** The fetch orchestrator *)

Section Orchestrator.
Variable extract : string -> option (list EntityRecord).

Lemma all_values_none (A : Type) (tasks : list (option A)) :
  Fetch.all_values tasks = None <-> In None tasks.
Proof.
  induction tasks as [|[v|] rest IH]; simpl.
  - split; [discriminate | tauto].
  - destruct (Fetch.all_values rest).
    + split; [discriminate|]. intros [H|H]; [discriminate H|].
      apply IH in H. discriminate H.
    + split; [intros _; right; apply IH; reflexivity | reflexivity].
  - split; [auto | reflexivity].
Qed.

Lemma all_values_map (A : Type) (tasks : list (option A)) vs :
  Fetch.all_values tasks = Some vs -> tasks = map Some vs.
Proof.
  revert vs. induction tasks as [|[v|] rest IH]; intros vs; simpl.
  - intros H. injection H as <-. reflexivity.
  - destruct (Fetch.all_values rest) as [vs'|]; [|discriminate].
    intros H. injection H as <-. simpl. now rewrite (IH vs' eq_refl).
  - discriminate.
Qed.

Lemma task_failed net url :
  Fetch.succeeded (net url) = false ->
  snd (Fetch.get_github_trending_repositories_async extract net url)
  = Some [].
Proof.
  unfold Fetch.get_github_trending_repositories_async.
  destruct (net url); simpl; [discriminate | reflexivity ..].
Qed.

(** A task raises only after a retrieval that succeeded, when the
    extraction of the page does. *)
Lemma task_raises net url :
  snd (Fetch.get_github_trending_repositories_async extract net url) = None
  <-> exists html, net url = Fetch.Body html /\ extract html = None.
Proof.
  unfold Fetch.get_github_trending_repositories_async.
  destruct (net url) as [html| |code|]; simpl.
  - split; [eauto|]. intros (h & Hh & He). injection Hh as <-. exact He.
  - split; [discriminate | intros (h & Hh & _); discriminate Hh].
  - split; [discriminate | intros (h & Hh & _); discriminate Hh].
  - split; [discriminate | intros (h & Hh & _); discriminate Hh].
Qed.

Lemma gather_raises_iff net urls :
  Fetch.gather extract net urls = None
  <-> exists url html,
        In url urls /\ net url = Fetch.Body html /\ extract html = None.
Proof.
  unfold Fetch.gather. rewrite all_values_none, in_map_iff. split.
  - intros (url & Hnone & Hin). apply task_raises in Hnone.
    destruct Hnone as (html & Hbody & Hex). eauto.
  - intros (url & html & Hin & Hbody & Hex). exists url.
    split; [|exact Hin]. apply task_raises. eauto.
Qed.

(** X26. What the orchestrator returns when it returns: one result for
    every target, in the order of the targets; the result of a target is
    what its own task returned, and it is the empty list when the
    retrieval failed (connection error, bad status, timeout). *)
Theorem gather_isolates_failed_retrievals net urls results :
  Fetch.gather extract net urls = Some results ->
  List.length results = List.length urls
  /\ (forall i url,
        nth_error urls i = Some url ->
        exists result,
          nth_error results i = Some result
          /\ snd (Fetch.get_github_trending_repositories_async extract net
                    url) = Some result)
  /\ (forall i url,
        nth_error urls i = Some url ->
        Fetch.succeeded (net url) = false ->
        nth_error results i = Some []).
Proof.
  unfold Fetch.gather. intros H. apply all_values_map in H.
  assert (Hnth : forall i url,
            nth_error urls i = Some url ->
            exists result,
              nth_error results i = Some result
              /\ snd (Fetch.get_github_trending_repositories_async extract net
                        url) = Some result).
  { intros i url Hi.
    assert (Hi' : nth_error
                    (map (fun url =>
                            snd (Fetch.get_github_trending_repositories_async
                                   extract net url)) urls) i
                  = nth_error (map Some results) i) by (now rewrite H).
    rewrite !nth_error_map, Hi in Hi'. simpl in Hi'.
    destruct (nth_error results i) as [result|]; [|discriminate Hi'].
    simpl in Hi'. injection Hi' as Hi'.
    exists result. split; [reflexivity | exact Hi']. }
  split; [|split; [exact Hnth|]].
  - apply (f_equal (@List.length _)) in H. rewrite !length_map in H.
    symmetry. exact H.
  - intros i url Hi Hfail. destruct (Hnth i url Hi) as (result & Hr & Ht).
    rewrite (task_failed net url Hfail) in Ht. injection Ht as <-. exact Hr.
Qed.

(** When every retrieval fails nothing is extracted, and the outcome is
    the list of empty results. *)
Lemma gather_all_failed net urls :
  (forall url, In url urls -> Fetch.succeeded (net url) = false) ->
  Fetch.gather extract net urls = Some (repeat [] (List.length urls)).
Proof.
  intros Hall. unfold Fetch.gather.
  induction urls as [|url rest IH]; [reflexivity|].
  simpl. rewrite task_failed by (apply Hall; left; reflexivity).
  rewrite IH; [reflexivity|]. intros u Hu. apply Hall. right. exact Hu.
Qed.

(** C1 fails on a list of targets one of whose pages is retrieved and
    then makes the extraction raise an exception that the handler of
    line 126 does not catch (a heading link without [href], for
    instance): the exception leaves the task, [asyncio.gather] raises it
    again and no list of results is returned, whatever the other targets
    gave. *)
Theorem gather_raises_when_an_extraction_does :
  forall net urls url html,
    In url urls ->
    net url = Fetch.Body html ->
    extract html = None ->
    snd (Fetch.get_github_trending_repositories_async extract net url) = None
    /\ Fetch.gather extract net urls = None
    /\ forall J discovered since spoken w languages,
         Gathering.languages_of discovered spoken since w =
           (Py.Return languages, w) ->
         Gathering.urls_of spoken since languages = urls ->
         Gathering.main J extract net discovered since spoken w =
         (Py.Raise Py.ExtractionError, w).
Proof.
  intros net urls url html Hin Hbody Hex.
  assert (Hnone : Fetch.gather extract net urls = None)
    by (apply gather_raises_iff; eauto).
  split; [apply task_raises; eauto|]. split; [exact Hnone|].
  intros J discovered since spoken w languages Hlangs Hurls.
  unfold Gathering.main, FS.bind. rewrite Hlangs, Hurls, Hnone. reflexivity.
Qed.

(** C6, as amended. A task whose retrieval succeeded pauses for one
    second while it holds its slot and releases the slot after the pause;
    a task whose retrieval failed leaves the block, and releases its
    slot, without pausing. In both cases the slot is taken before the
    request is sent and nothing is parsed before the slot is released (a
    failed task parses nothing at all). *)
Theorem cooldown_only_after_success :
  forall net url,
    let prog :=
      fst (Fetch.get_github_trending_repositories_async extract net url) in
    existsb Fetch.is_sleep (Fetch.before Fetch.is_release prog)
      = Fetch.succeeded (net url)
    /\ existsb Fetch.is_sleep prog = Fetch.succeeded (net url)
    /\ existsb Fetch.is_parse prog = Fetch.succeeded (net url)
    /\ existsb Fetch.is_parse (Fetch.before Fetch.is_release prog) = false
    /\ existsb Fetch.is_release prog = true
    /\ Fetch.before Fetch.is_acquire prog = []
    /\ (Fetch.succeeded (net url) = true ->
        Fetch.before Fetch.is_release prog =
        Fetch.before Fetch.is_sleep prog ++ [Fetch.Sleep 1]).
Proof.
  intros net url prog. subst prog.
  unfold Fetch.get_github_trending_repositories_async.
  destruct (net url); simpl; repeat split; try reflexivity; discriminate.
Qed.

End Orchestrator.

(** C6, as stated, fails: a task whose retrieval timed out performs no
    pause before it releases its slot. *)
Lemma failed_task_releases_without_cooldown :
  let prog :=
    fst (Fetch.get_github_trending_repositories_async
           (fun _ => Some []) (fun _ => Fetch.Timeout)
           "https://github.com/trending?since=daily") in
  Fetch.before Fetch.is_release prog =
    [Fetch.Acquire;
     Fetch.LogFetching "https://github.com/trending?since=daily";
     Fetch.Send "https://github.com/trending?since=daily";
     Fetch.Receive "https://github.com/trending?since=daily";
     Fetch.LogError "https://github.com/trending?since=daily"]
  /\ existsb Fetch.is_release prog = true
  /\ ~ In (Fetch.Sleep 1) (Fetch.before Fetch.is_release prog).
Proof.
  split; [reflexivity|]. split; [reflexivity|].
  simpl. intros H. repeat destruct H as [H|H]; try discriminate H. exact H.
Qed.

(** ** The concurrency ceiling *)

Section Ceiling.

Lemma task_state_initial extract net url :
  Fetch.task_state
    (fst (Fetch.get_github_trending_repositories_async extract net url)).
Proof.
  exists url. unfold Fetch.get_github_trending_repositories_async.
  destruct (net url); simpl; auto 10.
Qed.

Ltac each_state H :=
  simpl in H; repeat destruct H as [H|H]; try contradiction;
  try discriminate H.

Lemma task_state_tail a rest :
  Fetch.task_state (a :: rest) -> Fetch.task_state rest.
Proof.
  intros (url & H). exists url.
  each_state H; inversion H; subst; simpl; auto 20.
Qed.

(** How one step of a task changes whether it holds a slot. *)
Lemma holding_step a rest :
  Fetch.task_state (a :: rest) ->
  match a with
  | Fetch.Acquire =>
      Fetch.holding (a :: rest) = false /\ Fetch.holding rest = true
  | Fetch.Release =>
      Fetch.holding (a :: rest) = true /\ Fetch.holding rest = false
  | _ => Fetch.holding (a :: rest) = Fetch.holding rest
  end.
Proof.
  intros (url & H). each_state H; inversion H; subst; simpl; auto.
Qed.

Lemma in_flight_holding prog :
  Fetch.task_state prog -> Fetch.in_flight prog = true ->
  Fetch.holding prog = true.
Proof.
  intros (url & H) Hf.
  each_state H; subst; simpl in *; try discriminate; reflexivity.
Qed.

Lemma count_set_nth (p : list Fetch.action -> bool) x old :
  forall l i,
    nth_error l i = Some old ->
    List.length (filter p (Fetch.set_nth i x l)) + Nat.b2n (p old) =
    List.length (filter p l) + Nat.b2n (p x).
Proof.
  induction l as [|y l IH]; intros [|i] Hi; simpl in *; try discriminate.
  - injection Hi as ->. destruct (p old), (p x); simpl; lia.
  - specialize (IH i Hi). destruct (p y); simpl; lia.
Qed.

Lemma forall_set_nth (P : list Fetch.action -> Prop) x :
  forall l i, Forall P l -> P x -> Forall P (Fetch.set_nth i x l).
Proof.
  induction l as [|y l IH]; intros [|i] Hall Hx; simpl; auto;
    inversion Hall; subst; constructor; auto.
Qed.

Lemma filter_length_le_impl (p q : list Fetch.action -> bool) l :
  Forall (fun x => p x = true -> q x = true) l ->
  List.length (filter p l) <= List.length (filter q l).
Proof.
  induction 1 as [|x l Hx _ IH]; simpl; [lia|].
  destruct (p x) eqn:Hp.
  - rewrite (Hx eq_refl). simpl. lia.
  - destruct (q x); simpl; lia.
Qed.

Lemma slots_accounted_batch extract net urls :
  Fetch.slots_accounted (Fetch.batch extract net urls).
Proof.
  split.
  - simpl. unfold Fetch.programs. apply Forall_map, Forall_forall.
    intros url _. apply task_state_initial.
  - unfold Fetch.count. simpl. unfold Fetch.programs.
    induction urls as [|url rest IH]; [reflexivity|].
    simpl. unfold Fetch.get_github_trending_repositories_async at 1.
    destruct (net url); simpl; exact IH.
Qed.

Lemma slots_accounted_step s i :
  Fetch.slots_accounted s -> Fetch.slots_accounted (Fetch.step s i).
Proof.
  unfold Fetch.slots_accounted, Fetch.count, Fetch.step.
  intros [Hall Hsum].
  destruct (nth_error (Fetch.tasks s) i) as [[|a rest]|] eqn:Hi;
    try (split; assumption).
  assert (Hst : Fetch.task_state (a :: rest)).
  { rewrite Forall_forall in Hall. apply Hall.
    eapply nth_error_In; exact Hi. }
  pose proof (task_state_tail Hst) as Hrest.
  pose proof (holding_step Hst) as Hh.
  pose proof (@count_set_nth Fetch.holding rest (a :: rest)
                (Fetch.tasks s) i Hi) as Hc.
  destruct a;
    try (split; cbn [Fetch.tasks Fetch.permits];
         [apply forall_set_nth; assumption|];
         rewrite Hh in Hc; simpl in Hc; lia).
  - destruct Hh as [H1 H2]. rewrite H1, H2 in Hc. simpl in Hc.
    destruct (Fetch.permits s) as [|n] eqn:Hp; [split; [assumption|lia]|].
    split; cbn [Fetch.tasks Fetch.permits];
      [apply forall_set_nth; assumption | lia].
  - destruct Hh as [H1 H2]. rewrite H1, H2 in Hc. simpl in Hc.
    split; cbn [Fetch.tasks Fetch.permits];
      [apply forall_set_nth; assumption | lia].
Qed.

Lemma slots_accounted_run schedule : forall s,
  Fetch.slots_accounted s -> Fetch.slots_accounted (Fetch.run schedule s).
Proof.
  unfold Fetch.run.
  induction schedule as [|i rest IH]; intros s Hs; simpl; [exact Hs|].
  apply IH, slots_accounted_step, Hs.
Qed.

(** C7. With the semaphore of five slots and more than five targets, no
    interleaving of the tasks reaches a state with more than five
    retrievals in flight. *)
Theorem at_most_five_in_flight :
  forall extract net urls schedule,
    5 < List.length urls ->
    Fetch.count Fetch.in_flight
      (Fetch.run schedule (Fetch.batch extract net urls)) <= 5.
Proof.
  intros extract net urls schedule _.
  destruct (slots_accounted_run schedule
              (slots_accounted_batch extract net urls)) as [Hall Hsum].
  change 5 with Fetch.ceiling. rewrite <- Hsum.
  unfold Fetch.count.
  etransitivity;
    [apply filter_length_le_impl with (q := Fetch.holding) | lia].
  eapply Forall_impl; [|exact Hall].
  intros prog Hst. apply in_flight_holding. exact Hst.
Qed.

End Ceiling.

(** ** Languages, targets and the cached list *)

Section Alignment.
Variable extract : string -> list EntityRecord.
Variable net : string -> Fetch.response.

Lemma filter_not_all (l : list string) :
  ~ In "all" l ->
  filter (fun i => negb (String.eqb i "all")) l = l.
Proof.
  induction l as [|x l IH]; intros Hnot; [reflexivity|].
  simpl. destruct (String.eqb_spec x "all") as [->|_].
  - exfalso. apply Hnot. left. reflexivity.
  - simpl. f_equal. apply IH. intros H. apply Hnot. right. exact H.
Qed.

(** In the default run the targets and the languages are aligned: the
    page of all languages comes first on both sides. *)
Lemma default_run_aligned (discovered : list string) :
  ~ In "all" discovered ->
  Gathering.urls_of "all" "daily" ("all" :: discovered) =
  Gathering.base_url "daily"
  :: map (Gathering.language_url "all" "daily") discovered
  /\ List.length (Gathering.urls_of "all" "daily" ("all" :: discovered)) =
     List.length ("all" :: discovered).
Proof.
  intros Hnot. unfold Gathering.urls_of. simpl.
  rewrite filter_not_all by exact Hnot. split; [reflexivity|].
  simpl. rewrite length_map. reflexivity.
Qed.

(** C4 fails on a run that loads its languages from the cached list (any
    run other than daily/all), whatever the pages hold and even when the
    extraction raises on none. The list holds ["python"; "rust"]; the
    targets are the page of all languages, then python, then rust: three
    targets for two languages, and three results. The loop pairs the
    result of the page of all languages with python and the result of
    python with rust, and never looks at the result of rust. *)
Theorem cached_run_is_shifted :
  forall discovered,
    let task :=
      Fetch.get_github_trending_repositories_async
        (Fetch.reliable extract) net in
    let result url := Fetch.value (snd (task url)) in
    fst (Gathering.languages_of discovered "all" "weekly" Demo.cached_world)
      = Py.Return ["python"; "rust"]
    /\ Gathering.urls_of "all" "weekly" ["python"; "rust"] =
         [Gathering.base_url "weekly";
          Gathering.language_url "all" "weekly" "python";
          Gathering.language_url "all" "weekly" "rust"]
    /\ List.length (Gathering.urls_of "all" "weekly" ["python"; "rust"]) = 3
    /\ (forall url, snd (task url) = Some (result url))
    /\ Fetch.gather (Fetch.reliable extract) net
         (Gathering.urls_of "all" "weekly" ["python"; "rust"]) =
       Some [result (Gathering.base_url "weekly");
             result (Gathering.language_url "all" "weekly" "python");
             result (Gathering.language_url "all" "weekly" "rust")]
    /\ combine
         [result (Gathering.base_url "weekly");
          result (Gathering.language_url "all" "weekly" "python");
          result (Gathering.language_url "all" "weekly" "rust")]
         ["python"; "rust"] =
       [(result (Gathering.base_url "weekly"), "python");
        (result (Gathering.language_url "all" "weekly" "python"), "rust")].
Proof.
  intros discovered task result.
  assert (Htask : forall url, snd (task url) = Some (result url)).
  { intros url.
    unfold result, task, Fetch.get_github_trending_repositories_async,
      Fetch.reliable.
    destruct (net url); reflexivity. }
  split; [reflexivity|]. split; [reflexivity|]. split; [reflexivity|].
  split; [exact Htask|]. split; [|reflexivity].
  change (Fetch.all_values
            [snd (task (Gathering.base_url "weekly"));
             snd (task (Gathering.language_url "all" "weekly" "python"));
             snd (task (Gathering.language_url "all" "weekly" "rust"))]
          = Some [result (Gathering.base_url "weekly");
                  result (Gathering.language_url "all" "weekly" "python");
                  result (Gathering.language_url "all" "weekly" "rust")]).
  rewrite (Htask (Gathering.base_url "weekly")),
    (Htask (Gathering.language_url "all" "weekly" "python")),
    (Htask (Gathering.language_url "all" "weekly" "rust")).
  reflexivity.
Qed.

Lemma snd_add_facet spoken since acc item :
  snd (Gathering.add_facet spoken since acc item) =
  snd acc
  ++ (if negb (Nat.eqb (List.length (fst item)) 0)
         && negb (String.eqb (snd item) "all")
      then [snd item] else []).
Proof.
  destruct acc as [output langs], item as [result language]. simpl.
  destruct (Nat.eqb (List.length result) 0); simpl.
  - now rewrite app_nil_r.
  - destruct (String.eqb language "all"); simpl;
      [now rewrite app_nil_r | reflexivity].
Qed.

(** The languages kept for the cached list: those paired with a result
    that is not empty, [all] excepted, in the order of the pairs. *)
Lemma langs_of_pairs spoken since pairs :
  snd (Gathering.aggregate_pairs spoken since pairs) =
  map snd
    (filter (fun item : list EntityRecord * string =>
               negb (Nat.eqb (List.length (fst item)) 0)
               && negb (String.eqb (snd item) "all"))
       pairs).
Proof.
  unfold Gathering.aggregate_pairs.
  change (map snd (filter _ pairs))
    with (snd (@nil (string * AggregatedEntity), @nil string)
          ++ map snd
               (filter (fun item : list EntityRecord * string =>
                          negb (Nat.eqb (List.length (fst item)) 0)
                          && negb (String.eqb (snd item) "all"))
                  pairs)).
  generalize (@nil (string * AggregatedEntity), @nil string) as acc.
  induction pairs as [|item rest IH]; intros acc; simpl.
  - now rewrite app_nil_r.
  - rewrite IH, snd_add_facet.
    destruct (negb (Nat.eqb (List.length (fst item)) 0)
              && negb (String.eqb (snd item) "all")); simpl.
    + rewrite <- app_assoc. reflexivity.
    + rewrite app_nil_r. reflexivity.
Qed.

(** [all] is never among the languages kept for the cached list. *)
Lemma langs_without_all spoken since pairs :
  ~ In "all" (snd (Gathering.aggregate_pairs spoken since pairs)).
Proof.
  rewrite langs_of_pairs, in_map_iff.
  intros ([result language] & Heq & Hin). simpl in Heq. subst language.
  apply filter_In in Hin. destruct Hin as [_ H]. simpl in H.
  rewrite andb_false_r in H. discriminate.
Qed.

End Alignment.

(** C10 fails on a run that loads its languages from the cached list,
    through the shift of the results against the languages. The request
    for python times out and the page of rust lists a repository, yet the
    run leaves ["python"] in the cached list: python is kept because the
    page of all languages, paired with it, is not empty, and rust is
    dropped because the empty result of python is paired with it. *)
Theorem cached_run_keeps_the_wrong_languages :
  forall J discovered,
    let run :=
      Gathering.main J Demo.line_pages Demo.weekly_net discovered
        "weekly" "all" Demo.cached_world in
    Fetch.gather Demo.line_pages Demo.weekly_net
      (Gathering.urls_of "all" "weekly" ["python"; "rust"]) =
      Some [[Demo.repo "octo/cat" 1]; []; [Demo.repo "ferris/crab" 1]]
    /\ fst run = Py.Return tt
    /\ Dict.get "temp/lang_list.txt" (FS.files (snd run)) =
         Some (Demo.lines ["python"]).
Proof.
  intros J discovered run. repeat split.
Qed.

(** ** Failures of the file system *)

Section Persistence.
Variable J : codec.

Lemma write_text_raises_OSError p text w :
  fst (FS.write_text p text w) = Py.Return tt
  \/ fst (FS.write_text p text w) = Py.Raise Py.OSError.
Proof.
  unfold FS.write_text.
  destruct (FS.is_in (Str.norm p) (FS.denied w)); [right; reflexivity|].
  destruct (negb (FS.is_dir w (Str.norm (Str.dirname p))));
    [right | left]; reflexivity.
Qed.

Lemma read_text_raises_OSError p w :
  (exists text, fst (FS.read_text p w) = Py.Return text)
  \/ fst (FS.read_text p w) = Py.Raise Py.OSError.
Proof.
  unfold FS.read_text.
  destruct (FS.is_in (Str.norm p) (FS.denied w)); [right; reflexivity|].
  destruct (Dict.get (Str.norm p) (FS.files w));
    [left; eexists; reflexivity | right; reflexivity].
Qed.

(** C9, as amended. The functions of the cached list turn a failure of
    the file system into a value. [save_list] never raises and returns
    [False] exactly when the file could not be written. [load_list] lets
    no [OSError] out: it returns [None] when the file is missing or
    cannot be opened, and the stripped lines of the file when its bytes
    decode. The functions of the JSON files ([save_dict] of both programs
    and [load_dict]) have no handler: a path that cannot be opened makes
    them raise [OSError], which reaches their caller. *)
Theorem list_files_return_sentinels_json_files_raise :
  forall filepath data path repos w,
    let text :=
      String.concat ""
        (map (fun item => String.append item Str.nl) data) in
    fst (Gathering.save_list filepath data w) =
      Py.Return (negb (Py.raises (fst (FS.write_text filepath text w))))
    /\ fst (Gathering.load_list filepath w) <> Py.Raise Py.OSError
    /\ (fst (FS.path_exists filepath w) = Py.Return false ->
        fst (Gathering.load_list filepath w) = Py.Return None)
    /\ (Py.raises (fst (FS.read_text filepath w)) = true ->
        fst (Gathering.load_list filepath w) = Py.Return None)
    /\ (forall content,
          fst (FS.read_text filepath w) = Py.Return content ->
          Str.utf8_valid content = true ->
          fst (Gathering.load_list filepath w) =
          Py.Return (Some (map Str.strip (Str.readlines content))))
    /\ (FS.is_in (Str.norm path) (FS.denied w) = true ->
        fst (Gathering.save_dict J path repos w) = Py.Raise Py.OSError
        /\ fst (Organize.save_dict J path repos w) = Py.Raise Py.OSError
        /\ fst (Organize.load_dict J path w) = Py.Raise Py.OSError).
Proof.
  intros filepath data path repos w text.
  split; [|split; [|split; [|split; [|split; [|intros H; split; [|split]]]]]].
  - unfold Gathering.save_list, FS.try_except_IOError, FS.bind. fold text.
    destruct (write_text_raises_OSError filepath text w) as [H|H];
      destruct (FS.write_text filepath text w) as [r w']; simpl in H;
      subst r; reflexivity.
  - unfold Gathering.load_list, FS.bind, FS.path_exists,
      FS.try_except_IOError, FS.read_text.
    destruct (negb _); [discriminate|].
    destruct (FS.is_in _ _); [discriminate|].
    destruct (Dict.get _ _) as [content|]; [|discriminate].
    destruct (Str.utf8_valid content); discriminate.
  - unfold Gathering.load_list, FS.bind, FS.path_exists. cbn [fst].
    intros Hfound. injection Hfound as ->. reflexivity.
  - intros Hraise.
    unfold Gathering.load_list, FS.bind, FS.path_exists,
      FS.try_except_IOError.
    destruct (negb _); [reflexivity|].
    destruct (read_text_raises_OSError filepath w) as [[t H]|H];
      destruct (FS.read_text filepath w) as [r w']; simpl in H, Hraise;
      subst r; [discriminate | reflexivity].
  - intros content Hread Hvalid. unfold FS.read_text in Hread.
    destruct (FS.is_in (Str.norm filepath) (FS.denied w)) eqn:Hden;
      [discriminate|].
    destruct (Dict.get (Str.norm filepath) (FS.files w)) as [c|] eqn:Hget;
      [|discriminate].
    cbn [fst] in Hread. injection Hread as ->.
    unfold Gathering.load_list, FS.bind, FS.path_exists,
      FS.try_except_IOError, FS.read_text, Dict.mem.
    rewrite Hget. cbn [orb negb]. rewrite Hden, Hget, Hvalid. reflexivity.
  - unfold Gathering.save_dict, FS.write_text. rewrite H. reflexivity.
  - unfold Organize.save_dict, FS.write_text. rewrite H. reflexivity.
  - unfold Organize.load_dict, FS.bind, FS.read_text. rewrite H.
    reflexivity.
Qed.

End Persistence.

(** C9, as stated, fails for the JSON files: with the cumulative file
    protected against opening, [save_dict] raises [OSError] instead of
    returning a value, and so does the whole merge pass. *)
Lemma save_dict_propagates_the_failure :
  fst (Organize.save_dict Demo.names_only Organize.latest_path []
         Demo.locked_world) = Py.Raise Py.OSError
  /\ fst (Organize.load_dict Demo.names_only "temp/weekly-all.json"
            Demo.unreadable_world) = Py.Raise Py.OSError
  /\ fst (Organize.main Demo.names_only Demo.a_clock_reading
            Demo.unreadable_world) = Py.Raise Py.OSError
  /\ fst (Organize.main Demo.names_only Demo.a_clock_reading
            Demo.locked_world) = Py.Raise Py.OSError
  /\ fst (Gathering.save_list "temp/lang_list.txt" ["python"]
            Demo.locked_world) = Py.Return false
  /\ ~ (forall path repos w,
          Py.raises (fst (Organize.save_dict Demo.names_only path repos w))
          = false).
Proof.
  repeat split.
  intros H. specialize (H Organize.latest_path [] Demo.locked_world).
  discriminate H.
Qed.

(** ** The merge pass and its two files *)

Section MergePass.
Variable J : codec.

Lemma has_slash_append a b :
  Str.has_slash (String.append a b) = Str.has_slash a || Str.has_slash b.
Proof.
  induction a as [|c a IH]; simpl; [reflexivity|].
  rewrite IH. apply orb_assoc.
Qed.

Lemma digit_no_slash n : Str.has_slash (Organize.digit n) = false.
Proof.
  unfold Organize.digit.
  assert (H : (0 <= n mod 10 < 10)%Z) by (apply Z.mod_pos_bound; lia).
  assert (Hk : Z.to_nat (n mod 10) < 10) by lia.
  generalize dependent (Z.to_nat (n mod 10)). intros k Hk.
  do 10 (destruct k as [|k]; [reflexivity|]). lia.
Qed.

Lemma pad2_no_slash n : Str.has_slash (Organize.pad2 n) = false.
Proof.
  unfold Organize.pad2. now rewrite has_slash_append, !digit_no_slash.
Qed.

Lemma jst_no_slash now :
  Str.has_slash (String.append (Organize.get_jst_time now) ".json") = false.
Proof.
  unfold Organize.get_jst_time, Organize.strftime_Y_m_d_H, Organize.pad4.
  cbn [String.concat].
  repeat (rewrite has_slash_append || rewrite pad2_no_slash).
  reflexivity.
Qed.

Lemma head_of_dir pre tail :
  Str.has_slash tail = false ->
  Str.head_of (String.append pre (String "/" tail)) = String.append pre "/".
Proof.
  intros Htail. induction pre as [|c pre IH]; simpl.
  - rewrite Htail. reflexivity.
  - rewrite has_slash_append. simpl. rewrite orb_true_r, IH. reflexivity.
Qed.

Lemma substring_all t : substring 0 (String.length t) t = t.
Proof. induction t as [|c t IH]; simpl; [reflexivity | now rewrite IH]. Qed.

Lemma norm_dot_slash t : Str.norm (String "." (String "/" t)) = t.
Proof.
  unfold Str.norm. simpl. rewrite Nat.sub_0_r.
  destruct t; [reflexivity|]. simpl. now rewrite substring_all.
Qed.

Lemma archive_path_shape now :
  Organize.archive_path now =
  String.append "./data"
    (String "/" (String.append (Organize.get_jst_time now) ".json")).
Proof. reflexivity. Qed.

Lemma dirname_archive now :
  Str.dirname (Organize.archive_path now) = "./data".
Proof.
  unfold Str.dirname. rewrite archive_path_shape, head_of_dir.
  - reflexivity.
  - apply jst_no_slash.
Qed.

(** The archival name changes with the hour only. *)
Lemma jst_time_by_hour now now' :
  ((now' + 32400) / 3600 = (now + 32400) / 3600)%Z ->
  Organize.get_jst_time now' = Organize.get_jst_time now.
Proof.
  intros Hhour. unfold Organize.get_jst_time, Organize.datetime_now.
  replace (now' + 9 * 3600)%Z with (now' + 32400)%Z by lia.
  replace (now + 9 * 3600)%Z with (now + 32400)%Z by lia.
  assert (Hd : forall a, (a / 86400 = a / 3600 / 24)%Z).
  { intros a. rewrite Z.div_div by lia. reflexivity. }
  assert (Hh : forall a, (a mod 86400 / 3600 = (a / 3600) mod 24)%Z).
  { intros a. change 86400%Z with (3600 * 24)%Z.
    rewrite Z.rem_mul_r by lia.
    rewrite Z.mul_comm, Z.div_add by lia.
    rewrite Z.div_small by (apply Z.mod_pos_bound; lia). reflexivity. }
  rewrite !Hd, Hhour.
  destruct (Organize.civil_from_days ((now + 32400) / 3600 / 24))
    as [[y m] d].
  unfold Organize.strftime_Y_m_d_H. cbn [Organize.year Organize.month
    Organize.day Organize.hour].
  rewrite !Hh, Hhour. reflexivity.
Qed.

Lemma load_dict_keeps_world path w :
  snd (Organize.load_dict J path w) = w.
Proof.
  unfold Organize.load_dict, FS.bind, FS.read_text.
  destruct (FS.is_in _ _); [reflexivity|].
  destruct (Dict.get _ _); [|reflexivity].
  destruct (loads J _); reflexivity.
Qed.

Lemma merge_paths_load_all w paths : forall output snapshots,
  Organize.load_all J w paths = Some snapshots ->
  Organize.merge_paths J paths output w =
  (Py.Return (fold_left Organize.merge_file snapshots output), w).
Proof.
  induction paths as [|file_path rest IH]; intros output snapshots Hall;
    simpl in Hall.
  - injection Hall as <-. reflexivity.
  - pose proof (load_dict_keeps_world file_path w) as Hw.
    simpl. unfold FS.bind.
    destruct (Organize.load_dict J file_path w) as [[snapshot|e] w'];
      simpl in Hall, Hw; [|discriminate]. subst w'.
    destruct (Organize.load_all J w rest) as [l|]; [|discriminate].
    injection Hall as <-. simpl. apply IH. reflexivity.
Qed.

Lemma dict_get_set_same (V : Type) k (v : V) d :
  Dict.get k (Dict.set k v d) = Some v.
Proof.
  unfold Dict.set. destruct (Dict.mem k d) eqn:Hmem.
  - rewrite dict_get_update, String.eqb_refl.
    apply dict_mem_get in Hmem. destruct Hmem as [v0 ->]. reflexivity.
  - rewrite dict_get_snoc, String.eqb_refl.
    apply dict_mem_false_get in Hmem. rewrite Hmem. reflexivity.
Qed.

Lemma dict_get_set_other (V : Type) k k' (v : V) d :
  k' <> k -> Dict.get k (Dict.set k' v d) = Dict.get k d.
Proof.
  intros Hne. unfold Dict.set. destruct (Dict.mem k' d).
  - rewrite dict_get_update.
    destruct (String.eqb_spec k' k); [contradiction | reflexivity].
  - rewrite dict_get_snoc.
    destruct (String.eqb_spec k' k); [contradiction|].
    destruct (Dict.get k d); reflexivity.
Qed.

Lemma is_in_snoc p l : FS.is_in p (l ++ [p]) = true.
Proof.
  unfold FS.is_in. rewrite existsb_app. simpl.
  rewrite String.eqb_refl. apply orb_true_iff. right. reflexivity.
Qed.

(** The entries selected by [get_json_files]. *)
Lemma get_json_files_spec w :
  exists paths,
    Organize.get_json_files w = (Py.Return paths, w)
    /\ forall q,
         In q paths <->
         (In q (Dict.keys (FS.files w) ++ FS.dirs w)
          /\ exists name,
               FS.entry_of "temp" q = Some name
               /\ Str.ends_with ".json" name = true
               /\ prefix "." name = false)
         /\ q <> "temp/data.json".
Proof.
  eexists. split; [reflexivity|].
  intros q. rewrite !filter_In. unfold FS.glob_match. split.
  - intros [[Hin Hglob] Hne]. split.
    + split; [exact Hin|].
      destruct (FS.entry_of "temp" q) as [name|]; [|discriminate].
      exists name. apply andb_true_iff in Hglob. destruct Hglob as [H1 H2].
      apply negb_true_iff in H2. auto.
    + apply negb_true_iff in Hne.
      destruct (String.eqb_spec q "temp/data.json");
        [discriminate | assumption].
  - intros [[Hin (name & Hentry & Hext & Hdot)] Hne]. split.
    + split; [exact Hin|]. rewrite Hentry, Hext, Hdot. reflexivity.
    + apply negb_true_iff.
      destruct (String.eqb_spec q "temp/data.json");
        [contradiction | reflexivity].
Qed.

(** *** The date and the hour in the archival name *)

Lemma all_from_spec n p : forall z0,
  Calendar.all_from n z0 p = true ->
  forall z, (z0 <= z < z0 + Z.of_nat n)%Z -> p z = true.
Proof.
  induction n as [|k IH]; intros z0 H z Hz; [lia|].
  simpl in H. apply andb_true_iff in H. destruct H as [Hk Hrest].
  destruct (Z.eq_dec z z0) as [->|Hne]; [exact Hk|].
  apply (IH (z0 + 1)%Z); [exact Hrest | lia].
Qed.

(** Every day of one cycle of 400 years, checked by computation. *)
Lemma civil_ok_cycle :
  Calendar.all_from (Z.to_nat 146097) 0 Calendar.civil_ok = true.
Proof. vm_compute. reflexivity. Qed.

Local Open Scope Z_scope.

Lemma is_leap_shift y e : Calendar.is_leap (y + 400 * e) = Calendar.is_leap y.
Proof.
  unfold Calendar.is_leap.
  replace (y + 400 * e) with (y + (100 * e) * 4) at 1 by lia.
  replace (y + 400 * e) with (y + (4 * e) * 100) at 1 by lia.
  replace (y + 400 * e) with (y + e * 400) by lia.
  rewrite !Z.mod_add by lia. reflexivity.
Qed.

Lemma toordinal_shift y m d e :
  Calendar.toordinal (y + 400 * e) m d = Calendar.toordinal y m d + 146097 * e.
Proof.
  unfold Calendar.toordinal, Calendar.days_before_month,
    Calendar.days_before_year.
  rewrite is_leap_shift. cbv zeta.
  replace ((y + 400 * e - 1) / 4) with ((y - 1) / 4 + 100 * e)
    by (replace (y + 400 * e - 1) with (y - 1 + (100 * e) * 4) by lia;
        rewrite Z.div_add by lia; reflexivity).
  replace ((y + 400 * e - 1) / 100) with ((y - 1) / 100 + 4 * e)
    by (replace (y + 400 * e - 1) with (y - 1 + (4 * e) * 100) by lia;
        rewrite Z.div_add by lia; reflexivity).
  replace ((y + 400 * e - 1) / 400) with ((y - 1) / 400 + e)
    by (replace (y + 400 * e - 1) with (y - 1 + e * 400) by lia;
        rewrite Z.div_add by lia; reflexivity).
  lia.
Qed.

Lemma days_in_month_shift y m e :
  Calendar.days_in_month (y + 400 * e) m = Calendar.days_in_month y m.
Proof. unfold Calendar.days_in_month. now rewrite is_leap_shift. Qed.

(** The date of a day is the date of its day in the cycle, moved by whole
    cycles. *)
Lemma civil_from_days_era z :
  Organize.civil_from_days z =
  let '(y0, m, d) :=
    Organize.civil_from_days ((z + 719468) mod 146097 - 719468) in
  (y0 + 400 * ((z + 719468) / 146097), m, d).
Proof.
  set (era := (z + 719468) / 146097). set (doe := (z + 719468) mod 146097).
  assert (Hdoe : 0 <= doe < 146097) by (apply Z.mod_pos_bound; lia).
  assert (Hz : z + 719468 - era * 146097 = doe).
  { unfold doe, era. rewrite Z.mod_eq by lia. lia. }
  unfold Organize.civil_from_days. cbv zeta. fold era.
  replace (doe - 719468 + 719468) with doe by lia.
  rewrite (Z.div_small doe 146097) by lia.
  replace (doe - 0 * 146097) with doe by lia. rewrite Hz.
  match goal with |- context [if ?c then _ else _] => destruct c end;
    f_equal; f_equal; lia.
Qed.

(** The date computed for a day is the date of the calendar that has that
    day number. *)
Lemma civil_from_days_spec z :
  let '(y, m, d) := Organize.civil_from_days z in
  1 <= m <= 12 /\ 1 <= d <= Calendar.days_in_month y m
  /\ Calendar.toordinal y m d - 719163 = z
  /\ 400 * ((z + 719468) / 146097) <= y <= 400 * ((z + 719468) / 146097) + 400
  /\ ((z + 719468) mod 146097 <= 146036 ->
      y <= 400 * ((z + 719468) / 146097) + 399).
Proof.
  rewrite civil_from_days_era.
  set (era := (z + 719468) / 146097). set (doe := (z + 719468) mod 146097).
  assert (Hdoe : 0 <= doe < 146097) by (apply Z.mod_pos_bound; lia).
  pose proof (@all_from_spec _ _ _ civil_ok_cycle doe) as Hok.
  rewrite Z2Nat.id in Hok by lia.
  assert (Hin : 0 <= doe < 0 + 146097) by lia. specialize (Hok Hin).
  unfold Calendar.civil_ok in Hok.
  destruct (Organize.civil_from_days (doe - 719468)) as [[y0 m] d].
  repeat (apply andb_true_iff in Hok; destruct Hok as [Hok ?]).
  rewrite days_in_month_shift, toordinal_shift.
  assert (Hera : z + 719468 = 146097 * era + doe).
  { unfold doe, era. apply Z.div_mod. lia. }
  repeat match goal with
         | H : (_ <=? _) = true |- _ => apply Z.leb_le in H
         | H : (_ =? _) = true |- _ => apply Z.eqb_eq in H
         end.
  match goal with
  | H : _ || _ = true |- _ => apply orb_true_iff in H; rename H into Hy
  end.
  destruct Hy as [Hy|Hy]; [apply Z.ltb_lt in Hy | apply Z.leb_le in Hy];
    repeat split; lia.
Qed.

Lemma digit_char_inj a b :
  ascii_of_nat (48 + Z.to_nat (a mod 10)) =
  ascii_of_nat (48 + Z.to_nat (b mod 10)) ->
  a mod 10 = b mod 10.
Proof.
  intros H. apply (f_equal nat_of_ascii) in H.
  assert (Ha : 0 <= a mod 10 < 10) by (apply Z.mod_pos_bound; lia).
  assert (Hb : 0 <= b mod 10 < 10) by (apply Z.mod_pos_bound; lia).
  rewrite !nat_ascii_embedding in H by lia. lia.
Qed.

Lemma days_in_month_le y m : Calendar.days_in_month y m <= 31.
Proof.
  unfold Calendar.days_in_month.
  destruct ((m =? 2) && Calendar.is_leap y); [lia|].
  generalize (Z.to_nat m). intros n.
  do 13 (destruct n as [|n]; [simpl; lia|]). simpl. destruct n; lia.
Qed.

(** The name spells its four fields: two names are equal only when their
    fields are. *)
Lemma name_inj y m d h y' m' d' h' :
  0 <= y < 10000 -> 0 <= y' < 10000 ->
  0 <= m < 100 -> 0 <= m' < 100 ->
  0 <= d < 100 -> 0 <= d' < 100 ->
  0 <= h < 100 -> 0 <= h' < 100 ->
  String.concat "_" [Organize.pad4 y; Organize.pad2 m; Organize.pad2 d;
                     Organize.pad2 h] =
  String.concat "_" [Organize.pad4 y'; Organize.pad2 m'; Organize.pad2 d';
                     Organize.pad2 h'] ->
  y = y' /\ m = m' /\ d = d' /\ h = h'.
Proof.
  intros Hy Hy' Hm Hm' Hd Hd' Hh Hh'.
  unfold Organize.pad4, Organize.pad2, Organize.digit.
  cbn [String.concat String.append]. intros H.
  injection H as H1 H2 H3 H4 H5 H6 H7 H8 H9 H10.
  apply digit_char_inj in H1, H2, H3, H4, H5, H6, H7, H8, H9, H10.
  repeat split; Z.to_euclidean_division_equations; lia.
Qed.

Lemma jst_time_fields now :
  Organize.get_jst_time now =
  let '(y, m, d) := Organize.civil_from_days ((now + 9 * 3600) / 86400) in
  String.concat "_"
    [Organize.pad4 y; Organize.pad2 m; Organize.pad2 d;
     Organize.pad2 ((now + 9 * 3600) mod 86400 / 3600)].
Proof.
  unfold Organize.get_jst_time, Organize.datetime_now.
  destruct (Organize.civil_from_days ((now + 9 * 3600) / 86400)) as [[y m] d].
  reflexivity.
Qed.

(** The name is the rendering of the date and the hour of the calendar in
    which the clock reading falls at UTC+9. *)
Lemma jst_time_decodes now :
  0 <= now < 253402268400 ->
  exists y m d h,
    Organize.get_jst_time now =
      String.concat "_"
        [Organize.pad4 y; Organize.pad2 m; Organize.pad2 d; Organize.pad2 h]
    /\ 1000 <= y <= 9999 /\ 1 <= m <= 12
    /\ 1 <= d <= Calendar.days_in_month y m /\ 0 <= h <= 23
    /\ Calendar.hours_since_epoch y m d h = (now + 32400) / 3600.
Proof.
  intros Hnow. replace (now + 32400) with (now + 9 * 3600) by lia.
  pose proof (civil_from_days_spec ((now + 9 * 3600) / 86400)) as Hspec.
  rewrite jst_time_fields.
  destruct (Organize.civil_from_days ((now + 9 * 3600) / 86400)) as [[y m] d].
  destruct Hspec as (Hm & Hd & Hord & Hera & Hlast).
  exists y, m, d, ((now + 9 * 3600) mod 86400 / 3600).
  split; [reflexivity|].
  split; [|split; [exact Hm|split; [exact Hd|split]]].
  - revert Hera Hlast. Z.to_euclidean_division_equations; lia.
  - Z.to_euclidean_division_equations; lia.
  - unfold Calendar.hours_since_epoch.
    change (Calendar.toordinal 1970 1 1) with 719163. rewrite Hord.
    Z.to_euclidean_division_equations; lia.
Qed.

(** Clock readings in different hours give different names. *)
Lemma jst_time_injective now now' :
  0 <= now < 253402268400 -> 0 <= now' < 253402268400 ->
  Organize.get_jst_time now' = Organize.get_jst_time now ->
  (now' + 32400) / 3600 = (now + 32400) / 3600.
Proof.
  intros Hnow Hnow' Heq.
  destruct (@jst_time_decodes now Hnow)
    as (y & m & d & h & Hn & Hy & Hm & Hd & Hh & Hc).
  destruct (@jst_time_decodes now' Hnow')
    as (y' & m' & d' & h' & Hn' & Hy' & Hm' & Hd' & Hh' & Hc').
  rewrite Hn, Hn' in Heq.
  pose proof (days_in_month_le y m). pose proof (days_in_month_le y' m').
  apply name_inj in Heq; try lia.
  destruct Heq as (-> & -> & -> & ->). congruence.
Qed.

Lemma append_inj_l a : forall b c,
  String.append a b = String.append a c -> b = c.
Proof.
  induction a as [|x a IH]; intros b c H; [exact H|].
  simpl in H. injection H as H. exact (IH _ _ H).
Qed.

Lemma append_inj_r b : forall a c,
  String.length a = String.length c ->
  String.append a b = String.append c b -> a = c.
Proof.
  induction a as [|x a IH]; intros [|y c] Hlen H; simpl in Hlen;
    try discriminate; [reflexivity|].
  simpl in H. injection H as -> H. f_equal. apply IH; [lia | exact H].
Qed.

Lemma jst_time_length now : String.length (Organize.get_jst_time now) = 13%nat.
Proof.
  rewrite jst_time_fields.
  destruct (Organize.civil_from_days ((now + 9 * 3600) / 86400)) as [[y m] d].
  reflexivity.
Qed.

Local Close Scope Z_scope.

(** C8. At a clock reading from 1970 to the end of the year 9999, when
    the selected entries can all be read, no plain file stands where the
    output directory goes and the two output paths can be opened, one
    merge pass reads the [*.json] entries of [temp] other than
    [temp/data.json], returns normally and leaves every file as it was
    except two, each holding the merge of what it read: the rolling file
    [data/latest.json] and the archival file. The name of the archival
    file spells the year, the month, the day and the hour of the calendar
    in which the clock reading falls at UTC+9 (32400 seconds ahead of
    UTC), and nothing finer. So a later pass writes to the same archival
    path when it runs in the same hour, and only then. *)
Theorem merge_pass_writes_latest_and_hourly :
  forall now w paths snapshots,
    (0 <= now < 253402268400)%Z ->
    fst (Organize.get_json_files w) = Py.Return paths ->
    Organize.load_all J w paths = Some snapshots ->
    Dict.mem "data" (FS.files w) = false ->
    FS.is_in "data/latest.json" (FS.denied w) = false ->
    FS.is_in (Str.norm (Organize.archive_path now)) (FS.denied w) = false ->
    let text := dumps J (Dict.values (Organize.merge snapshots)) in
    let w' := snd (Organize.main J now w) in
    let archive := Str.norm (Organize.archive_path now) in
    (forall q,
       In q paths <->
       (In q (Dict.keys (FS.files w) ++ FS.dirs w)
        /\ exists name,
             FS.entry_of "temp" q = Some name
             /\ Str.ends_with ".json" name = true
             /\ prefix "." name = false)
       /\ q <> "temp/data.json")
    /\ fst (Organize.main J now w) = Py.Return tt
    /\ FS.files w' =
         Dict.set archive text (Dict.set "data/latest.json" text (FS.files w))
    /\ Dict.get "data/latest.json" (FS.files w') = Some text
    /\ Dict.get archive (FS.files w') = Some text
    /\ (forall q,
          q <> "data/latest.json" -> q <> archive ->
          Dict.get q (FS.files w') = Dict.get q (FS.files w))
    /\ archive =
         String.append "data/"
           (String.append (Organize.get_jst_time now) ".json")
    /\ (exists y m d h,
          Organize.get_jst_time now =
            String.concat "_"
              [Organize.pad4 y; Organize.pad2 m; Organize.pad2 d;
               Organize.pad2 h]
          /\ (1000 <= y <= 9999)%Z /\ (1 <= m <= 12)%Z
          /\ (1 <= d <= Calendar.days_in_month y m)%Z /\ (0 <= h <= 23)%Z
          /\ Calendar.hours_since_epoch y m d h = ((now + 32400) / 3600)%Z)
    /\ (forall now',
          ((now' + 32400) / 3600 = (now + 32400) / 3600)%Z ->
          Organize.archive_path now' = Organize.archive_path now)
    /\ (forall now',
          (0 <= now' < 253402268400)%Z ->
          Organize.archive_path now' = Organize.archive_path now ->
          ((now' + 32400) / 3600 = (now + 32400) / 3600)%Z).
Proof.
  intros now w paths snapshots Hnow Hpaths Hload Hfile Hlatest Harchive
    text w' archive.
  destruct (get_json_files_spec w) as (paths0 & Hsel & Hspec).
  rewrite Hsel in Hpaths. simpl in Hpaths. injection Hpaths as ->.
  assert (Hshape : archive =
            String.append "data/"
              (String.append (Organize.get_jst_time now) ".json")).
  { unfold archive. rewrite archive_path_shape.
    change (String.append "./data" (String "/" ?t))
      with (String "." (String "/" (String.append "data/" t))).
    apply norm_dot_slash. }
  (* the world after the directory step *)
  set (w1 := if negb (FS.is_dir w "data")
             then {| FS.files := FS.files w;
                     FS.dirs := FS.dirs w ++ ["data"];
                     FS.denied := FS.denied w |}
             else w).
  assert (Hw1 : FS.files w1 = FS.files w /\ FS.denied w1 = FS.denied w
                /\ FS.is_dir w1 "data" = true).
  { unfold w1. destruct (FS.is_dir w "data") eqn:Hd; simpl; auto.
    repeat split. unfold FS.is_dir. simpl. apply is_in_snoc. }
  destruct Hw1 as (Hf1 & Hd1 & Hdir1).
  assert (Hrun : Organize.main J now w =
            (Py.Return tt,
             {| FS.files :=
                  Dict.set archive text
                    (Dict.set "data/latest.json" text (FS.files w));
                FS.dirs := FS.dirs w1;
                FS.denied := FS.denied w |})).
  { unfold Organize.main, FS.bind. rewrite Hsel.
    rewrite (merge_paths_load_all w paths [] Hload).
    unfold FS.path_exists.
    change (Str.norm Organize.output_dir) with "data".
    rewrite Hfile, orb_false_l.
    assert (Hstep :
      (if negb (FS.is_dir w "data") then FS.mkdir Organize.output_dir
       else FS.ret tt) w = (Py.Return tt, w1)).
    { unfold w1. destruct (FS.is_dir w "data"); reflexivity. }
    rewrite Hstep.
    unfold Organize.save_dict, FS.write_text.
    change (Str.norm Organize.latest_path) with "data/latest.json".
    change (Str.norm (Str.dirname Organize.latest_path)) with "data".
    rewrite Hd1, Hlatest, Hdir1. simpl negb. cbv iota.
    rewrite dirname_archive. change (Str.norm "./data") with "data".
    cbn [FS.denied FS.files FS.dirs]. rewrite Harchive.
    change (FS.is_dir _ "data") with (FS.is_dir w1 "data").
    rewrite Hdir1. simpl negb. cbv iota. rewrite Hf1. reflexivity. }
  unfold w'. rewrite Hrun. cbn [fst snd FS.files].
  split; [exact Hspec|]. split; [reflexivity|]. split; [reflexivity|].
  split; [|split; [|split; [|split; [|split; [|split]]]]].
  - destruct (String.eqb_spec archive "data/latest.json") as [->|Hne].
    + apply dict_get_set_same.
    + rewrite dict_get_set_other by exact Hne. apply dict_get_set_same.
  - apply dict_get_set_same.
  - intros q H1 H2. rewrite !dict_get_set_other by congruence. reflexivity.
  - exact Hshape.
  - apply jst_time_decodes. exact Hnow.
  - intros now' Hhour. unfold Organize.archive_path.
    rewrite (jst_time_by_hour now now' Hhour). reflexivity.
  - intros now' Hnow' Hsame. apply jst_time_injective; try assumption.
    unfold Organize.archive_path in Hsame.
    apply append_inj_l in Hsame. apply append_inj_l in Hsame.
    apply append_inj_r in Hsame; [exact Hsame|].
    rewrite !jst_time_length. reflexivity.
Qed.

End MergePass.

(** ** Worked examples *)

Lemma gather_raises_when_an_extraction_does_witness :
  Extract.get_records Samples.int_of [Samples.crab; Samples.unlinked]
  = Extract.Failed Extract.KeyError
  /\ snd (Fetch.get_github_trending_repositories_async Samples.extract_page
            Samples.spoiled_net
            (Gathering.language_url "all" "weekly" "rust"))
     = None
  /\ Fetch.gather Samples.extract_page Samples.spoiled_net Demo.weekly_urls
     = None
  /\ Gathering.main Demo.names_only Samples.extract_page Samples.spoiled_net
       [] "weekly" "all" Demo.cached_world
     = (Py.Raise Py.ExtractionError, Demo.cached_world).
Proof.
  assert (Hin : In (Gathering.language_url "all" "weekly" "rust")
                  Demo.weekly_urls)
    by (right; right; left; reflexivity).
  destruct (@gather_raises_when_an_extraction_does Samples.extract_page
              Samples.spoiled_net Demo.weekly_urls
              (Gathering.language_url "all" "weekly" "rust")
              "crab, and a link without href" Hin eq_refl eq_refl)
    as (Htask & Hgather & Hmain).
  split; [reflexivity|]. split; [exact Htask|]. split; [exact Hgather|].
  exact (Hmain Demo.names_only [] "weekly" "all" Demo.cached_world
           ["python"; "rust"] eq_refl eq_refl).
Defined.

(** With the same responses and a page of rust that parses, the batch
    returns: the timeout of python is the empty list at its position and
    the other results are what their pages hold. *)
Lemma gather_isolates_failed_retrievals_witness :
  Fetch.gather Samples.extract_page Samples.mended_net Demo.weekly_urls
  = Some [[Samples.cat_record]; []; [Samples.crab_record]]
  /\ List.length [[Samples.cat_record]; []; [Samples.crab_record]]
     = List.length Demo.weekly_urls
  /\ nth_error [[Samples.cat_record]; []; [Samples.crab_record]] 1 = Some [].
Proof.
  assert (Hgather :
    Fetch.gather Samples.extract_page Samples.mended_net Demo.weekly_urls
    = Some [[Samples.cat_record]; []; [Samples.crab_record]])
    by reflexivity.
  destruct (@gather_isolates_failed_retrievals Samples.extract_page
              Samples.mended_net Demo.weekly_urls _ Hgather)
    as (Hlen & _ & Hfail).
  split; [exact Hgather|]. split; [exact Hlen|].
  exact (Hfail 1 (Gathering.language_url "all" "weekly" "python")
           eq_refl eq_refl).
Defined.

(** When every request times out, the batch returns the list of empty
    results. *)
Example every_retrieval_fails :
  Fetch.gather Samples.extract_page (fun _ => Fetch.Timeout)
    Demo.weekly_urls
  = Some [[]; []; []].
Proof. reflexivity. Qed.

Lemma cooldown_only_after_success_witness :
  Fetch.succeeded (Demo.weekly_net (Gathering.base_url "weekly")) = true
  /\ Fetch.before Fetch.is_release
       (fst (Fetch.get_github_trending_repositories_async
               Demo.line_pages Demo.weekly_net
               (Gathering.base_url "weekly")))
     = [Fetch.Acquire;
        Fetch.LogFetching (Gathering.base_url "weekly");
        Fetch.Send (Gathering.base_url "weekly");
        Fetch.Receive (Gathering.base_url "weekly");
        Fetch.Sleep 1].
Proof.
  destruct (@cooldown_only_after_success Demo.line_pages
              Demo.weekly_net (Gathering.base_url "weekly"))
    as (_ & _ & _ & _ & _ & _ & Hok).
  split; [reflexivity|]. exact (Hok eq_refl).
Defined.

Lemma at_most_five_in_flight_witness :
  5 < List.length Demo.six_urls
  /\ Fetch.count Fetch.in_flight
       (Fetch.run Demo.five_sent
          (Fetch.batch Demo.line_pages Demo.weekly_net Demo.six_urls))
     <= 5.
Proof.
  assert (H : 5 < List.length Demo.six_urls) by (simpl; lia).
  split; [exact H|].
  exact (@at_most_five_in_flight Demo.line_pages Demo.weekly_net
           Demo.six_urls Demo.five_sent H).
Defined.

(** The bound is reached: five retrievals are in flight and the sixth task
    still waits for a slot, the semaphore being at zero. *)
Example five_in_flight_sixth_waits :
  let s :=
    Fetch.run Demo.five_sent
      (Fetch.batch Demo.line_pages Demo.weekly_net Demo.six_urls) in
  Fetch.count Fetch.in_flight s = 5
  /\ Fetch.permits s = 0
  /\ option_map (@hd_error Fetch.action) (nth_error (Fetch.tasks s) 5)
     = Some (Some Fetch.Acquire).
Proof. repeat split. Qed.

Lemma merge_twice_doubles_memberships_witness :
  Dict.keys (Organize.merge [[Demo.twice_seen]]) = ["octo/cat"]
  /\ memberships (Organize.merge [[Demo.twice_seen]]) "octo/cat"
     = [Demo.seen "all"; Demo.seen "python"]
  /\ memberships (Organize.merge [[Demo.twice_seen]; [Demo.twice_seen]])
       "octo/cat"
     = [Demo.seen "all"; Demo.seen "python";
        Demo.seen "all"; Demo.seen "python"]
  /\ Organize.merge [[Demo.twice_seen]; [Demo.twice_seen]]
     <> Organize.merge [[Demo.twice_seen]].
Proof.
  destruct (@merge_twice_doubles_memberships [Demo.twice_seen] "octo/cat")
    as (_ & _ & Hone & _ & _ & Htwice & _ & Hdiffer).
  split; [reflexivity|]. split; [exact Hone|].
  split; [rewrite Htwice, Hone; reflexivity|].
  apply Hdiffer. rewrite Hone. discriminate.
Defined.

Lemma aggregate_permutation_witness :
  Permutation Demo.stable_python_first Demo.stable_rust_first
  /\ agree_on "octo/cat" Demo.stable_python_first
  /\ scalars
       (fst (Gathering.aggregate_pairs "all" "daily" Demo.stable_python_first))
       "octo/cat"
     = scalars
         (fst (Gathering.aggregate_pairs "all" "daily" Demo.stable_rust_first))
         "octo/cat"
  /\ Permutation
       (memberships
          (fst (Gathering.aggregate_pairs "all" "daily"
                  Demo.stable_python_first)) "octo/cat")
       (memberships
          (fst (Gathering.aggregate_pairs "all" "daily"
                  Demo.stable_rust_first)) "octo/cat").
Proof.
  assert (Hperm : Permutation Demo.stable_python_first Demo.stable_rust_first)
    by apply perm_swap.
  assert (Hagree : agree_on "octo/cat" Demo.stable_python_first).
  { intros r1 r2 H1 H2 _ _. simpl in H1, H2.
    destruct H1 as [<-|[<-|[]]], H2 as [<-|[<-|[]]]; reflexivity. }
  destruct (@aggregate_permutation "all" "daily" Demo.stable_python_first
              Demo.stable_rust_first "octo/cat" Hperm)
    as (_ & Hmem & Hscal & _).
  split; [exact Hperm|]. split; [exact Hagree|].
  split; [exact (Hscal Hagree) | exact Hmem].
Defined.

Lemma merge_pass_writes_latest_and_hourly_witness :
  fst (Organize.main Demo.names_only Demo.a_clock_reading Demo.merge_world)
  = Py.Return tt
  /\ Dict.get "data/latest.json"
       (FS.files
          (snd (Organize.main Demo.names_only Demo.a_clock_reading
                  Demo.merge_world)))
     = Some (Demo.lines ["octo/cat"; "ferris/crab"])
  /\ Dict.get "data/2025_11_03_22.json"
       (FS.files
          (snd (Organize.main Demo.names_only Demo.a_clock_reading
                  Demo.merge_world)))
     = Some (Demo.lines ["octo/cat"; "ferris/crab"])
  /\ Organize.archive_path (Demo.a_clock_reading + 899)
     = Organize.archive_path Demo.a_clock_reading
  /\ Organize.archive_path (Demo.a_clock_reading + 900)
     <> Organize.archive_path Demo.a_clock_reading
  /\ exists y m d h,
       Organize.get_jst_time Demo.a_clock_reading =
         String.concat "_"
           [Organize.pad4 y; Organize.pad2 m; Organize.pad2 d;
            Organize.pad2 h]
       /\ Calendar.hours_since_epoch y m d h = 489502%Z.
Proof.
  assert (Hrange : (0 <= Demo.a_clock_reading < 253402268400)%Z)
    by (unfold Demo.a_clock_reading; lia).
  destruct (@merge_pass_writes_latest_and_hourly Demo.names_only
              Demo.a_clock_reading Demo.merge_world
              ["temp/daily-all.json"; "temp/weekly-all.json"]
              [[ {| record := Demo.repo "octo/cat" 0; published := [] |};
                 {| record := Demo.repo "ferris/crab" 0; published := [] |} ];
               [ {| record := Demo.repo "octo/cat" 0; published := [] |} ]]
              Hrange eq_refl eq_refl eq_refl eq_refl eq_refl)
    as (_ & Hret & _ & Hlatest & Harchive & _ & _ & Hname & Hhour & Hother).
  split; [exact Hret|]. split; [exact Hlatest|]. split; [exact Harchive|].
  split; [apply Hhour; reflexivity|]. split.
  - intros Hsame. apply Hother in Hsame.
    + vm_compute in Hsame. discriminate Hsame.
    + unfold Demo.a_clock_reading. lia.
  - destruct Hname as (y & m & d & h & Hn & _ & _ & _ & _ & Hc).
    exists y, m, d, h. split; [exact Hn | exact Hc].
Defined.

Lemma list_files_return_sentinels_json_files_raise_witness :
  fst (Gathering.save_list "./temp/lang_list.txt" ["python"] Demo.locked_world)
  = Py.Return false
  /\ fst (Gathering.load_list "./temp/lang_list.txt" Demo.locked_world)
     = Py.Return None
  /\ fst (Gathering.load_list "./temp/missing.txt" Demo.cached_world)
     = Py.Return None
  /\ fst (Gathering.load_list "./temp/lang_list.txt" Demo.cached_world)
     = Py.Return (Some ["python"; "rust"])
  /\ fst (Gathering.save_dict Demo.names_only "./data/latest.json" []
            Demo.locked_world)
     = Py.Raise Py.OSError.
Proof.
  destruct (@list_files_return_sentinels_json_files_raise Demo.names_only
              "./temp/lang_list.txt" ["python"] "./data/latest.json" []
              Demo.locked_world)
    as (Hsave & _ & _ & Hload & _ & Hjson).
  destruct (@list_files_return_sentinels_json_files_raise Demo.names_only
              "./temp/missing.txt" [] "" [] Demo.cached_world)
    as (_ & _ & Hmissing & _).
  destruct (@list_files_return_sentinels_json_files_raise Demo.names_only
              "./temp/lang_list.txt" [] "" [] Demo.cached_world)
    as (_ & _ & _ & _ & Hlist & _).
  split; [exact Hsave|]. split; [exact (Hload eq_refl)|].
  split; [exact (Hmissing eq_refl)|].
  split; [exact (Hlist _ eq_refl eq_refl)|].
  exact (proj1 (Hjson eq_refl)).
Defined.

(** A cached list that is no UTF-8 makes [load_list] raise
    [UnicodeDecodeError], a [ValueError] that its handler lets through,
    and the run with it. *)
Example load_list_raises_on_undecodable_file :
  fst (Gathering.load_list "./temp/lang_list.txt" Samples.undecodable_world)
  = Py.Raise Py.ValueError
  /\ Gathering.main Demo.names_only Demo.line_pages Demo.weekly_net []
       "weekly" "all" Samples.undecodable_world
     = (Py.Raise Py.ValueError, Samples.undecodable_world).
Proof. split; reflexivity. Qed.

(** Lines end at a newline, at a carriage return and at both together,
    and [strip] removes the white space that is not ASCII too. *)
Example load_list_reads_foreign_line_endings :
  fst (Gathering.load_list "./temp/lang_list.txt" Samples.foreign_world)
  = Py.Return (Some ["go"; "c"; "rust"]).
Proof. reflexivity. Qed.

(** The scenario of the specification: two entries, the repository met
    under python and rust with two memberships, the other with one; python
    and rust go to the cached list. *)
Example aggregate_scenario :
  let run :=
    Gathering.aggregate "all" "daily" Demo.scenario_results
      Demo.scenario_languages in
  Dict.keys (fst run) = ["octo/cat"; "guido/snake"]
  /\ memberships (fst run) "octo/cat" = [Demo.seen "python"; Demo.seen "rust"]
  /\ memberships (fst run) "guido/snake" = [Demo.seen "python"]
  /\ snd run = ["python"; "rust"].
Proof. repeat split. Qed.

(* ================================================================== *)
(** * Part III: further properties of the programs *)
(* ================================================================== *)

Unset Implicit Arguments.

(** ** What the two loops keep *)

Section Conservation.
Implicit Types (output : Dict.t AggregatedEntity) (k : string).

Lemma total_update_extend k ms output :
  total_memberships
    (Dict.update k (Organize.extend_published ms) output) =
  total_memberships output
  + (if Dict.mem k output then List.length ms else 0).
Proof.
  unfold total_memberships, Dict.values, Dict.mem.
  induction output as [|[k0 e] rest IH]; simpl; [reflexivity|].
  destruct (String.eqb k0 k); simpl.
  - rewrite length_app. lia.
  - rewrite IH. destruct (Dict.get k rest); lia.
Qed.

Lemma total_merge_repo output repo :
  total_memberships (Organize.merge_repo output repo) =
  total_memberships output + List.length (published repo).
Proof.
  unfold Organize.merge_repo.
  destruct (Dict.mem (name_of repo) output) eqn:Hmem.
  - rewrite total_update_extend, Hmem. reflexivity.
  - unfold Dict.set. rewrite Hmem.
    unfold total_memberships, Dict.values.
    rewrite !map_app, list_sum_app. simpl. lia.
Qed.

Lemma total_fold_merge repos : forall output,
  total_memberships (fold_left Organize.merge_repo repos output) =
  total_memberships output
  + list_sum (map (fun e => List.length (published e)) repos).
Proof.
  induction repos as [|r rest IH]; intros output; simpl; [lia|].
  rewrite IH, total_merge_repo. lia.
Qed.

Lemma length_tagged spoken since pairs :
  list_sum (map (fun e => List.length (published e))
              (tagged spoken since pairs)) =
  List.length (flat_map fst pairs).
Proof.
  unfold tagged. induction pairs as [|[result language] rest IH]; simpl.
  - reflexivity.
  - rewrite map_app, list_sum_app, length_app, IH. f_equal.
    induction result as [|r result IHr]; simpl; [reflexivity | now rewrite IHr].
Qed.

(** X1. A run records one membership for every repository occurrence it
    processes: the membership lists of the dictionary hold, together, as
    many elements as the per-language results hold repositories. *)
Theorem aggregate_counts_every_occurrence :
  forall spoken since (pairs : list (list EntityRecord * string)),
    total_memberships (fst (Gathering.aggregate_pairs spoken since pairs)) =
    List.length (flat_map fst pairs).
Proof.
  intros spoken since pairs.
  rewrite fst_aggregate_pairs, total_fold_merge, length_tagged. reflexivity.
Qed.

(** X2. The merge neither drops nor deduplicates a membership: the
    membership lists of the merged dictionary hold, together, as many
    elements as those of all the repositories of all the files. *)
Theorem merge_keeps_every_membership :
  forall snapshots : list (list AggregatedEntity),
    total_memberships (Organize.merge snapshots) =
    list_sum (map (fun e => List.length (published e))
                (List.concat snapshots)).
Proof.
  intros snapshots. rewrite merge_flat, total_fold_merge. reflexivity.
Qed.

(** X3. Every membership a run stores under a name carries the [since]
    and the spoken language code of the run, and the language of a pair
    whose result lists a repository of that name. *)
Theorem run_memberships_come_from_the_run :
  forall spoken since pairs k m,
    In m (memberships (fst (Gathering.aggregate_pairs spoken since pairs)) k)
    ->
    pub_since m = since
    /\ pub_spoken_language_code m = spoken
    /\ exists result r,
         In (result, pub_language m) pairs
         /\ In r result
         /\ repository_name r = k.
Proof.
  intros spoken since pairs k m Hin.
  rewrite memberships_fold_tagged in Hin.
  apply in_flat_map in Hin. destruct Hin as (e & He & Hm).
  unfold occurrences in He. apply filter_In in He. destruct He as [He Hk].
  apply String.eqb_eq in Hk.
  unfold tagged in He. apply in_flat_map in He.
  destruct He as ([result language] & Hitem & He).
  apply in_map_iff in He. destruct He as (r & <- & Hr).
  simpl in Hm, Hk, Hr. destruct Hm as [<-|[]]. simpl.
  split; [reflexivity|]. split; [reflexivity|].
  exists result, r. auto.
Qed.

Lemma keyed_merge_repo output repo :
  keyed_by_name output -> keyed_by_name (Organize.merge_repo output repo).
Proof.
  unfold keyed_by_name, Organize.merge_repo, Dict.set.
  intros Hkeyed. destruct (Dict.mem (name_of repo) output).
  - induction Hkeyed as [|[k0 e] rest He Hrest IH]; simpl; [constructor|].
    destruct (String.eqb k0 (name_of repo)); constructor;
      solve [exact He | exact Hrest | exact IH].
  - apply Forall_app. split; [exact Hkeyed|]. repeat constructor.
Qed.

Lemma keyed_fold_merge repos : forall output,
  keyed_by_name output ->
  keyed_by_name (fold_left Organize.merge_repo repos output).
Proof.
  induction repos as [|r rest IH]; intros output Hkeyed; simpl;
    [exact Hkeyed | apply IH, keyed_merge_repo, Hkeyed].
Qed.

Lemma keyed_names output :
  keyed_by_name output -> map name_of (Dict.values output) = Dict.keys output.
Proof.
  unfold keyed_by_name, Dict.values, Dict.keys.
  induction 1 as [|[k0 e] rest He _ IH]; simpl; [reflexivity|].
  simpl in He. now rewrite He, IH.
Qed.

(** Repositories with fresh, pairwise distinct names are appended as they
    are. *)
Lemma fold_merge_fresh repos : forall output,
  NoDup (map name_of repos) ->
  (forall e, In e repos -> ~ In (name_of e) (Dict.keys output)) ->
  fold_left Organize.merge_repo repos output = output ++ entries_of repos.
Proof.
  induction repos as [|r rest IH]; intros output Hnd Hfresh; simpl.
  - now rewrite app_nil_r.
  - inversion Hnd as [|x l Hnotin Hnd']; subst.
    assert (Hmem : Dict.mem (name_of r) output = false).
    { apply dict_mem_false_get.
      destruct (Dict.get (name_of r) output) eqn:Hget; [|reflexivity].
      exfalso. apply (Hfresh r (or_introl eq_refl)).
      apply dict_get_in_keys. congruence. }
    assert (Hstep : Organize.merge_repo output r = output ++ [(name_of r, r)]).
    { unfold Organize.merge_repo, Dict.set. now rewrite Hmem. }
    rewrite Hstep, IH.
    + rewrite <- app_assoc. reflexivity.
    + exact Hnd'.
    + intros e He Hin. unfold Dict.keys in Hin.
      rewrite map_app, in_app_iff in Hin. destruct Hin as [Hin|Hin].
      * exact (Hfresh e (or_intror He) Hin).
      * simpl in Hin. destruct Hin as [Heq|[]].
        apply Hnotin. rewrite Heq. apply in_map. exact He.
Qed.

Lemma values_entries_of repos : Dict.values (entries_of repos) = repos.
Proof.
  unfold Dict.values, entries_of. rewrite map_map. simpl. apply map_id.
Qed.

(** X4. A file in which no name occurs twice goes through the merge
    unchanged: the merge of that file alone lists its repositories as they
    are and in their order. *)
Theorem merge_of_one_clean_file :
  forall A : list AggregatedEntity,
    NoDup (map name_of A) ->
    Dict.values (Organize.merge [A]) = A
    /\ Dict.keys (Organize.merge [A]) = map name_of A.
Proof.
  intros A Hnd.
  assert (H : Organize.merge [A] = entries_of A).
  { rewrite merge_flat. simpl. rewrite app_nil_r.
    apply (@fold_merge_fresh A [] Hnd). intros e _ []. }
  rewrite H. split; [apply values_entries_of|].
  unfold Dict.keys, entries_of. rewrite map_map. reflexivity.
Qed.

(** X5. What a run writes to its per-run file names no repository twice,
    and the merge of that file alone gives back its content. *)
Theorem run_output_survives_the_merge :
  forall spoken since results languages,
    let file :=
      Dict.values (fst (Gathering.aggregate spoken since results languages)) in
    NoDup (map name_of file)
    /\ Dict.values (Organize.merge [file]) = file.
Proof.
  intros spoken since results languages file.
  assert (Hnd : NoDup (map name_of file)).
  { unfold file, Gathering.aggregate. rewrite fst_aggregate_pairs.
    rewrite keyed_names by (apply keyed_fold_merge; constructor).
    apply nodup_keys_fold_merge. constructor. }
  split; [exact Hnd|].
  rewrite merge_flat. simpl. rewrite app_nil_r.
  rewrite (@fold_merge_fresh file [] Hnd) by (intros e _ []).
  apply values_entries_of.
Qed.

Lemma perm_concat (A : Type) (l l' : list (list A)) :
  Permutation l l' -> Permutation (List.concat l) (List.concat l').
Proof.
  induction 1 as [|x l l' _ IH|x y l|l l' l'' _ IH1 _ IH2]; simpl.
  - constructor.
  - apply Permutation_app_head. exact IH.
  - rewrite !app_assoc. apply Permutation_app_tail, Permutation_app_comm.
  - eapply Permutation_trans; eassumption.
Qed.

End Conservation.

(** ** The cached list on disk *)

Section CachedList.

Lemma concat_nosep_cons x l :
  String.concat "" (x :: l) = String.append x (String.concat "" l).
Proof.
  destruct l as [|y l]; simpl; [|reflexivity].
  induction x as [|c x IH]; simpl; [reflexivity | now rewrite <- IH].
Qed.

Lemma append_append a b c :
  String.append (String.append a b) c = String.append a (String.append b c).
Proof.
  induction a as [|x a IH]; simpl; [reflexivity | now rewrite IH].
Qed.

Lemma line_char_spec c :
  line_char c = true ->
  Ascii.eqb c "010"%char = false /\ Ascii.eqb c "013"%char = false.
Proof.
  unfold line_char. intros H. apply andb_true_iff in H.
  destruct H as [H1 H2]. apply negb_true_iff in H1, H2. auto.
Qed.

Lemma readlines_line x rest :
  no_newline x = true ->
  Str.readlines (String.append x (String.append Str.nl rest)) =
  x :: Str.readlines rest.
Proof.
  induction x as [|c x IH]; intros Hx; simpl in *.
  - reflexivity.
  - apply andb_true_iff in Hx. destruct Hx as [Hc Hx].
    destruct (line_char_spec c Hc) as [Hn Hr].
    rewrite Hn, Hr, (IH Hx). reflexivity.
Qed.

Lemma readlines_list_text data :
  forallb no_newline data = true ->
  Str.readlines (list_text data) = data.
Proof.
  unfold list_text. induction data as [|x data IH]; intros Hdata.
  - reflexivity.
  - simpl in Hdata. apply andb_true_iff in Hdata. destruct Hdata as [Hx Hd].
    cbn [map]. rewrite concat_nosep_cons, append_append.
    rewrite readlines_line by exact Hx. rewrite IH by exact Hd.
    reflexivity.
Qed.

(** *** Decoding *)

Lemma utf8_run_append a b : forall st,
  Str.utf8_run st (String.append a b) =
  match Str.utf8_run st a with
  | Some st' => Str.utf8_run st' b
  | None => None
  end.
Proof.
  induction a as [|c a IH]; intros st; simpl; [reflexivity|].
  destruct (Str.utf8_step st c); [apply IH | reflexivity].
Qed.

Lemma utf8_valid_append a b :
  Str.utf8_valid a = true -> Str.utf8_valid b = true ->
  Str.utf8_valid (String.append a b) = true.
Proof.
  unfold Str.utf8_valid. rewrite utf8_run_append.
  destruct (Str.utf8_run Str.Complete a) as [[]|]; try discriminate.
  intros _ Hb. exact Hb.
Qed.

Lemma utf8_valid_list_text data :
  forallb Str.utf8_valid data = true ->
  Str.utf8_valid (list_text data) = true.
Proof.
  unfold list_text. induction data as [|x data IH]; intros Hdata.
  - reflexivity.
  - simpl in Hdata. apply andb_true_iff in Hdata. destruct Hdata as [Hx Hd].
    cbn [map]. rewrite concat_nosep_cons.
    apply utf8_valid_append; [|exact (IH Hd)].
    apply utf8_valid_append; [exact Hx | reflexivity].
Qed.

(** *** Stripping *)

Lemma drop_prefix_some e : forall s r,
  Str.drop_prefix e s = Some r -> s = e ++ r.
Proof.
  induction e as [|a e IH]; intros s r; simpl.
  - intros H. injection H as ->. reflexivity.
  - destruct s as [|b s]; [discriminate|].
    destruct (Ascii.eqb_spec a b) as [->|_]; [|discriminate].
    intros H. rewrite (IH _ _ H). reflexivity.
Qed.

Lemma drop_prefix_app e : forall s r w,
  Str.drop_prefix e s = Some r ->
  Str.drop_prefix e (s ++ w) = Some (r ++ w).
Proof.
  induction e as [|a e IH]; intros s r w; simpl.
  - intros H. injection H as ->. reflexivity.
  - destruct s as [|b s]; [discriminate|]. simpl.
    destruct (Ascii.eqb a b); [apply IH | discriminate].
Qed.

Lemma drop_one_some chars : forall s r,
  Str.drop_one chars s = Some r -> exists e, In e chars /\ s = e ++ r.
Proof.
  induction chars as [|e rest IH]; intros s r; simpl; [discriminate|].
  destruct (Str.drop_prefix e s) as [r'|] eqn:He.
  - intros H. injection H as ->. exists e. split; [now left|].
    apply drop_prefix_some. exact He.
  - intros H. destruct (IH _ _ H) as (e' & Hin & Heq). eauto.
Qed.

Lemma drop_one_shorter chars s r :
  Forall (fun e => e <> []) chars ->
  Str.drop_one chars s = Some r -> List.length r < List.length s.
Proof.
  intros Hne H. destruct (drop_one_some chars s r H) as (e & Hin & ->).
  rewrite Forall_forall in Hne. specialize (Hne e Hin).
  rewrite length_app. destruct e; [contradiction | simpl; lia].
Qed.

(** Whether a text starts with one of the characters depends on its
    beginning only. *)
Lemma drop_one_app chars : forall s r w,
  Str.drop_one chars s = Some r ->
  exists r', Str.drop_one chars (s ++ w) = Some r'.
Proof.
  induction chars as [|e rest IH]; intros s r w; simpl; [discriminate|].
  destruct (Str.drop_prefix e s) as [r0|] eqn:He.
  - intros _. rewrite (drop_prefix_app e s r0 w He). eauto.
  - intros H. destruct (Str.drop_prefix e (s ++ w)); [eauto|].
    exact (IH _ _ w H).
Qed.

Lemma drop_one_nil chars :
  Forall (fun e => e <> []) chars -> Str.drop_one chars [] = None.
Proof.
  induction 1 as [|e rest He _ IH]; simpl; [reflexivity|].
  destruct e; [contradiction | exact IH].
Qed.

Lemma drop_leading_suffix chars n : forall s,
  exists p, s = p ++ Str.drop_leading chars n s.
Proof.
  induction n as [|n IH]; intros s; simpl; [exists []; reflexivity|].
  destruct (Str.drop_one chars s) as [r|] eqn:Hr; [|exists []; reflexivity].
  destruct (drop_one_some chars s r Hr) as (e & _ & ->).
  destruct (IH r) as [p Hp]. exists (e ++ p).
  rewrite <- app_assoc, <- Hp. reflexivity.
Qed.

Lemma drop_leading_done chars n :
  Forall (fun e => e <> []) chars ->
  forall s, List.length s <= n ->
            Str.drop_one chars (Str.drop_leading chars n s) = None.
Proof.
  intros Hne. induction n as [|n IH]; intros s Hlen; simpl.
  - destruct s; [apply drop_one_nil; exact Hne | simpl in Hlen; lia].
  - destruct (Str.drop_one chars s) as [r|] eqn:Hr; [|exact Hr].
    apply IH. pose proof (drop_one_shorter chars s r Hne Hr). lia.
Qed.

Lemma drop_leading_fixed chars n s :
  Str.drop_one chars s = None -> Str.drop_leading chars n s = s.
Proof. destruct n; simpl; [reflexivity | intros ->; reflexivity]. Qed.

Lemma white_space_nonempty : Forall (fun e => e <> []) Str.white_space.
Proof.
  cbv [Str.white_space Str.bytes map app].
  repeat (constructor; [discriminate|]). constructor.
Qed.

Lemma white_space_rev_nonempty :
  Forall (fun e => e <> []) (map (@rev ascii) Str.white_space).
Proof.
  apply Forall_map. eapply Forall_impl; [|exact white_space_nonempty].
  intros e He Hrev. apply He.
  rewrite <- (rev_involutive e), Hrev. reflexivity.
Qed.

Lemma lstrip_bytes_suffix s : exists p, s = p ++ Str.lstrip_bytes s.
Proof. apply drop_leading_suffix. Qed.

Lemma lstrip_bytes_done s :
  Str.drop_one Str.white_space (Str.lstrip_bytes s) = None.
Proof.
  apply drop_leading_done; [exact white_space_nonempty | apply Nat.le_refl].
Qed.

Lemma rstrip_bytes_prefix s : exists w, s = Str.rstrip_bytes s ++ w.
Proof.
  unfold Str.rstrip_bytes.
  destruct (drop_leading_suffix (map (@rev ascii) Str.white_space)
              (List.length s) (rev s)) as [p Hp].
  exists (rev p). rewrite <- rev_app_distr, <- Hp. symmetry.
  apply rev_involutive.
Qed.

Lemma rstrip_bytes_done s :
  Str.drop_one (map (@rev ascii) Str.white_space)
    (rev (Str.rstrip_bytes s)) = None.
Proof.
  unfold Str.rstrip_bytes. rewrite rev_involutive.
  apply drop_leading_done; [exact white_space_rev_nonempty|].
  rewrite length_rev. apply Nat.le_refl.
Qed.

Lemma rstrip_bytes_fixed u :
  Str.drop_one (map (@rev ascii) Str.white_space) (rev u) = None ->
  Str.rstrip_bytes u = u.
Proof.
  intros H. unfold Str.rstrip_bytes.
  rewrite drop_leading_fixed by exact H. apply rev_involutive.
Qed.

(** What [strip] leaves neither starts nor ends with white space, so
    stripping again changes nothing. *)
Lemma strip_bytes_strip_bytes l :
  Str.strip_bytes (Str.strip_bytes l) = Str.strip_bytes l.
Proof.
  unfold Str.strip_bytes. set (t := Str.lstrip_bytes l).
  assert (Hl : Str.lstrip_bytes (Str.rstrip_bytes t) = Str.rstrip_bytes t).
  { unfold Str.lstrip_bytes at 1. apply drop_leading_fixed.
    destruct (rstrip_bytes_prefix t) as [w Hw].
    destruct (Str.drop_one Str.white_space (Str.rstrip_bytes t)) as [r|] eqn:E;
      [|reflexivity].
    exfalso. destruct (drop_one_app _ _ _ w E) as [r' Hr'].
    rewrite <- Hw in Hr'. unfold t in Hr'.
    rewrite lstrip_bytes_done in Hr'. discriminate. }
  rewrite Hl. apply rstrip_bytes_fixed, rstrip_bytes_done.
Qed.

Lemma strip_strip s : Str.strip (Str.strip s) = Str.strip s.
Proof.
  unfold Str.strip.
  rewrite list_ascii_of_string_of_list_ascii, strip_bytes_strip_bytes.
  reflexivity.
Qed.

Lemma forallb_strip_bytes (p : ascii -> bool) l :
  forallb p l = true -> forallb p (Str.strip_bytes l) = true.
Proof.
  unfold Str.strip_bytes. intros Hl.
  destruct (lstrip_bytes_suffix l) as [front Hfront].
  destruct (rstrip_bytes_prefix (Str.lstrip_bytes l)) as [back Hback].
  rewrite Hfront, Hback, !forallb_app in Hl.
  apply andb_true_iff in Hl. destruct Hl as [_ Hl].
  apply andb_true_iff in Hl. destruct Hl as [Hl _]. exact Hl.
Qed.

Lemma no_newline_bytes s :
  no_newline s = forallb line_char (list_ascii_of_string s).
Proof.
  induction s as [|c s IH]; simpl; [reflexivity | now rewrite IH].
Qed.

Lemma no_newline_strip s :
  no_newline s = true -> no_newline (Str.strip s) = true.
Proof.
  unfold Str.strip. rewrite !no_newline_bytes.
  rewrite list_ascii_of_string_of_list_ascii. apply forallb_strip_bytes.
Qed.

Lemma map_strip_clean data :
  forallb clean_item data = true -> map Str.strip data = data.
Proof.
  induction data as [|x data IH]; intros Hdata; [reflexivity|].
  simpl in Hdata. apply andb_true_iff in Hdata. destruct Hdata as [Hx Hd].
  unfold clean_item in Hx. apply andb_true_iff in Hx. destruct Hx as [_ Hx].
  apply String.eqb_eq in Hx. simpl. now rewrite Hx, (IH Hd).
Qed.

Lemma clean_no_newline data :
  forallb clean_item data = true -> forallb no_newline data = true.
Proof.
  induction data as [|x data IH]; intros Hdata; [reflexivity|].
  simpl in *. apply andb_true_iff in Hdata. destruct Hdata as [Hx Hd].
  unfold clean_item in Hx. apply andb_true_iff in Hx. destruct Hx as [Hx _].
  now rewrite Hx, (IH Hd).
Qed.

Lemma plain_items data :
  forallb plain_item data = true ->
  forallb Str.utf8_valid data = true /\ forallb clean_item data = true.
Proof.
  induction data as [|x data IH]; intros Hdata; [split; reflexivity|].
  simpl in *. apply andb_true_iff in Hdata. destruct Hdata as [Hx Hd].
  unfold plain_item in Hx. apply andb_true_iff in Hx. destruct Hx as [Hu Hc].
  destruct (IH Hd) as [H1 H2]. now rewrite Hu, Hc, H1, H2.
Qed.

Lemma dict_mem_set_same (V : Type) k (v : V) d :
  Dict.mem k (Dict.set k v d) = true.
Proof.
  unfold Dict.mem. now rewrite dict_get_set_same.
Qed.

(** What a successful [save_list] leaves behind. *)
Lemma save_list_success filepath data w :
  fst (Gathering.save_list filepath data w) = Py.Return true ->
  FS.is_in (Str.norm filepath) (FS.denied w) = false
  /\ snd (Gathering.save_list filepath data w) =
     {| FS.files := Dict.set (Str.norm filepath) (list_text data) (FS.files w);
        FS.dirs := FS.dirs w;
        FS.denied := FS.denied w |}.
Proof.
  unfold Gathering.save_list, FS.try_except_IOError, FS.bind, FS.write_text.
  fold (list_text data).
  destruct (FS.is_in (Str.norm filepath) (FS.denied w)); [discriminate|].
  destruct (negb (FS.is_dir w (Str.norm (Str.dirname filepath))));
    [discriminate|].
  intros _. split; reflexivity.
Qed.

(** X6. What [save_list] wrote, [load_list] reads back: when the items
    are texts with no line ending (neither a newline nor a carriage
    return) inside and no white space, ASCII or not, at their ends, and
    the file could be written, loading the same path from the resulting
    file system returns the list that was saved. *)
Theorem load_list_after_save_list :
  forall filepath data w,
    forallb plain_item data = true ->
    fst (Gathering.save_list filepath data w) = Py.Return true ->
    fst (Gathering.load_list filepath
           (snd (Gathering.save_list filepath data w)))
    = Py.Return (Some data).
Proof.
  intros filepath data w Hplain Hsaved.
  destruct (plain_items data Hplain) as [Hvalid Hclean].
  destruct (save_list_success filepath data w Hsaved) as [Hden ->].
  unfold Gathering.load_list, FS.bind, FS.path_exists,
    FS.try_except_IOError, FS.read_text.
  cbn [FS.files FS.denied fst snd].
  rewrite dict_mem_set_same. cbn [orb negb FS.files FS.denied].
  rewrite Hden, dict_get_set_same.
  rewrite (utf8_valid_list_text data Hvalid). cbn [FS.ret fst].
  rewrite readlines_list_text by (apply clean_no_newline; exact Hclean).
  rewrite map_strip_clean by exact Hclean. reflexivity.
Qed.

Lemma no_newline_readlines_upto n : forall text,
  String.length text <= n ->
  forallb no_newline (Str.readlines text) = true.
Proof.
  induction n as [|n IH]; intros text Hlen.
  - destruct text; [reflexivity | simpl in Hlen; lia].
  - destruct text as [|c r]; [reflexivity|].
    simpl in Hlen. cbn [Str.readlines].
    destruct (Ascii.eqb c "010"%char) eqn:Hn.
    + simpl. apply IH. lia.
    + destruct (Ascii.eqb c "013"%char) eqn:Hr.
      * cbn [forallb no_newline andb]. destruct r as [|c' r']; [reflexivity|].
        simpl in Hlen.
        destruct (Ascii.eqb c' "010"%char); apply IH; simpl; lia.
      * assert (Hc : line_char c = true)
          by (unfold line_char; now rewrite Hn, Hr).
        assert (Hrest : forallb no_newline (Str.readlines r) = true)
          by (apply IH; lia).
        destruct (Str.readlines r) as [|l ls]; simpl in *.
        -- now rewrite Hc.
        -- now rewrite Hc.
Qed.

Lemma no_newline_readlines text :
  forallb no_newline (Str.readlines text) = true.
Proof. apply (no_newline_readlines_upto (String.length text)), Nat.le_refl. Qed.

(** X7. Whatever the file holds, the items [load_list] returns are clean:
    none contains a line ending and none has white space at its ends. *)
Theorem load_list_returns_clean_items :
  forall filepath w items,
    fst (Gathering.load_list filepath w) = Py.Return (Some items) ->
    forallb clean_item items = true.
Proof.
  intros filepath w items.
  unfold Gathering.load_list, FS.bind, FS.path_exists,
    FS.try_except_IOError, FS.read_text.
  destruct (negb _); [discriminate|].
  destruct (FS.is_in _ _); [discriminate|].
  destruct (Dict.get _ _) as [text|]; [|discriminate].
  destruct (Str.utf8_valid text); [|discriminate].
  simpl. intros H. injection H as <-.
  pose proof (no_newline_readlines text) as Hnl.
  induction (Str.readlines text) as [|l ls IH]; [reflexivity|].
  simpl in Hnl. apply andb_true_iff in Hnl. destruct Hnl as [Hl Hls].
  simpl. rewrite (IH Hls), andb_true_r.
  unfold clean_item. rewrite strip_strip, String.eqb_refl, andb_true_r.
  apply no_newline_strip, Hl.
Qed.

End CachedList.

(** ** Whole runs of [gathering.main] *)

Section Runs.
Variable J : codec.
Variable extract : string -> option (list EntityRecord).
Variable net : string -> Fetch.response.

Lemma load_list_keeps_world filepath w :
  snd (Gathering.load_list filepath w) = w.
Proof.
  unfold Gathering.load_list, FS.bind, FS.path_exists,
    FS.try_except_IOError, FS.read_text.
  destruct (negb _); [reflexivity|].
  destruct (FS.is_in _ _); [reflexivity|].
  destruct (Dict.get _ _) as [content|]; [|reflexivity].
  destruct (Str.utf8_valid content); reflexivity.
Qed.

Lemma load_list_unreadable filepath w :
  Py.raises (fst (FS.read_text filepath w)) = true ->
  fst (Gathering.load_list filepath w) = Py.Return None.
Proof.
  unfold Gathering.load_list, FS.bind, FS.path_exists,
    FS.try_except_IOError, FS.read_text.
  intros Hraise. destruct (negb _); [reflexivity|].
  destruct (FS.is_in _ _); [reflexivity|].
  destruct (Dict.get _ _); [discriminate Hraise | reflexivity].
Qed.

Lemma languages_of_keeps_world discovered spoken since w :
  snd (Gathering.languages_of discovered spoken since w) = w.
Proof.
  unfold Gathering.languages_of.
  destruct (String.eqb since "daily" && String.eqb spoken "all");
    [reflexivity|].
  unfold FS.bind.
  pose proof (load_list_keeps_world "./temp/lang_list.txt" w) as Hw.
  destruct (Gathering.load_list "./temp/lang_list.txt" w) as [[[l|]|e] w'];
    simpl in Hw; subst w'; reflexivity.
Qed.

(** X8. A run that has to load the cached list (any run other than
    daily/all) and finds the file missing or unreadable raises
    [TypeError] before it fetches anything, and leaves the file system as
    it was. *)
Theorem run_without_cached_list_raises :
  forall discovered since spoken w,
    String.eqb since "daily" && String.eqb spoken "all" = false ->
    Py.raises (fst (FS.read_text "./temp/lang_list.txt" w)) = true ->
    Gathering.main J extract net discovered since spoken w =
    (Py.Raise Py.TypeError, w).
Proof.
  intros discovered since spoken w Hmode Hread.
  unfold Gathering.main, FS.bind, Gathering.languages_of. rewrite Hmode.
  unfold FS.bind.
  pose proof (load_list_unreadable "./temp/lang_list.txt" w Hread) as Hnone.
  pose proof (load_list_keeps_world "./temp/lang_list.txt" w) as Hw.
  destruct (Gathering.load_list "./temp/lang_list.txt" w) as [r w'].
  simpl in Hnone, Hw. subst r w'. reflexivity.
Qed.

(** X9. When the per-run JSON file cannot be opened, the run raises and
    changes no file: the cached list is not refreshed, because [save_dict]
    has no handler and [save_list] comes after it. *)
Theorem run_with_locked_output_changes_nothing :
  forall discovered since spoken w,
    FS.is_in (Str.norm (Gathering.output_file spoken since)) (FS.denied w)
    = true ->
    let run := Gathering.main J extract net discovered since spoken w in
    Py.raises (fst run) = true /\ FS.files (snd run) = FS.files w.
Proof.
  intros discovered since spoken w Hdenied run. unfold run.
  unfold Gathering.main, FS.bind.
  pose proof (languages_of_keeps_world discovered spoken since w) as Hw.
  destruct (Gathering.languages_of discovered spoken since w)
    as [[languages|e] w0]; simpl in Hw; subst w0; [|split; reflexivity].
  destruct (Fetch.gather extract net
              (Gathering.urls_of spoken since languages)) as [results|];
    [|split; reflexivity].
  destruct (Gathering.aggregate spoken since results languages)
    as [output langs].
  unfold FS.path_exists.
  destruct (negb _); unfold FS.mkdir, FS.ret, Gathering.save_dict,
    FS.write_text; cbn [FS.denied FS.files FS.dirs];
    rewrite Hdenied; split; reflexivity.
Qed.

Lemma gather_when_no_task_raises urls :
  (forall url,
     In url urls ->
     snd (Fetch.get_github_trending_repositories_async extract net url)
     <> None) ->
  Fetch.gather extract net urls =
  Some (map (fun url =>
               Fetch.value
                 (snd (Fetch.get_github_trending_repositories_async extract
                         net url)))
          urls).
Proof.
  unfold Fetch.gather. induction urls as [|url rest IH]; intros Hret;
    [reflexivity|].
  cbn [map Fetch.all_values].
  pose proof (Hret url (or_introl eq_refl)) as Hurl.
  destruct (snd (Fetch.get_github_trending_repositories_async extract net
                   url)) as [result|]; [|contradiction].
  rewrite IH by (intros u Hu; apply Hret; right; exact Hu). reflexivity.
Qed.

Lemma combine_default discovered :
  ~ In "all" discovered ->
  combine
    (map (fun url =>
            Fetch.value
              (snd (Fetch.get_github_trending_repositories_async extract
                      net url)))
       (Gathering.urls_of "all" "daily" ("all" :: discovered)))
    ("all" :: discovered)
  = default_pairs extract net discovered.
Proof.
  intros Hnot. unfold Gathering.urls_of, default_pairs.
  cbn [filter String.eqb Ascii.eqb Bool.eqb negb andb].
  rewrite filter_not_all by exact Hnot.
  cbn [map combine]. f_equal.
  clear Hnot. induction discovered as [|l rest IH]; [reflexivity|].
  cbn [map combine]. now rewrite IH.
Qed.

Lemma langs_default discovered :
  ~ In "all" discovered ->
  snd (Gathering.aggregate_pairs "all" "daily"
         (default_pairs extract net discovered))
  = filter (productive extract net) discovered.
Proof.
  intros Hnot. rewrite langs_of_pairs. unfold default_pairs.
  cbn [filter fst snd]. rewrite andb_false_r.
  induction discovered as [|l rest IH]; [reflexivity|].
  cbn [map filter fst snd]. fold (productive extract net l).
  assert (Hl : String.eqb l "all" = false).
  { destruct (String.eqb_spec l "all") as [->|_]; [|reflexivity].
    exfalso. apply Hnot. left. reflexivity. }
  rewrite Hl. cbn [negb]. rewrite andb_true_r.
  assert (Hrest : ~ In "all" rest) by (intros H; apply Hnot; right; exact H).
  destruct (productive extract net l); cbn [map]; now rewrite (IH Hrest).
Qed.

(** X10. A default run (daily/all) whose discovered languages do not
    contain [all], none of whose tasks raises (no fetched page makes the
    extraction raise), on a file system where the two files of [temp] can
    be written, returns normally. It leaves in the per-run file the
    dictionary built from the page of all languages followed by every
    language with its own page, and in the cached list exactly the
    discovered languages whose page listed a repository, in their order;
    it changes no other file. *)
Theorem default_run_writes_output_and_cache :
  forall discovered w,
    ~ In "all" discovered ->
    (forall url,
       In url (Gathering.urls_of "all" "daily" ("all" :: discovered)) ->
       snd (Fetch.get_github_trending_repositories_async extract net url)
       <> None) ->
    Dict.mem "temp" (FS.files w) = false ->
    FS.is_in "temp/daily-all.json" (FS.denied w) = false ->
    FS.is_in "temp/lang_list.txt" (FS.denied w) = false ->
    let run := Gathering.main J extract net discovered "daily" "all" w in
    let output :=
      fst (Gathering.aggregate_pairs "all" "daily"
             (default_pairs extract net discovered)) in
    fst run = Py.Return tt
    /\ Dict.get "temp/daily-all.json" (FS.files (snd run)) =
         Some (dumps J (Dict.values output))
    /\ Dict.get "temp/lang_list.txt" (FS.files (snd run)) =
         Some (list_text (filter (productive extract net) discovered))
    /\ (forall q,
          q <> "temp/daily-all.json" -> q <> "temp/lang_list.txt" ->
          Dict.get q (FS.files (snd run)) = Dict.get q (FS.files w)).
Proof.
  intros discovered w Hnot Hreturn Hfile Hout Hcache run output.
  subst output.
  set (w1 := if negb (FS.is_dir w "temp")
             then {| FS.files := FS.files w;
                     FS.dirs := FS.dirs w ++ ["temp"];
                     FS.denied := FS.denied w |}
             else w).
  assert (Hw1 : FS.files w1 = FS.files w /\ FS.denied w1 = FS.denied w
                /\ FS.is_dir w1 "temp" = true).
  { unfold w1. destruct (FS.is_dir w "temp") eqn:Hd; simpl; auto.
    repeat split. unfold FS.is_dir. simpl. apply is_in_snoc. }
  destruct Hw1 as (Hf1 & Hd1 & Hdir1).
  assert (Hrun : run =
            (Py.Return tt,
             {| FS.files :=
                  Dict.set "temp/lang_list.txt"
                    (list_text (filter (productive extract net) discovered))
                    (Dict.set "temp/daily-all.json"
                       (dumps J
                          (Dict.values
                             (fst (Gathering.aggregate_pairs "all" "daily"
                                     (default_pairs extract net discovered)))))
                       (FS.files w));
                FS.dirs := FS.dirs w1;
                FS.denied := FS.denied w |})).
  { unfold run, Gathering.main, FS.bind, Gathering.languages_of.
    cbn [String.eqb Ascii.eqb Bool.eqb andb FS.ret].
    rewrite (gather_when_no_task_raises _ Hreturn).
    unfold Gathering.aggregate. rewrite (combine_default discovered Hnot).
    pose proof (langs_default discovered Hnot) as Hlangs.
    destruct (Gathering.aggregate_pairs "all" "daily"
                (default_pairs extract net discovered)) as [out langs].
    cbn [snd] in Hlangs. subst langs. cbn [fst].
    change (Str.dirname (Gathering.output_file "all" "daily")) with "./temp".
    unfold FS.path_exists. change (Str.norm "./temp") with "temp".
    rewrite Hfile, orb_false_l.
    assert (Hstep :
      (if negb (FS.is_dir w "temp") then FS.mkdir "./temp" else FS.ret tt) w
      = (Py.Return tt, w1)).
    { unfold w1. destruct (FS.is_dir w "temp"); reflexivity. }
    rewrite Hstep.
    unfold Gathering.save_dict, FS.write_text.
    change (Str.norm (Gathering.output_file "all" "daily"))
      with "temp/daily-all.json".
    change (Str.norm (Str.dirname (Gathering.output_file "all" "daily")))
      with "temp".
    rewrite Hd1, Hout, Hdir1. cbn [negb].
    unfold Gathering.save_list, FS.try_except_IOError, FS.bind,
      FS.write_text.
    change (Str.norm Gathering.output_lang_file) with "temp/lang_list.txt".
    change (Str.norm (Str.dirname Gathering.output_lang_file)) with "temp".
    cbn [FS.denied FS.files FS.dirs]. rewrite Hcache.
    change (FS.is_dir _ "temp") with (FS.is_dir w1 "temp").
    rewrite Hdir1. cbn [negb FS.ret]. rewrite Hf1. reflexivity. }
  rewrite Hrun. cbn [fst snd FS.files].
  split; [reflexivity|]. split; [|split].
  - rewrite dict_get_set_other by discriminate. apply dict_get_set_same.
  - apply dict_get_set_same.
  - intros q H1 H2. rewrite !dict_get_set_other by congruence. reflexivity.
Qed.

End Runs.

(** ** Whole passes of [organize.main] *)

Section Passes.
Variable J : codec.

Lemma merge_paths_fails w paths : forall output,
  Organize.load_all J w paths = None ->
  exists e, Organize.merge_paths J paths output w = (Py.Raise e, w).
Proof.
  induction paths as [|file_path rest IH]; intros output Hall;
    simpl in Hall; [discriminate|].
  pose proof (load_dict_keeps_world J file_path w) as Hw.
  simpl. unfold FS.bind.
  destruct (Organize.load_dict J file_path w) as [[snapshot|e] w'];
    simpl in Hall, Hw; subst w'; [|eauto].
  destruct (Organize.load_all J w rest) as [l|] eqn:Hrest; [discriminate|].
  apply IH. reflexivity.
Qed.

(** X11. When one of the selected files cannot be read or parsed, the
    merge pass raises and leaves the file system as it was: neither the
    output directory nor any of the two files is created. *)
Theorem pass_with_bad_file_changes_nothing :
  forall now w paths,
    fst (Organize.get_json_files w) = Py.Return paths ->
    Organize.load_all J w paths = None ->
    exists e, Organize.main J now w = (Py.Raise e, w).
Proof.
  intros now w paths Hpaths Hload.
  destruct (get_json_files_spec w) as (paths0 & Hsel & _).
  rewrite Hsel in Hpaths. simpl in Hpaths. injection Hpaths as ->.
  destruct (merge_paths_fails w paths [] Hload) as [e He].
  exists e. unfold Organize.main, FS.bind. rewrite Hsel, He. reflexivity.
Qed.

Lemma archive_shape now :
  Str.norm (Organize.archive_path now) =
  String.append "data/"
    (String.append (Organize.get_jst_time now) ".json").
Proof.
  rewrite archive_path_shape.
  change (String.append "./data" (String "/" ?t))
    with (String "." (String "/" (String.append "data/" t))).
  apply norm_dot_slash.
Qed.

(** X12. The archival file never takes the place of the rolling file: its
    path differs from [data/latest.json] at every clock reading. *)
Theorem archive_is_not_latest :
  forall now, Str.norm (Organize.archive_path now) <> "data/latest.json".
Proof.
  intros now. rewrite archive_shape.
  unfold Organize.get_jst_time, Organize.strftime_Y_m_d_H, Organize.pad4,
    Organize.pad2.
  unfold Organize.digit. cbn [String.concat String.append]. intros H.
  (* the name has eighteen characters, [latest.json] eleven *)
  inversion H.
Qed.

Lemma dict_keys_set_new (V : Type) k (v : V) d (f : string -> bool) :
  f k = false ->
  filter f (Dict.keys (Dict.set k v d)) = filter f (Dict.keys d).
Proof.
  intros Hk. rewrite dict_keys_set. destruct (Dict.mem k d); [reflexivity|].
  rewrite filter_app. simpl. rewrite Hk. apply app_nil_r.
Qed.

Lemma temp_entry_starts_with_t path name :
  FS.entry_of "temp" path = Some name -> exists rest, path = String "t" rest.
Proof.
  unfold FS.entry_of. change (String.append "temp" "/") with "temp/".
  destruct path as [|c rest]; cbn [prefix]; [intros H; discriminate H|].
  destruct (ascii_dec "t" c) as [<-|_]; intros H; [eauto | discriminate H].
Qed.

Lemma entry_of_data t : FS.entry_of "temp" (String "d" t) = None.
Proof. reflexivity. Qed.

(** The entries selected in a world and in the world a pass leaves. *)
Lemma selected_after_pass w dirs' text text' k :
  dirs' = FS.dirs w \/ dirs' = FS.dirs w ++ ["data"] ->
  fst (Organize.get_json_files
         {| FS.files :=
              Dict.set (String "d" k) text
                (Dict.set "data/latest.json" text' (FS.files w));
            FS.dirs := dirs';
            FS.denied := FS.denied w |})
  = fst (Organize.get_json_files w).
Proof.
  intros Hdirs.
  unfold Organize.get_json_files, FS.bind, FS.glob_ext, FS.ret.
  cbn [fst FS.files FS.dirs]. do 2 f_equal.
  rewrite !filter_app, !dict_keys_set_new by reflexivity. f_equal.
  destruct Hdirs as [-> | ->]; [reflexivity|].
  rewrite filter_app. apply app_nil_r.
Qed.

Lemma load_all_after_pass w dirs' text text' k paths :
  (forall q, In q paths -> exists name, FS.entry_of "temp" q = Some name) ->
  Organize.load_all J
    {| FS.files :=
         Dict.set (String "d" k) text
           (Dict.set "data/latest.json" text' (FS.files w));
       FS.dirs := dirs';
       FS.denied := FS.denied w |} paths
  = Organize.load_all J w paths.
Proof.
  induction paths as [|q rest IH]; intros Hin; [reflexivity|].
  cbn [Organize.load_all]. rewrite IH by (intros q' Hq'; apply Hin; now right).
  destruct (Hin q (or_introl eq_refl)) as [name Hentry].
  destruct (temp_entry_starts_with_t q name Hentry) as [tail ->].
  unfold Organize.load_dict, FS.bind, FS.read_text.
  change (Str.norm (String "t" tail)) with (String "t" tail).
  cbn [FS.denied FS.files].
  rewrite !dict_get_set_other by discriminate.
  destruct (FS.is_in (String "t" tail) (FS.denied w)); [reflexivity|].
  destruct (Dict.get (String "t" tail) (FS.files w)) as [body|];
    [|reflexivity].
  cbn [fst]. destruct (loads J body); reflexivity.
Qed.

(** A pass whose files load and whose output paths can be opened. *)
Lemma pass_succeeds now w paths snapshots :
  fst (Organize.get_json_files w) = Py.Return paths ->
  Organize.load_all J w paths = Some snapshots ->
  Dict.mem "data" (FS.files w) = false ->
  FS.is_in "data/latest.json" (FS.denied w) = false ->
  FS.is_in (Str.norm (Organize.archive_path now)) (FS.denied w) = false ->
  exists dirs',
    (dirs' = FS.dirs w \/ dirs' = FS.dirs w ++ ["data"])
    /\ Organize.main J now w =
       (Py.Return tt,
        {| FS.files :=
             Dict.set (Str.norm (Organize.archive_path now))
               (dumps J (Dict.values (Organize.merge snapshots)))
               (Dict.set "data/latest.json"
                  (dumps J (Dict.values (Organize.merge snapshots)))
                  (FS.files w));
           FS.dirs := dirs';
           FS.denied := FS.denied w |}).
Proof.
  intros Hpaths Hload Hfile Hlatest Harchive.
  destruct (get_json_files_spec w) as (paths0 & Hsel & _).
  rewrite Hsel in Hpaths. simpl in Hpaths. injection Hpaths as ->.
  set (w1 := if negb (FS.is_dir w "data")
             then {| FS.files := FS.files w;
                     FS.dirs := FS.dirs w ++ ["data"];
                     FS.denied := FS.denied w |}
             else w).
  assert (Hw1 : FS.files w1 = FS.files w /\ FS.denied w1 = FS.denied w
                /\ FS.is_dir w1 "data" = true).
  { unfold w1. destruct (FS.is_dir w "data") eqn:Hd; simpl; auto.
    repeat split. unfold FS.is_dir. simpl. apply is_in_snoc. }
  destruct Hw1 as (Hf1 & Hd1 & Hdir1).
  exists (FS.dirs w1). split.
  { unfold w1. destruct (negb (FS.is_dir w "data")); simpl; auto. }
  unfold Organize.main, FS.bind. rewrite Hsel.
  rewrite (merge_paths_load_all J w paths [] Hload).
  unfold FS.path_exists.
  change (Str.norm Organize.output_dir) with "data".
  rewrite Hfile, orb_false_l.
  assert (Hstep :
    (if negb (FS.is_dir w "data") then FS.mkdir Organize.output_dir
     else FS.ret tt) w = (Py.Return tt, w1)).
  { unfold w1. destruct (FS.is_dir w "data"); reflexivity. }
  rewrite Hstep.
  unfold Organize.save_dict, FS.write_text.
  change (Str.norm Organize.latest_path) with "data/latest.json".
  change (Str.norm (Str.dirname Organize.latest_path)) with "data".
  rewrite Hd1, Hlatest, Hdir1. simpl negb. cbv iota.
  rewrite dirname_archive. change (Str.norm "./data") with "data".
  cbn [FS.denied FS.files FS.dirs]. rewrite Harchive.
  change (FS.is_dir _ "data") with (FS.is_dir w1 "data").
  rewrite Hdir1. simpl negb. cbv iota. rewrite Hf1. reflexivity.
Qed.

Lemma dict_mem_set_other (V : Type) k k' (v : V) d :
  k' <> k -> Dict.mem k (Dict.set k' v d) = Dict.mem k d.
Proof.
  intros Hne. unfold Dict.mem. now rewrite dict_get_set_other.
Qed.

(** X13. The merge pass does not feed on its own output. After a pass
    that succeeded, a second pass over the same [temp] files (at any later
    clock reading whose archival path can be opened) succeeds too and
    writes, to the rolling file and to its archival file, the very text
    the first pass wrote: the cumulative content does not grow from pass
    to pass. *)
Theorem second_pass_writes_the_same_content :
  forall now now' w paths snapshots,
    fst (Organize.get_json_files w) = Py.Return paths ->
    Organize.load_all J w paths = Some snapshots ->
    Dict.mem "data" (FS.files w) = false ->
    FS.is_in "data/latest.json" (FS.denied w) = false ->
    FS.is_in (Str.norm (Organize.archive_path now)) (FS.denied w) = false ->
    FS.is_in (Str.norm (Organize.archive_path now')) (FS.denied w) = false ->
    let text := dumps J (Dict.values (Organize.merge snapshots)) in
    let w1 := snd (Organize.main J now w) in
    let second := Organize.main J now' w1 in
    Dict.get "data/latest.json" (FS.files w1) = Some text
    /\ fst second = Py.Return tt
    /\ Dict.get "data/latest.json" (FS.files (snd second)) = Some text
    /\ Dict.get (Str.norm (Organize.archive_path now'))
         (FS.files (snd second)) = Some text.
Proof.
  intros now now' w paths snapshots Hpaths Hload Hfile Hlatest Harchive
    Harchive' text w1 second.
  destruct (pass_succeeds now w paths snapshots Hpaths Hload Hfile Hlatest
              Harchive) as (dirs1 & Hdirs1 & Hfirst).
  assert (Hentries :
    forall q, In q paths -> exists name, FS.entry_of "temp" q = Some name).
  { destruct (get_json_files_spec w) as (paths0 & Hsel & Hspec).
    rewrite Hsel in Hpaths. simpl in Hpaths. injection Hpaths as ->.
    intros q Hq. apply Hspec in Hq.
    destruct Hq as [[_ (name & Hname & _)] _]. eauto. }
  assert (Hlatest1 :
    forall k' (v : string) d,
      Dict.get "data/latest.json"
        (Dict.set k' v (Dict.set "data/latest.json" v d))
      = Some v).
  { intros k' v d.
    destruct (String.eqb_spec k' "data/latest.json") as [->|Hne].
    - apply dict_get_set_same.
    - rewrite dict_get_set_other by exact Hne. apply dict_get_set_same. }
  unfold second, w1. rewrite Hfirst. cbn [snd].
  rewrite (archive_shape now) in *.
  set (W1 := {| FS.files := _; FS.dirs := dirs1; FS.denied := FS.denied w |}).
  assert (Hsecond : exists dirs2,
    Organize.main J now' W1 =
    (Py.Return tt,
     {| FS.files :=
          Dict.set (Str.norm (Organize.archive_path now')) text
            (Dict.set "data/latest.json" text (FS.files W1));
        FS.dirs := dirs2;
        FS.denied := FS.denied W1 |})).
  { assert (Hp : fst (Organize.get_json_files W1) = Py.Return paths).
    { unfold W1. rewrite <- Hpaths. apply selected_after_pass. exact Hdirs1. }
    assert (Hl : Organize.load_all J W1 paths = Some snapshots).
    { unfold W1. rewrite <- Hload. apply load_all_after_pass. exact Hentries. }
    assert (Hf : Dict.mem "data" (FS.files W1) = false).
    { unfold W1. cbn [FS.files].
      rewrite !dict_mem_set_other by discriminate. exact Hfile. }
    destruct (pass_succeeds now' W1 paths snapshots Hp Hl Hf Hlatest
                Harchive') as (dirs2 & _ & H2).
    exists dirs2. exact H2. }
  destruct Hsecond as [dirs2 ->]. cbn [fst snd FS.files].
  split; [apply Hlatest1|]. split; [reflexivity|].
  split; [apply Hlatest1 | apply dict_get_set_same].
Qed.

End Passes.

(** ** The order of the files in a merge *)

Section FileOrder.

Lemma memberships_fold_merge repos k :
  memberships (fold_left Organize.merge_repo repos []) k =
  flat_map published (occurrences k repos).
Proof.
  unfold memberships. rewrite get_fold_merge. simpl. rewrite absorb_none.
  destruct (occurrences k repos); reflexivity.
Qed.

Lemma scalars_fold_merge repos k :
  scalars (fold_left Organize.merge_repo repos []) k =
  option_map record (hd_error (occurrences k repos)).
Proof.
  unfold scalars. rewrite get_fold_merge. simpl. rewrite absorb_none.
  destruct (occurrences k repos); reflexivity.
Qed.

(** X14. The order in which the files are listed changes neither the keys
    of the merged dictionary nor, up to their order, the memberships of a
    key; it decides only which occurrence of a key provides the scalar
    fields, so these are the same too when all the occurrences of the key
    carry the same ones. *)
Theorem merge_up_to_file_order :
  forall (snapshots snapshots' : list (list AggregatedEntity)) k,
    Permutation snapshots snapshots' ->
    (In k (Dict.keys (Organize.merge snapshots)) <->
     In k (Dict.keys (Organize.merge snapshots')))
    /\ Permutation (memberships (Organize.merge snapshots) k)
         (memberships (Organize.merge snapshots') k)
    /\ ((forall e1 e2,
           In e1 (List.concat snapshots) -> In e2 (List.concat snapshots) ->
           name_of e1 = k -> name_of e2 = k -> record e1 = record e2) ->
        scalars (Organize.merge snapshots) k =
        scalars (Organize.merge snapshots') k).
Proof.
  intros snapshots snapshots' k Hperm.
  assert (Hall : Permutation (List.concat snapshots) (List.concat snapshots'))
    by (apply perm_concat; exact Hperm).
  assert (Hocc : Permutation (occurrences k (List.concat snapshots))
                             (occurrences k (List.concat snapshots')))
    by (apply perm_filter; exact Hall).
  rewrite !merge_flat. split; [|split].
  - rewrite !in_keys_fold_merge. simpl.
    split; intros [[]|H]; right; eapply Permutation_in; try exact H;
      apply Permutation_map; [exact Hall | apply Permutation_sym; exact Hall].
  - rewrite !memberships_fold_merge. apply perm_flat_map. exact Hocc.
  - intros Hagree. rewrite !scalars_fold_merge.
    destruct (occurrences k (List.concat snapshots)) as [|e l] eqn:He.
    + apply Permutation_nil in Hocc. rewrite Hocc. reflexivity.
    + destruct (occurrences k (List.concat snapshots')) as [|e' l'] eqn:He'.
      * apply Permutation_sym, Permutation_nil in Hocc. discriminate.
      * simpl. f_equal.
        assert (H1 : In e (occurrences k (List.concat snapshots)))
          by (rewrite He; left; reflexivity).
        assert (H2 : In e' (occurrences k (List.concat snapshots))).
        { rewrite He. eapply Permutation_in;
            [apply Permutation_sym; exact Hocc|]. left; reflexivity. }
        unfold occurrences in H1, H2. apply filter_In in H1, H2.
        destruct H1 as [H1 K1], H2 as [H2 K2].
        apply String.eqb_eq in K1, K2. apply Hagree; assumption.
Qed.

End FileOrder.

(** ** The batch runs to its end *)

Section Completion.

Lemma holding_nil : Fetch.holding [] = false.
Proof. reflexivity. Qed.

Lemma finished_no_holder s :
  finished s = true -> Fetch.count Fetch.holding s = 0.
Proof.
  unfold finished, Fetch.count. induction (Fetch.tasks s) as [|prog l IH];
    simpl; [reflexivity|].
  destruct prog; simpl; [exact IH | discriminate].
Qed.

(** X15. No slot is lost: whenever every task of a batch has finished,
    whether its retrieval succeeded or failed, the semaphore is back at
    five. *)
Theorem finished_batch_frees_every_slot :
  forall extract net urls schedule,
    finished (Fetch.run schedule (Fetch.batch extract net urls)) = true ->
    Fetch.permits (Fetch.run schedule (Fetch.batch extract net urls)) = 5.
Proof.
  intros extract net urls schedule Hfin.
  destruct (slots_accounted_run schedule
              (slots_accounted_batch extract net urls)) as [_ Hsum].
  rewrite (finished_no_holder _ Hfin) in Hsum.
  unfold Fetch.ceiling in Hsum. lia.
Qed.

Lemma remaining_set_nth a rest : forall l i,
  nth_error l i = Some (a :: rest) ->
  S (list_sum (map (@List.length Fetch.action) (Fetch.set_nth i rest l))) =
  list_sum (map (@List.length Fetch.action) l).
Proof.
  induction l as [|y l IH]; intros [|i] Hi; simpl in *; try discriminate.
  - injection Hi as ->. simpl. reflexivity.
  - rewrite <- (IH i Hi). lia.
Qed.

(** A task that is not at [Acquire], or any unfinished task when a slot is
    free, performs an effect when it is scheduled. *)
Lemma step_moves s i a rest :
  nth_error (Fetch.tasks s) i = Some (a :: rest) ->
  Fetch.is_acquire a = false \/ Fetch.permits s <> 0 ->
  S (remaining (Fetch.step s i)) = remaining s.
Proof.
  intros Hi Hcan. unfold remaining, Fetch.step. rewrite Hi.
  destruct a; try (cbn [Fetch.tasks]; eapply remaining_set_nth; exact Hi).
  destruct Hcan as [Hacq|Hperm]; [discriminate Hacq|].
  destruct (Fetch.permits s); [contradiction|].
  cbn [Fetch.tasks]. eapply remaining_set_nth. exact Hi.
Qed.

Lemma unfinished_task s :
  finished s = false ->
  exists i a rest, nth_error (Fetch.tasks s) i = Some (a :: rest).
Proof.
  unfold finished. induction (Fetch.tasks s) as [|prog l IH]; simpl;
    [discriminate|].
  destruct prog as [|a rest].
  - intros H. destruct (IH H) as (i & a & rest & Hi).
    exists (S i), a, rest. exact Hi.
  - intros _. exists 0, a, rest. reflexivity.
Qed.

Lemma holder_exists l :
  List.length (filter Fetch.holding l) <> 0 ->
  exists i prog, nth_error l i = Some prog /\ Fetch.holding prog = true.
Proof.
  induction l as [|prog l IH]; simpl; [congruence|].
  destruct (Fetch.holding prog) eqn:Hh.
  - intros _. exists 0, prog. split; [reflexivity | exact Hh].
  - intros H. destruct (IH H) as (i & p & Hi & Hp).
    exists (S i), p. split; assumption.
Qed.

Lemma holder_can_move prog :
  Fetch.holding prog = true ->
  exists a rest, prog = a :: rest /\ Fetch.is_acquire a = false.
Proof.
  destruct prog as [|a rest]; [discriminate|].
  unfold Fetch.holding. simpl. intros H.
  apply andb_true_iff in H. destruct H as [_ H].
  apply negb_true_iff, orb_false_iff in H. destruct H as [Ha _].
  exists a, rest. split; [reflexivity | exact Ha].
Qed.

(** In a reachable state with an unfinished task, some task can move. *)
Lemma progress s :
  Fetch.slots_accounted s -> finished s = false ->
  exists i, S (remaining (Fetch.step s i)) = remaining s.
Proof.
  intros [_ Hsum] Hunf.
  destruct (Fetch.permits s) as [|n] eqn:Hp.
  - unfold Fetch.count, Fetch.ceiling in Hsum.
    destruct (holder_exists (Fetch.tasks s)) as (i & prog & Hi & Hh);
      [lia|].
    destruct (holder_can_move prog Hh) as (a & rest & -> & Ha).
    exists i. apply (step_moves s i a rest Hi). left. exact Ha.
  - destruct (unfinished_task s Hunf) as (i & a & rest & Hi).
    exists i. apply (step_moves s i a rest Hi). right. lia.
Qed.

Lemma can_finish n : forall s,
  Fetch.slots_accounted s -> remaining s <= n ->
  exists more, finished (Fetch.run more s) = true.
Proof.
  induction n as [|n IH]; intros s Hacc Hrem.
  - exists []. simpl. unfold remaining in Hrem. unfold finished.
    induction (Fetch.tasks s) as [|prog l IHl]; [reflexivity|].
    simpl in *. destruct prog; simpl in *; [apply IHl; lia | lia].
  - destruct (finished s) eqn:Hfin; [exists []; exact Hfin|].
    destruct (progress s Hacc Hfin) as [i Hi].
    destruct (IH (Fetch.step s i)) as [more Hmore];
      [apply slots_accounted_step; exact Hacc | lia |].
    exists (i :: more). exact Hmore.
Qed.

(** X16. The batch cannot get stuck: from whatever state an interleaving
    has reached, there is a continuation after which every task has
    finished. Together with the bound of five this is what lets
    [asyncio.gather] come to its end. *)
Theorem batch_can_always_finish :
  forall extract net urls schedule,
    exists more,
      finished
        (Fetch.run (schedule ++ more) (Fetch.batch extract net urls)) = true.
Proof.
  intros extract net urls schedule.
  destruct (can_finish
              (remaining (Fetch.run schedule (Fetch.batch extract net urls)))
              (Fetch.run schedule (Fetch.batch extract net urls)))
    as [more Hmore].
  - apply slots_accounted_run, slots_accounted_batch.
  - apply Nat.le_refl.
  - exists more. unfold Fetch.run in *. rewrite fold_left_app. exact Hmore.
Qed.

End Completion.

(** ** The slugs of the language menu *)

Section Slugs.

Lemma split_slash_parts path :
  forallb (fun part => negb (Str.has_slash part)) (Discover.split_slash path)
  = true.
Proof.
  induction path as [|c r IH]; simpl; [reflexivity|].
  destruct (Ascii.eqb c "/"%char) eqn:Hc; simpl; [exact IH|].
  destruct (Discover.split_slash r) as [|part parts]; simpl in *.
  - now rewrite Hc.
  - now rewrite Hc.
Qed.

Lemma split_slash_plain s :
  Str.has_slash s = false -> Discover.split_slash s = [s].
Proof.
  induction s as [|c r IH]; simpl; [reflexivity|].
  intros H. apply orb_false_iff in H. destruct H as [Hc Hr].
  rewrite Hc, (IH Hr). reflexivity.
Qed.

Lemma languages_from acc paths :
  fold_left
    (fun languages path =>
       match Discover.slug_of_path path with
       | Some language_slug => languages ++ [language_slug]
       | None => languages
       end)
    paths acc
  = acc ++ Discover.languages_of_paths paths.
Proof.
  unfold Discover.languages_of_paths.
  revert acc. induction paths as [|path rest IH]; intros acc; simpl.
  - now rewrite app_nil_r.
  - rewrite IH. rewrite (IH (match Discover.slug_of_path path with
                              | Some slug => [slug]
                              | None => []
                              end)).
    destruct (Discover.slug_of_path path); simpl.
    + now rewrite <- app_assoc.
    + reflexivity.
Qed.

(** X17. No language found by the discovery contains a slash, whatever
    the paths of the links are. *)
Theorem discovered_slugs_have_no_slash :
  forall paths,
    forallb (fun slug => negb (Str.has_slash slug))
      (Discover.languages_of_paths paths) = true.
Proof.
  induction paths as [|path rest IH]; [reflexivity|].
  unfold Discover.languages_of_paths. simpl. rewrite languages_from.
  rewrite forallb_app, IH, andb_true_r.
  unfold Discover.slug_of_path.
  pose proof (split_slash_parts path) as Hparts.
  destruct (Discover.split_slash path) as [|p0 [|p1 [|p2 ps]]];
    try reflexivity.
  simpl in *. do 2 (apply andb_true_iff in Hparts;
                    destruct Hparts as [_ Hparts]).
  apply andb_true_iff in Hparts. destruct Hparts as [Hp2 _].
  now rewrite Hp2.
Qed.

Lemma slug_of_trending_path i :
  Str.has_slash i = false ->
  Discover.slug_of_path (String.append "/trending/" i) = Some i.
Proof.
  intros Hi. unfold Discover.slug_of_path.
  cbn [String.append Discover.split_slash Ascii.eqb Bool.eqb].
  rewrite (split_slash_plain i Hi). reflexivity.
Qed.

(** X18. The discovery gives back the languages the links were made of:
    for languages without a slash, the links [/trending/<language>] yield
    exactly these languages, in their order. *)
Theorem discovery_reads_back_the_languages :
  forall langs,
    forallb (fun i => negb (Str.has_slash i)) langs = true ->
    Discover.languages_of_paths (map (String.append "/trending/") langs)
    = langs.
Proof.
  induction langs as [|i rest IH]; intros Hlangs; [reflexivity|].
  simpl in Hlangs. apply andb_true_iff in Hlangs.
  destruct Hlangs as [Hi Hrest]. apply negb_true_iff in Hi.
  unfold Discover.languages_of_paths. cbn [map fold_left].
  rewrite languages_from, (slug_of_trending_path i Hi), (IH Hrest).
  reflexivity.
Qed.

End Slugs.

(** ** The extraction of a page *)

Section Extraction.
Variable int_of : string -> option Z.

Lemma collect_from arts : forall acc,
  Extract.collect int_of arts acc =
  Extract.bind (Extract.get_records int_of arts)
    (fun records => Extract.Parsed (acc ++ records)).
Proof.
  unfold Extract.get_records.
  induction arts as [|art rest IH]; intros acc; simpl.
  - now rewrite app_nil_r.
  - destruct (Extract.parse_article int_of art) as [repo|[]].
    + rewrite IH, (IH [repo]).
      destruct (Extract.collect int_of rest []); simpl;
        [now rewrite <- app_assoc | reflexivity].
    + apply IH.
    + apply IH.
    + reflexivity.
    + reflexivity.
Qed.

Lemma get_records_app xs ys :
  Extract.get_records int_of (xs ++ ys) =
  Extract.bind (Extract.get_records int_of xs) (fun front =>
  Extract.bind (Extract.get_records int_of ys) (fun back =>
  Extract.Parsed (front ++ back))).
Proof.
  unfold Extract.get_records.
  induction xs as [|art rest IH]; simpl.
  - destruct (Extract.collect int_of ys []); reflexivity.
  - destruct (Extract.parse_article int_of art) as [repo|[]];
      try exact IH; try reflexivity.
    rewrite (collect_from (rest ++ ys) [repo]), (collect_from rest [repo]).
    unfold Extract.get_records. rewrite IH.
    destruct (Extract.collect int_of rest []); simpl; [|reflexivity].
    destruct (Extract.collect int_of ys []); reflexivity.
Qed.

(** X19. An article that fails with [AttributeError] or [ValueError] is
    skipped without a trace: the page gives what it would give without
    that article, the records of the others in their order. *)
Theorem failing_article_is_skipped :
  forall xs bad ys,
    Extract.parse_article int_of bad = Extract.Failed Extract.AttributeError
    \/ Extract.parse_article int_of bad = Extract.Failed Extract.ValueError ->
    Extract.get_records int_of (xs ++ bad :: ys) =
    Extract.get_records int_of (xs ++ ys).
Proof.
  intros xs bad ys Hbad. rewrite !get_records_app.
  assert (H : Extract.get_records int_of (bad :: ys) =
              Extract.get_records int_of ys).
  { unfold Extract.get_records. simpl.
    destruct Hbad as [-> | ->]; reflexivity. }
  rewrite H. reflexivity.
Qed.

(** Articles whose failures are all caught give records, at most one
    each. *)
Lemma get_records_caught arts :
  (forall art e,
     In art arts -> Extract.parse_article int_of art = Extract.Failed e ->
     Extract.escapes e = false) ->
  exists records,
    Extract.get_records int_of arts = Extract.Parsed records
    /\ List.length records <= List.length arts.
Proof.
  induction arts as [|art rest IH]; intros Hnone.
  - exists []. split; [reflexivity | apply Nat.le_refl].
  - destruct IH as (records & Hrest & Hlen);
      [intros a e Ha; apply Hnone; right; exact Ha|].
    change (art :: rest) with ([art] ++ rest). rewrite get_records_app.
    rewrite Hrest. unfold Extract.get_records. simpl.
    pose proof (Hnone art) as Hart. specialize (fun e => Hart e (or_introl eq_refl)).
    destruct (Extract.parse_article int_of art) as [repo|[]]; simpl.
    + exists (repo :: records). split; [reflexivity | simpl; lia].
    + exists records. split; [reflexivity | simpl; lia].
    + exists records. split; [reflexivity | simpl; lia].
    + discriminate (Hart _ eq_refl).
    + discriminate (Hart _ eq_refl).
Qed.

(** X20. Two failures of an article are not caught by the handler of
    line 126: a heading link without [href] ([KeyError]) and an [href]
    that makes the selector ill-formed ([SelectorSyntaxError]). The
    extraction of a page raises the failure of the first article that
    fails in one of these two ways, and returns records, at most one per
    article, when no article does. It raises nothing else. *)
Theorem page_raises_on_a_link_without_href :
  forall arts,
    (forall xs art ys e,
       arts = xs ++ art :: ys ->
       (forall x e',
          In x xs -> Extract.parse_article int_of x = Extract.Failed e' ->
          Extract.escapes e' = false) ->
       Extract.parse_article int_of art = Extract.Failed e ->
       Extract.escapes e = true ->
       Extract.get_records int_of arts = Extract.Failed e)
    /\ ((forall art e,
           In art arts ->
           Extract.parse_article int_of art = Extract.Failed e ->
           Extract.escapes e = false)
        -> exists records,
             Extract.get_records int_of arts = Extract.Parsed records
             /\ List.length records <= List.length arts)
    /\ (forall e,
          Extract.get_records int_of arts = Extract.Failed e ->
          Extract.escapes e = true
          /\ exists art,
               In art arts
               /\ Extract.parse_article int_of art = Extract.Failed e).
Proof.
  intros arts. split; [|split].
  - intros xs art ys e -> Hbefore Hart Hesc.
    rewrite get_records_app.
    destruct (get_records_caught xs Hbefore) as (front & -> & _).
    unfold Extract.get_records. simpl. rewrite Hart.
    destruct e; try discriminate Hesc; reflexivity.
  - apply get_records_caught.
  - unfold Extract.get_records. generalize (@nil EntityRecord).
    induction arts as [|art rest IH]; intros acc e; simpl; [discriminate|].
    destruct (Extract.parse_article int_of art) as [repo|[]] eqn:Hart;
      try (intros H; destruct (IH _ _ H) as (Hesc & a & Ha & Hp);
           split; [exact Hesc | exists a; split; [right; exact Ha | exact Hp]]).
    + intros H. injection H as <-. split; [reflexivity|].
      exists art. split; [left; reflexivity | exact Hart].
    + intros H. injection H as <-. split; [reflexivity|].
      exists art. split; [left; reflexivity | exact Hart].
Qed.

Lemma remove_char_gone c s :
  Extract.has_char c (Extract.remove_char c s) = false.
Proof.
  induction s as [|x r IH]; simpl; [reflexivity|].
  destruct (Ascii.eqb x c) eqn:Hx; simpl; [exact IH | now rewrite Hx, IH].
Qed.

Lemma remove_char_keeps_absent c d s :
  Extract.has_char d s = false ->
  Extract.has_char d (Extract.remove_char c s) = false.
Proof.
  induction s as [|x r IH]; simpl; [reflexivity|].
  intros H. apply orb_false_iff in H. destruct H as [Hx Hr].
  destruct (Ascii.eqb x c); simpl; [exact (IH Hr) | now rewrite Hx, (IH Hr)].
Qed.

(** X21. The name of every extracted repository, which is the key of the
    dictionaries, contains neither a space nor a newline, and its url is
    [https://github.com] followed by the [href] of the heading link. *)
Theorem extracted_name_has_no_space :
  forall art repo,
    Extract.parse_article int_of art = Extract.Parsed repo ->
    Extract.has_char " "%char (repository_name repo) = false
    /\ Extract.has_char "010"%char (repository_name repo) = false
    /\ exists a href,
         Extract.h2_link art = Some (Some a)
         /\ Extract.a_href a = Some href
         /\ repository_url repo = String.append "https://github.com" href.
Proof.
  intros art repo. unfold Extract.parse_article, Extract.heading.
  destruct (Extract.h2_link art) as [[a|]|]; try discriminate.
  destruct (Extract.a_href a) as [href|] eqn:Hhref; [|discriminate].
  cbn [Extract.bind fst snd].
  destruct (Extract.select_one art _) as [star_tag|]; [|discriminate].
  cbn [Extract.bind].
  destruct (Extract.select_one art _) as [fork_tag|]; [|discriminate].
  cbn [Extract.bind].
  destruct (Extract.count_of int_of _) as [stars|]; [|discriminate].
  cbn [Extract.bind].
  destruct (Extract.count_of int_of _) as [forks|]; [|discriminate].
  cbn [Extract.bind].
  destruct (match Extract.date_range_stars_tag art with
            | Some _ => _ | None => _ end) as [drs|]; [|discriminate].
  cbn [Extract.bind]. intros H. injection H as <-.
  cbn [repository_name repository_url].
  split; [apply remove_char_gone|].
  split; [apply remove_char_keeps_absent, remove_char_gone|].
  exists a, href. auto.
Qed.

Lemma measure_parse_matches art :
  Measure.parse_article int_of art =
  Extract.bind (Extract.parse_article int_of art) (fun repo =>
  Extract.Parsed {| Measure.listed_name := repository_name repo;
                    Measure.listed_url := repository_url repo |}).
Proof.
  unfold Measure.parse_article, Extract.parse_article.
  destruct (Extract.heading art) as [nh|e]; [|reflexivity].
  cbn [Extract.bind].
  destruct (Extract.select_one art _) as [star_tag|]; [|reflexivity].
  cbn [Extract.bind].
  destruct (Extract.select_one art _) as [fork_tag|]; [|reflexivity].
  cbn [Extract.bind].
  destruct (Extract.count_of int_of _) as [stars|]; [|reflexivity].
  cbn [Extract.bind].
  destruct (Extract.count_of int_of _) as [forks|]; [|reflexivity].
  cbn [Extract.bind].
  destruct (match Extract.date_range_stars_tag art with
            | Some _ => _ | None => _ end) as [drs|]; reflexivity.
Qed.

(** X22. [measure.py] has no [try] around an article: it delivers a
    listing only when every article of the page parses, one entry per
    article, and then [gathering.py] extracts from the same page the
    repositories of the same names and urls, in the same order. *)
Theorem measure_lists_what_gathering_extracts :
  forall arts listed,
    Measure.collect int_of arts [] = Extract.Parsed listed ->
    List.length listed = List.length arts
    /\ exists records,
         Extract.get_records int_of arts = Extract.Parsed records
         /\ map (fun repo =>
                   {| Measure.listed_name := repository_name repo;
                      Measure.listed_url := repository_url repo |})
              records
            = listed.
Proof.
  intros arts listed. unfold Extract.get_records.
  assert (Hgen : forall (acc : list Measure.listing)
                        (racc : list EntityRecord),
    map (fun repo =>
           {| Measure.listed_name := repository_name repo;
              Measure.listed_url := repository_url repo |}) racc = acc ->
    Measure.collect int_of arts acc = Extract.Parsed listed ->
    List.length listed = List.length acc + List.length arts
    /\ exists records,
         Extract.collect int_of arts racc = Extract.Parsed records
         /\ map (fun repo =>
                   {| Measure.listed_name := repository_name repo;
                      Measure.listed_url := repository_url repo |})
              records
            = listed).
  { induction arts as [|art rest IH]; intros acc racc Hacc; simpl.
    - intros H. injection H as <-. split; [lia|]. exists racc. auto.
    - rewrite measure_parse_matches.
      destruct (Extract.parse_article int_of art) as [repo|e]; simpl;
        [|discriminate].
      intros H.
      assert (Hacc' :
        map (fun repo0 =>
               {| Measure.listed_name := repository_name repo0;
                  Measure.listed_url := repository_url repo0 |})
          (racc ++ [repo])
        = acc ++ [{| Measure.listed_name := repository_name repo;
                     Measure.listed_url := repository_url repo |}])
        by (rewrite map_app, Hacc; reflexivity).
      destruct (IH _ (racc ++ [repo]) Hacc' H)
        as (Hlen & records & Hrec & Hmap).
      split; [rewrite Hlen, length_app; simpl; lia|].
      exists records. auto. }
  intros H. destruct (Hgen [] [] eq_refl H) as (Hlen & Hex).
  split; [exact Hlen | exact Hex].
Qed.

End Extraction.

(** ** The scratch file of [measure.py] *)

Section Scratch.

Lemma leb_refl s : String.leb s s = true.
Proof. destruct (String.leb_total s s); assumption. Qed.

Lemma insert_sorted x l :
  Measure.is_sorted l = true -> Measure.is_sorted (Measure.insert x l) = true.
Proof.
  induction l as [|y rest IH]; intros Hl; [reflexivity|].
  cbn [Measure.insert].
  destruct (String.leb (Measure.listed_name x) (Measure.listed_name y))
    eqn:Hxy.
  - cbn [Measure.is_sorted]. cbn [Measure.is_sorted] in Hl.
    rewrite Hxy. exact Hl.
  - assert (Hyx : String.leb (Measure.listed_name y) (Measure.listed_name x)
                  = true).
    { destruct (String.leb_total (Measure.listed_name x)
                  (Measure.listed_name y)); congruence. }
    destruct rest as [|z rest'].
    + simpl. now rewrite Hyx.
    + cbn [Measure.is_sorted] in Hl. apply andb_true_iff in Hl.
      destruct Hl as [Hyz Hrest]. specialize (IH Hrest).
      cbn [Measure.insert] in *.
      destruct (String.leb (Measure.listed_name x) (Measure.listed_name z)).
      * cbn [Measure.is_sorted] in *. now rewrite Hyx, IH.
      * cbn [Measure.is_sorted] in *. now rewrite Hyz, IH.
Qed.

Lemma insert_perm x l : Permutation (x :: l) (Measure.insert x l).
Proof.
  induction l as [|y rest IH]; simpl; [apply Permutation_refl|].
  destruct (String.leb (Measure.listed_name x) (Measure.listed_name y)).
  - apply Permutation_refl.
  - eapply Permutation_trans; [apply perm_swap|].
    apply perm_skip. exact IH.
Qed.

Lemma insert_filter k x l :
  filter (fun e => String.eqb (Measure.listed_name e) k) (Measure.insert x l)
  = filter (fun e => String.eqb (Measure.listed_name e) k) (x :: l).
Proof.
  induction l as [|y rest IH]; [reflexivity|].
  cbn [Measure.insert].
  destruct (String.leb (Measure.listed_name x) (Measure.listed_name y))
    eqn:Hxy; [reflexivity|].
  cbn [filter] in *. rewrite IH.
  destruct (String.eqb_spec (Measure.listed_name x) k) as [Hx|_];
    [|reflexivity].
  destruct (String.eqb_spec (Measure.listed_name y) k) as [Hy|_];
    [|reflexivity].
  rewrite Hx, Hy, leb_refl in Hxy. discriminate.
Qed.

(** X23. The listing [measure.py] writes is the input sorted by name: it
    is in ascending order of the names, it holds the same entries, and
    the entries of one name keep the order they had. *)
Theorem sorted_is_the_stable_sort :
  forall data,
    Measure.is_sorted (Measure.sorted data) = true
    /\ Permutation data (Measure.sorted data)
    /\ forall k,
         filter (fun e => String.eqb (Measure.listed_name e) k)
           (Measure.sorted data)
         = filter (fun e => String.eqb (Measure.listed_name e) k) data.
Proof.
  induction data as [|x rest (Hsorted & Hperm & Hstable)].
  - repeat split. constructor.
  - cbn [Measure.sorted]. split; [|split].
    + apply insert_sorted. exact Hsorted.
    + eapply Permutation_trans; [|apply insert_perm].
      apply perm_skip. exact Hperm.
    + intros k. rewrite insert_filter. cbn [filter]. rewrite Hstable.
      reflexivity.
Qed.

Lemma selected_snoc (entries : list string) k :
  k = "temp/data.json" \/ k = "temp" ->
  selected (entries ++ [k]) = selected entries.
Proof.
  unfold selected. intros [-> | ->]; rewrite !filter_app; cbn;
    apply app_nil_r.
Qed.

Lemma selected_app (files dirs : list string) :
  selected (files ++ dirs) = selected files ++ selected dirs.
Proof. unfold selected. now rewrite !filter_app. Qed.

(** What a run of [measure.main] can change: it may create [temp] and it
    may write the scratch file. *)
Lemma measure_main_world dumps data w :
  (FS.files (snd (Measure.main dumps data w)) = FS.files w
   \/ exists text,
        FS.files (snd (Measure.main dumps data w)) =
        Dict.set "temp/data.json" text (FS.files w))
  /\ (FS.dirs (snd (Measure.main dumps data w)) = FS.dirs w
      \/ FS.dirs (snd (Measure.main dumps data w)) = FS.dirs w ++ ["temp"]).
Proof.
  unfold Measure.main, FS.bind, FS.path_exists.
  destruct (negb _); unfold FS.mkdir, FS.ret, FS.write_text;
    cbn [FS.denied FS.files FS.dirs];
    change (Str.norm "temp/data.json") with "temp/data.json";
    change (Str.norm "temp") with "temp";
    destruct (FS.is_in "temp/data.json" (FS.denied w)); simpl; eauto;
    destruct (negb (FS.is_dir _ _)); simpl; eauto.
Qed.

(** X24. The scratch file is invisible to the merge pass: whatever
    [measure.py] writes to [temp/data.json], the files the pass selects
    are the same before and after. *)
Theorem scratch_file_is_not_selected :
  forall dumps data w,
    fst (Organize.get_json_files (snd (Measure.main dumps data w)))
    = fst (Organize.get_json_files w).
Proof.
  intros dumps data w.
  destruct (measure_main_world dumps data w) as [Hfiles Hdirs].
  unfold Organize.get_json_files, FS.bind, FS.glob_ext, FS.ret.
  cbn [fst]. f_equal.
  change (selected
            (Dict.keys (FS.files (snd (Measure.main dumps data w)))
             ++ FS.dirs (snd (Measure.main dumps data w)))
          = selected (Dict.keys (FS.files w) ++ FS.dirs w)).
  rewrite !selected_app. f_equal.
  - destruct Hfiles as [-> | [text ->]]; [reflexivity|].
    rewrite dict_keys_set.
    destruct (Dict.mem "temp/data.json" (FS.files w)); [reflexivity|].
    apply selected_snoc. left. reflexivity.
  - destruct Hdirs as [-> | ->]; [reflexivity|].
    apply selected_snoc. right. reflexivity.
Qed.

End Scratch.

(** ** The probe of [main.py] *)

Section ProbeFacts.
Variable extract : string -> option (list EntityRecord).
Variable net : string -> Fetch.response.

Lemma probe_from all_langs : forall langs,
  fold_left
    (fun langs (item : list EntityRecord * string) =>
       if negb (Nat.eqb (List.length (fst item)) 0)
       then langs ++ [snd item] else langs)
    (combine
       (map
          (fun url =>
             Fetch.value
               (snd (Fetch.get_github_trending_repositories_async extract
                       net url)))
          (map Probe.url_of all_langs))
       all_langs)
    langs
  = langs
    ++ filter
         (fun l =>
            negb (Nat.eqb
                    (List.length
                       (Fetch.value
                          (snd (Fetch.get_github_trending_repositories_async
                                  extract net (Probe.url_of l)))))
                    0))
         all_langs.
Proof.
  induction all_langs as [|l rest IH]; intros langs;
    cbn [map combine fold_left filter].
  - now rewrite app_nil_r.
  - rewrite IH. cbn [fst snd].
    destruct (negb _); [now rewrite <- app_assoc | reflexivity].
Qed.

Lemma gather_values urls results :
  Fetch.gather extract net urls = Some results ->
  results =
  map (fun url =>
         Fetch.value
           (snd (Fetch.get_github_trending_repositories_async extract net
                   url)))
    urls.
Proof.
  unfold Fetch.gather. revert results.
  induction urls as [|url rest IH]; intros results; cbn [map Fetch.all_values].
  - intros H. injection H as <-. reflexivity.
  - destruct (snd (Fetch.get_github_trending_repositories_async extract net
                     url)) as [result|]; [|discriminate].
    destruct (Fetch.all_values _) as [vs|]; [|discriminate].
    intros H. injection H as <-. cbn [Fetch.value]. f_equal.
    apply IH. reflexivity.
Qed.

(** X25. In [main.py] the targets and the languages are built from the
    same list, so every result is judged against its own language: when
    no task raises, the languages kept are exactly those whose own page
    lists a repository, in the order of the discovery. When a task
    raises, that is when a retrieved page makes the extraction raise,
    [main] raises with it and keeps nothing. *)
Theorem probe_keeps_the_productive_languages :
  forall all_langs,
    Probe.main extract net all_langs =
    match Fetch.gather extract net (map Probe.url_of all_langs) with
    | Some _ =>
        Some (filter
                (fun l =>
                   negb (Nat.eqb
                           (List.length
                              (Fetch.value
                                 (snd (Fetch.get_github_trending_repositories_async
                                         extract net (Probe.url_of l)))))
                           0))
                all_langs)
    | None => None
    end
    /\ (Fetch.gather extract net (map Probe.url_of all_langs) = None <->
        exists l html,
          In l all_langs
          /\ net (Probe.url_of l) = Fetch.Body html
          /\ extract html = None).
Proof.
  intros all_langs. split.
  - unfold Probe.main.
    destruct (Fetch.gather extract net (map Probe.url_of all_langs))
      as [results|] eqn:Hg; [|reflexivity].
    rewrite (gather_values _ _ Hg). f_equal. apply (probe_from all_langs []).
  - rewrite gather_raises_iff. split.
    + intros (url & html & Hin & Hbody & Hex).
      apply in_map_iff in Hin. destruct Hin as (l & <- & Hl). eauto.
    + intros (l & html & Hl & Hbody & Hex).
      exists (Probe.url_of l), html.
      split; [apply in_map; exact Hl | auto].
Qed.

End ProbeFacts.

(** ** Worked examples of the further properties *)

Lemma run_memberships_come_from_the_run_witness :
  pub_since (Demo.seen "rust") = "daily"
  /\ pub_spoken_language_code (Demo.seen "rust") = "all"
  /\ exists result r,
       In (result, pub_language (Demo.seen "rust"))
         (combine Demo.scenario_results Demo.scenario_languages)
       /\ In r result
       /\ repository_name r = "octo/cat".
Proof.
  apply (run_memberships_come_from_the_run "all" "daily"
           (combine Demo.scenario_results Demo.scenario_languages)
           "octo/cat" (Demo.seen "rust")).
  right. left. reflexivity.
Defined.

Lemma merge_of_one_clean_file_witness :
  Dict.values (Organize.merge [[Demo.twice_seen; Samples.other_repo]])
  = [Demo.twice_seen; Samples.other_repo]
  /\ Dict.keys (Organize.merge [[Demo.twice_seen; Samples.other_repo]])
     = ["octo/cat"; "ferris/crab"].
Proof.
  apply (merge_of_one_clean_file [Demo.twice_seen; Samples.other_repo]).
  repeat constructor; simpl; intuition discriminate.
Defined.

Lemma load_list_after_save_list_witness :
  fst (Gathering.load_list "./temp/lang_list.txt"
         (snd (Gathering.save_list "./temp/lang_list.txt" ["go"; "c++"]
                 Demo.cached_world)))
  = Py.Return (Some ["go"; "c++"]).
Proof.
  apply (load_list_after_save_list "./temp/lang_list.txt" ["go"; "c++"]
           Demo.cached_world); reflexivity.
Defined.

Lemma load_list_returns_clean_items_witness :
  forallb clean_item ["python"; "rust"] = true.
Proof.
  apply (load_list_returns_clean_items "./temp/lang_list.txt"
           Demo.cached_world ["python"; "rust"]).
  reflexivity.
Defined.

Lemma run_without_cached_list_raises_witness :
  Gathering.main Demo.names_only Demo.line_pages Demo.weekly_net []
    "weekly" "all" Samples.empty_world
  = (Py.Raise Py.TypeError, Samples.empty_world).
Proof.
  apply (run_without_cached_list_raises Demo.names_only
           Demo.line_pages Demo.weekly_net [] "weekly" "all"
           Samples.empty_world); reflexivity.
Defined.

Lemma run_with_locked_output_changes_nothing_witness :
  Py.raises
    (fst (Gathering.main Demo.names_only Demo.line_pages
            Demo.weekly_net [] "weekly" "all" Samples.locked_run_world))
  = true
  /\ FS.files
       (snd (Gathering.main Demo.names_only Demo.line_pages
               Demo.weekly_net [] "weekly" "all" Samples.locked_run_world))
     = FS.files Samples.locked_run_world.
Proof.
  apply (run_with_locked_output_changes_nothing Demo.names_only
           Demo.line_pages Demo.weekly_net [] "weekly" "all"
           Samples.locked_run_world).
  reflexivity.
Defined.

Lemma default_run_writes_output_and_cache_witness :
  fst (Gathering.main Demo.names_only Demo.line_pages
         Samples.daily_net ["python"; "rust"] "daily" "all"
         Samples.empty_world)
  = Py.Return tt
  /\ Dict.get "temp/lang_list.txt"
       (FS.files
          (snd (Gathering.main Demo.names_only Demo.line_pages
                  Samples.daily_net ["python"; "rust"] "daily" "all"
                  Samples.empty_world)))
     = Some (list_text ["python"]).
Proof.
  assert (Hnot : ~ In "all" ["python"; "rust"])
    by (simpl; intuition discriminate).
  assert (Hreturn :
    forall url,
      In url (Gathering.urls_of "all" "daily" ["all"; "python"; "rust"]) ->
      snd (Fetch.get_github_trending_repositories_async Demo.line_pages
             Samples.daily_net url) <> None).
  { intros url [<-|[<-|[<-|[]]]]; vm_compute; discriminate. }
  destruct (default_run_writes_output_and_cache Demo.names_only
              Demo.line_pages Samples.daily_net ["python"; "rust"]
              Samples.empty_world Hnot Hreturn eq_refl eq_refl eq_refl)
    as (Hret & _ & Hcache & _).
  split; [exact Hret | exact Hcache].
Defined.

Lemma pass_with_bad_file_changes_nothing_witness :
  exists e,
    Organize.main Demo.names_only Demo.a_clock_reading Demo.unreadable_world
    = (Py.Raise e, Demo.unreadable_world).
Proof.
  apply (pass_with_bad_file_changes_nothing Demo.names_only
           Demo.a_clock_reading Demo.unreadable_world
           ["temp/daily-all.json"; "temp/weekly-all.json"]); reflexivity.
Defined.

Lemma archive_is_not_latest_witness :
  Str.norm (Organize.archive_path Demo.a_clock_reading) <> "data/latest.json".
Proof.
  exact (archive_is_not_latest Demo.a_clock_reading).
Defined.

Lemma second_pass_writes_the_same_content_witness :
  fst (Organize.main Demo.names_only (Demo.a_clock_reading + 3600)
         (snd (Organize.main Demo.names_only Demo.a_clock_reading
                 Demo.merge_world)))
  = Py.Return tt
  /\ Dict.get "data/latest.json"
       (FS.files
          (snd (Organize.main Demo.names_only (Demo.a_clock_reading + 3600)
                  (snd (Organize.main Demo.names_only Demo.a_clock_reading
                          Demo.merge_world)))))
     = Some (Demo.lines ["octo/cat"; "ferris/crab"]).
Proof.
  destruct (second_pass_writes_the_same_content Demo.names_only
              Demo.a_clock_reading (Demo.a_clock_reading + 3600)
              Demo.merge_world
              ["temp/daily-all.json"; "temp/weekly-all.json"]
              [[ {| record := Demo.repo "octo/cat" 0; published := [] |};
                 {| record := Demo.repo "ferris/crab" 0; published := [] |} ];
               [ {| record := Demo.repo "octo/cat" 0; published := [] |} ]]
              eq_refl eq_refl eq_refl eq_refl eq_refl eq_refl)
    as (_ & Hret & Hlatest & _).
  split; [exact Hret | exact Hlatest].
Defined.

Lemma merge_up_to_file_order_witness :
  Permutation
    (memberships (Organize.merge Samples.two_snapshots) "octo/cat")
    (memberships (Organize.merge Samples.two_snapshots_swapped) "octo/cat")
  /\ scalars (Organize.merge Samples.two_snapshots) "octo/cat"
     = scalars (Organize.merge Samples.two_snapshots_swapped) "octo/cat".
Proof.
  destruct (merge_up_to_file_order Samples.two_snapshots
              Samples.two_snapshots_swapped "octo/cat" (perm_swap _ _ _))
    as (_ & Hmem & Hscal).
  split; [exact Hmem|]. apply Hscal.
  intros e1 e2 H1 H2 _ _. simpl in H1, H2.
  destruct H1 as [<-|[<-|[]]], H2 as [<-|[<-|[]]]; reflexivity.
Defined.

Lemma finished_batch_frees_every_slot_witness :
  Fetch.permits
    (Fetch.run [0; 1; 0; 1; 0; 1; 0; 1; 0; 1; 0; 1; 0]
       (Fetch.batch Demo.line_pages Demo.weekly_net
          [Gathering.base_url "weekly";
           Gathering.language_url "all" "weekly" "python"]))
  = 5.
Proof.
  apply (finished_batch_frees_every_slot Demo.line_pages
           Demo.weekly_net
           [Gathering.base_url "weekly";
            Gathering.language_url "all" "weekly" "python"]
           [0; 1; 0; 1; 0; 1; 0; 1; 0; 1; 0; 1; 0]).
  reflexivity.
Defined.

Lemma discovery_reads_back_the_languages_witness :
  Discover.languages_of_paths
    (map (String.append "/trending/") ["python"; "c++"; "rust"])
  = ["python"; "c++"; "rust"].
Proof.
  apply (discovery_reads_back_the_languages ["python"; "c++"; "rust"]).
  reflexivity.
Defined.

Lemma failing_article_is_skipped_witness :
  Extract.get_records Samples.int_of
    ([Samples.cat] ++ Samples.odd_count :: [Samples.crab])
  = Extract.get_records Samples.int_of ([Samples.cat] ++ [Samples.crab]).
Proof.
  apply (failing_article_is_skipped Samples.int_of [Samples.cat]
           Samples.odd_count [Samples.crab]).
  right. reflexivity.
Defined.

Lemma page_raises_on_a_link_without_href_witness :
  Extract.get_records Samples.int_of
    [Samples.cat; Samples.odd_count; Samples.unlinked; Samples.unquotable]
  = Extract.Failed Extract.KeyError
  /\ Extract.get_records Samples.int_of
       [Samples.cat; Samples.unquotable; Samples.unlinked]
     = Extract.Failed Extract.SelectorSyntaxError
  /\ exists records,
       Extract.get_records Samples.int_of
         [Samples.cat; Samples.headless; Samples.crab]
       = Extract.Parsed records
       /\ List.length records <= 3.
Proof.
  split; [|split].
  - apply (proj1 (page_raises_on_a_link_without_href Samples.int_of
                    [Samples.cat; Samples.odd_count; Samples.unlinked;
                     Samples.unquotable])
             [Samples.cat; Samples.odd_count] Samples.unlinked
             [Samples.unquotable] Extract.KeyError eq_refl);
      [|reflexivity|reflexivity].
    intros x e' [<-|[<-|[]]]; vm_compute; intros H;
      [discriminate H | injection H as <-; reflexivity].
  - apply (proj1 (page_raises_on_a_link_without_href Samples.int_of
                    [Samples.cat; Samples.unquotable; Samples.unlinked])
             [Samples.cat] Samples.unquotable [Samples.unlinked]
             Extract.SelectorSyntaxError eq_refl);
      [|reflexivity|reflexivity].
    intros x e' [<-|[]]. vm_compute. intros H. discriminate H.
  - apply (proj1 (proj2 (page_raises_on_a_link_without_href Samples.int_of
                           [Samples.cat; Samples.headless; Samples.crab]))).
    intros art e [<-|[<-|[<-|[]]]]; vm_compute; intros H;
      try discriminate H; injection H as <-; reflexivity.
Defined.

Lemma extracted_name_has_no_space_witness :
  Extract.has_char " "%char (repository_name Samples.cat_record) = false
  /\ Extract.has_char "010"%char (repository_name Samples.cat_record) = false
  /\ exists a href,
       Extract.h2_link Samples.cat = Some (Some a)
       /\ Extract.a_href a = Some href
       /\ repository_url Samples.cat_record
          = String.append "https://github.com" href.
Proof.
  apply (extracted_name_has_no_space Samples.int_of Samples.cat
           Samples.cat_record).
  reflexivity.
Defined.

Lemma measure_lists_what_gathering_extracts_witness :
  List.length Samples.cat_and_crab_listed = 2
  /\ exists records,
       Extract.get_records Samples.int_of [Samples.cat; Samples.crab]
       = Extract.Parsed records
       /\ map (fun repo =>
                 {| Measure.listed_name := repository_name repo;
                    Measure.listed_url := repository_url repo |})
            records
          = Samples.cat_and_crab_listed.
Proof.
  apply (measure_lists_what_gathering_extracts Samples.int_of
           [Samples.cat; Samples.crab] Samples.cat_and_crab_listed).
  reflexivity.
Defined.

(** The batch of two targets, one step at a time for each task in turn:
    thirteen steps finish it. *)
Example two_tasks_finish :
  finished
    (Fetch.run [0; 1; 0; 1; 0; 1; 0; 1; 0; 1; 0; 1; 0]
       (Fetch.batch Demo.line_pages Demo.weekly_net
          [Gathering.base_url "weekly";
           Gathering.language_url "all" "weekly" "python"]))
  = true.
Proof. reflexivity. Qed.
